(** * Workflows of the Pica/Mastra project assistant

    A shallow embedding of the three workflow definitions of the repository,
    [src/mastra/workflows/document-research-workflow.ts],
    [src/mastra/workflows/project-onboarding-workflow.ts] and
    [src/mastra/workflows/simple-demo-workflow.ts], together with a model
    of the run driver that executes them.

    Layout:
    - [JS]       : JavaScript values, objects, truthiness, [||], spread;
    - [Exec]     : the effects of a step body (events, exceptions, try/catch);
    - [Zod]      : the schema combinators the steps' contracts are made of;
    - [Engine]   : steps, nodes, outcomes and the run driver;
    - [Research] : the document-research workflow;
    - [Onboard]  : the project-onboarding workflow;
    - [Demo]     : the simple demo workflow;
    - the theorems. *)

From Stdlib Require Import List String Ascii ZArith Bool Lia Permutation.
From Stdlib Require Import DecimalString.
From Stdlib Require SpecFloat.
Import ListNotations.

Set Warnings "-register-all".

Local Open Scope list_scope.
Local Open Scope string_scope.

(* ===================================================================== *)
(** ** JavaScript values *)
(* ===================================================================== *)

Module JS.

(** Numbers are the integers: every number the two workflows compute
    (lengths, sums of lengths, the constant 75, list positions) is one.  A
    parsed number with a fraction is outside the model. *)
Inductive JSValue : Type :=
| VUndefined
| VNull
| VBool (b : bool)
| VNum (n : Z)
| VStr (s : string)
| VArr (items : list JSValue)
| VObj (fields : list (string * JSValue)).

(** An object is its own enumerable properties in insertion order. *)
Definition JSObject : Type := list (string * JSValue).

(** [o.k] / [o["k"]]: a missing property reads as [undefined]. *)
Fixpoint get (k : string) (o : JSObject) : JSValue :=
  match o with
  | [] => VUndefined
  | (k', v) :: rest => if String.eqb k k' then v else get k rest
  end.

Fixpoint has (k : string) (o : JSObject) : bool :=
  match o with
  | [] => false
  | (k', _) :: rest => if String.eqb k k' then true else has k rest
  end.

(** [o.k = v]: an existing property keeps its place, a new one is added
    last. *)
Fixpoint set (k : string) (v : JSValue) (o : JSObject) : JSObject :=
  match o with
  | [] => [(k, v)]
  | (k', v') :: rest =>
      if String.eqb k k' then (k', v) :: rest else (k', v') :: set k v rest
  end.

Definition keys (o : JSObject) : list string := map fst o.

(** The value the last definition of [k] in [props] gives, [d] if there
    is none. *)
Fixpoint get_last (k : string) (props : list (string * JSValue)) (d : JSValue) : JSValue :=
  match props with
  | [] => d
  | (k', v) :: rest => get_last k rest (if String.eqb k k' then v else d)
  end.

(** [{...base, k1: v1, ..., kn: vn}]: the properties are defined left to
    right over a copy of [base]. *)
Definition extend (base : JSObject) (props : list (string * JSValue)) : JSObject :=
  fold_left (fun acc kv => set (fst kv) (snd kv) acc) props base.

(** [{k1: v1, ..., kn: vn}] *)
Definition object (props : list (string * JSValue)) : JSObject := extend [] props.

Definition nat_to_string (n : nat) : string :=
  NilEmpty.string_of_uint (Nat.to_uint n).

Definition Z_to_string (z : Z) : string :=
  NilZero.string_of_int (Z.to_int z).

Fixpoint index_props_from {A} (f : A -> JSValue) (i : nat) (l : list A) : JSObject :=
  match l with
  | [] => []
  | x :: rest => (nat_to_string i, f x) :: index_props_from f (S i) rest
  end.

(** The own enumerable properties [{...v}] copies: those of an object, the
    indexed elements of an array, the indexed characters of a string, and
    none for [undefined], [null], booleans and numbers. *)
Definition own_props (v : JSValue) : JSObject :=
  match v with
  | VObj fields => fields
  | VArr items => index_props_from (fun x => x) 0 items
  | VStr s => index_props_from (fun c => VStr (String c EmptyString)) 0 (list_ascii_of_string s)
  | _ => []
  end.

(** ToBoolean. *)
Definition truthy (v : JSValue) : bool :=
  match v with
  | VUndefined | VNull => false
  | VBool b => b
  | VNum n => negb (Z.eqb n 0)
  | VStr s => negb (String.eqb s "")
  | VArr _ | VObj _ => true
  end.

(** [a || b] *)
Definition or (a b : JSValue) : JSValue := if truthy a then a else b.

(** [v === true] *)
Definition is_true (v : JSValue) : bool :=
  match v with VBool true => true | _ => false end.

(** [xs.includes(x)] on an array of strings. *)
Definition includes (xs : list string) (x : string) : bool :=
  existsb (String.eqb x) xs.

(** [xs.join(sep)] on an array of strings. *)
Definition join (sep : string) (xs : list string) : string := String.concat sep xs.

(** [s.length] counts UTF-16 code units; a text is held here as its UTF-8
    bytes.  A continuation byte adds nothing, the lead byte of a four-byte
    sequence (a character outside the basic plane, a surrogate pair) adds
    two, any other byte one. *)
Definition code_units (c : ascii) : nat :=
  let n := nat_of_ascii c in
  if (Nat.leb 128 n && Nat.ltb n 192)%bool then 0
  else if Nat.leb 240 n then 2
  else 1.

Fixpoint str_length (s : string) : nat :=
  match s with
  | EmptyString => 0
  | String c rest => code_units c + str_length rest
  end.

(** A text of ASCII characters only: what [toLowerCase], [toUpperCase] and
    the character classes of this file are exact on. *)
Definition is_ascii (s : string) : Prop :=
  Forall (fun c => nat_of_ascii c < 128) (list_ascii_of_string s).

(** The integers a number holds exactly and prints in plain decimal
    ([Number.isSafeInteger]). *)
Definition safe_integer (n : Z) : Prop :=
  (- 9007199254740991 <= n <= 9007199254740991)%Z.

(** [v?.length] for the values a results field can hold. *)
Definition opt_length (v : JSValue) : JSValue :=
  match v with
  | VArr items => VNum (Z.of_nat (List.length items))
  | VStr s => VNum (Z.of_nat (str_length s))
  | _ => VUndefined
  end.

(** [a + b] on numbers (the only use in the workflows). *)
Definition add (a b : JSValue) : JSValue :=
  match a, b with
  | VNum x, VNum y => VNum (x + y)
  | _, _ => VUndefined
  end.

Definition of_opt {A} (f : A -> JSValue) (o : option A) : JSValue :=
  match o with Some a => f a | None => VUndefined end.

Definition strings (l : list string) : JSValue := VArr (map VStr l).

(** White space that [String.prototype.trim] strips, within ASCII. *)
Definition is_space (c : ascii) : bool :=
  let n := nat_of_ascii c in
  (Nat.eqb n 32 || (Nat.leb 9 n && Nat.leb n 13))%bool.

Fixpoint ltrim (cs : list ascii) : list ascii :=
  match cs with
  | c :: rest => if is_space c then ltrim rest else cs
  | [] => []
  end.

(** [s.trim()] *)
Definition trim (s : string) : string :=
  string_of_list_ascii
    (rev (ltrim (rev (ltrim (list_ascii_of_string s))))).

End JS.

Import JS.

(* ===================================================================== *)
(** ** Effects of a step body *)
(* ===================================================================== *)

Module Exec.

(** A thrown JavaScript error, by its message. *)
Inductive JSError : Type := Error (message : string).

Inductive Result (A : Type) : Type :=
| Ok (a : A)
| Throw (e : JSError).
Arguments Ok {A} a.
Arguments Throw {A} e.

(** What a run leaves behind, in program order. [EvCall] marks the entry
    into one of the workflow file's helper functions or an outside service;
    [EvSuspend] and [EvBail] are the step's calls of the [suspend] and
    [bail] handles the driver passes in; [EvEnter] is written by the driver
    when it invokes the node at a cursor. *)
Inductive Event : Type :=
| EvWrite (notice : JSObject)
| EvLog (message : string)
| EvError (message : string)
| EvCall (fn : string) (args : list JSValue)
| EvSuspend (payload : JSObject)
| EvBail (record : JSObject)
| EvEnter (cursor : nat) (id : string).

Definition Trace : Type := list Event.

(** A computation that has run: the events it produced and how it ended. *)
Definition Exec (A : Type) : Type := Trace * Result A.

Definition ret {A} (a : A) : Exec A := ([], Ok a).

Definition throw {A} (e : JSError) : Exec A := ([], Throw e).

Definition bind {A B} (m : Exec A) (k : A -> Exec B) : Exec B :=
  match m with
  | (t, Ok a) => let (t', r) := k a in ((t ++ t')%list, r)
  | (t, Throw e) => (t, Throw e)
  end.

Definition emit (e : Event) : Exec unit := ([e], Ok tt).

(** [try { body } catch (error) { handler }] *)
Definition try_catch {A} (body : Exec A) (handler : JSError -> Exec A) : Exec A :=
  match body with
  | (t, Ok a) => (t, Ok a)
  | (t, Throw e) => let (t', r) := handler e in ((t ++ t')%list, r)
  end.

Definition lift {A} (r : Result A) : Exec A := ([], r).

Declare Scope exec_scope.
Delimit Scope exec_scope with exec.
Notation "x <- m ;; k" := (bind m (fun x => k))
  (at level 61, m at next level, right associativity) : exec_scope.
Notation "m ;; k" := (bind m (fun _ => k))
  (at level 61, right associativity) : exec_scope.

(** [await suspend(payload)]: the call returns and the body goes on. *)
Definition suspend (payload : JSObject) : Exec unit := emit (EvSuspend payload).

(** [bail(record)] *)
Definition bail (record : JSObject) : Exec JSObject :=
  bind (emit (EvBail record)) (fun _ => ret record).

(** [for (const x of xs) { body }] *)
Fixpoint for_of {A S} (xs : list A) (body : S -> A -> Exec S) (s : S) : Exec S :=
  match xs with
  | [] => ret s
  | x :: rest => bind (body s x) (for_of rest body)
  end.

(** Three classes of events: the driver's own, the two control signals
    of a step body, and the entries into the publish operations. *)
Definition is_enter (e : Event) : bool :=
  match e with EvEnter _ _ => true | _ => false end.

Definition is_suspend (e : Event) : bool :=
  match e with EvSuspend _ => true | _ => false end.

Definition is_signal (e : Event) : bool :=
  match e with EvSuspend _ | EvBail _ => true | _ => false end.

Definition is_publish_call (e : Event) : bool :=
  match e with
  | EvCall fn _ =>
      (String.eqb fn "createGoogleDoc" || String.eqb fn "postToSlack"
       || String.eqb fn "sendEmail")%bool
  | _ => false
  end.

(** An event of a step body that neither signals the driver nor publishes. *)
Definition plain (e : Event) : Prop :=
  is_enter e = false /\ is_signal e = false /\ is_publish_call e = false.

(** An event of a run whose cursor has not passed [c], before anything is
    published. *)
Definition upto (c : nat) (e : Event) : Prop :=
  is_publish_call e = false
  /\ match e with EvEnter k _ => k <= c | _ => True end.

(** Every event a computation produced satisfies [P]. *)
Definition emits (P : Event -> Prop) {X : Type} (m : Exec X) : Prop :=
  Forall P (fst m).

End Exec.

Import Exec.

(* ===================================================================== *)
(** ** The host: what the workflows take from outside their own code *)
(* ===================================================================== *)

Module Host.

(** [agent.generate(prompt, { resourceId, threadId })], by its [text]. *)
Record Agent : Type := {
  generate : string -> string -> string -> Result string
}.

(** One host fixes the answer of every call that leaves the workflow files:
    runtime builtins whose code is not part of the repository
    ([JSON.parse], [JSON.stringify], the e-mail pattern of the schema
    library), the console, the clock, the random source, the completion
    service and the [mastra] instance with its agent registry.  A call
    made twice with the same arguments gets the same answer.  The code
    reads the clock and draws a random number anew at each call; a host
    holds one reading of each, the one a step body gets when it runs, and
    no theorem of this file relates two readings. *)
Record Host : Type := {
  console_log : string -> Result unit;
  generateText : string -> Result string;
  JSON_parse : string -> Result JSValue;
  JSON_stringify : JSValue -> string;
  is_email : string -> bool;
  Date_now : Z;
  Date_toLocaleString : string;
  Date_toISOString : string;
  Math_random_toString36 : string;
  mastra : option (string -> option Agent)
}.

(** [console.log(message)] *)
Definition log (h : Host) (message : string) : Exec unit :=
  bind (lift (console_log h message)) (fun _ => emit (EvLog message)).

(** [console.error(message, error)] *)
Definition log_error (message : string) : Exec unit := emit (EvError message).

(** [writer?.write(notice)]: observational only. *)
Definition write (notice : list (string * JSValue)) : Exec unit :=
  emit (EvWrite (object notice)).

(** [mastra?.getAgent(name)] *)
Definition getAgent (h : Host) (name : string) : option Agent :=
  match mastra h with
  | Some registry => registry name
  | None => None
  end.

End Host.

Import Host.

(* ===================================================================== *)
(** ** Schemas *)
(* ===================================================================== *)

(** A schema is read as a parser: it checks a value and returns what the
    step body sees as [inputData], typed as the schema infers it, defaults
    filled. *)
Module Zod.

Definition Schema (A : Type) : Type := JSValue -> option A.

Definition obind {A B} (m : option A) (k : A -> option B) : option B :=
  match m with Some a => k a | None => None end.

Declare Scope zod_scope.
Delimit Scope zod_scope with zod.
Notation "x <- m ;; k" := (obind m (fun x => k))
  (at level 61, m at next level, right associativity) : zod_scope.

(** [z.string()] *)
Definition z_string : Schema string :=
  fun v => match v with VStr s => Some s | _ => None end.

(** [z.string().min(n)]: at least [n] code units, as [s.length] counts
    them. *)
Definition z_string_min (n : nat) : Schema string :=
  fun v => match v with
           | VStr s => if Nat.leb n (str_length s) then Some s else None
           | _ => None
           end.

(** [z.string().email()] *)
Definition z_email (h : Host) : Schema string :=
  fun v => match v with
           | VStr s => if is_email h s then Some s else None
           | _ => None
           end.

(** [z.boolean()] *)
Definition z_boolean : Schema bool :=
  fun v => match v with VBool b => Some b | _ => None end.

(** [z.number()] *)
Definition z_number : Schema Z :=
  fun v => match v with VNum n => Some n | _ => None end.

(** [z.any()] *)
Definition z_any : Schema JSValue := fun v => Some v.

(** [z.enum([...])] *)
Definition z_enum (allowed : list string) : Schema string :=
  fun v => match v with
           | VStr s => if includes allowed s then Some s else None
           | _ => None
           end.

Fixpoint all_items {A} (item : Schema A) (l : list JSValue) : option (list A) :=
  match l with
  | [] => Some []
  | v :: rest =>
      match item v, all_items item rest with
      | Some a, Some r => Some (a :: r)
      | _, _ => None
      end
  end.

(** [z.array(item)] *)
Definition z_array {A} (item : Schema A) : Schema (list A) :=
  fun v => match v with VArr l => all_items item l | _ => None end.

(** [z.array(item).min(n)] *)
Definition z_array_min {A} (item : Schema A) (n : nat) : Schema (list A) :=
  fun v => match z_array item v with
           | Some l => if Nat.leb n (List.length l) then Some l else None
           | None => None
           end.

(** [s.optional()] *)
Definition z_optional {A} (s : Schema A) : Schema (option A) :=
  fun v => match v with
           | VUndefined => Some None
           | _ => option_map Some (s v)
           end.

(** [s.default(d)]: an [undefined] input is replaced by [d] before [s]
    reads it. *)
Definition z_default {A} (s : Schema A) (d : JSValue) : Schema A :=
  fun v => match v with
           | VUndefined => s d
           | _ => s v
           end.

(** What [.default(d)] leaves in the object a schema accepts: a field
    that is [undefined] holds the default, any other holds what it held. *)
Definition fill (k : string) (d : JSValue) (o : JSObject) : JSObject :=
  match get k o with
  | VUndefined => set k d o
  | _ => o
  end.

(** [z.object({...})]: [shape] reads the declared fields off the object. *)
Definition z_object {A} (shape : JSObject -> option A) : Schema A :=
  fun v => match v with VObj fields => shape fields | _ => None end.

End Zod.

Import Zod.

(* ===================================================================== *)
(** ** The run driver *)
(* ===================================================================== *)

(** The driver behind [createStep], [createWorkflow], [.then], [.branch],
    [.map], [suspend] and [bail] is the workflow library the repository
    imports; its code is not among the repository's files.  It is written
    here after the design document (sections 2, 3, 4.2, 4.3 and 4.5).

    The record a node receives is the output of the node before it
    (section 2: its output feeds the next Step).  The workflows thread
    the accumulated record that way: every step copies into its own output
    each field a later step reads, and the onboarding and demo steps copy
    the whole of their input.  Section 4.2 words the hand-over as a merge
    of the output into the accumulated data; for these workflows the two
    differ only in fields that no later node reads. *)
Module Engine.

(** Modelled from the spec: the status of a Run (section 3); the driver's
    code is not in the repository. *)
Inductive Status : Type :=
| Pending | Running | Suspended | Succeeded | Failed | Bailed.

(** Modelled from the spec: the error taxonomy (section 7). *)
Inductive RunError : Type :=
| ValidationError (stepId : string)
| RoutingError
| ExecutionError (stepId : string) (e : JSError)
| InvalidStateError.

(** Modelled from the spec: the tagged result of one step (section 3). *)
Inductive Outcome : Type :=
| Continue (record : JSObject)
| Suspend (checkpointPayload : JSObject)
| Bail (finalRecord : JSObject)
| Fail (error : JSError).

(** The payload of the first [suspend] call of a body, if it made one. *)
Fixpoint suspend_called (t : Trace) : option JSObject :=
  match t with
  | [] => None
  | EvSuspend p :: _ => Some p
  | _ :: rest => suspend_called rest
  end.

(** The record of the first [bail] call of a body, if it made one. *)
Fixpoint bail_called (t : Trace) : option JSObject :=
  match t with
  | [] => None
  | EvBail r :: _ => Some r
  | _ :: rest => bail_called rest
  end.

(** Modelled from the spec: how a finished step body is read as an Outcome
    (sections 3 and 4.2).  A body that threw fails; one that called
    [suspend] suspends with the payload it passed, whatever it returned
    afterwards; one that called [bail] bails with the record it passed;
    any other continues with its return value. *)
Definition outcome_of (e : Exec JSObject) : Outcome :=
  match e with
  | (_, Throw err) => Fail err
  | (t, Ok r) =>
      match suspend_called t with
      | Some payload => Suspend payload
      | None =>
          match bail_called t with
          | Some final => Bail final
          | None => Continue r
          end
      end
  end.

(** Modelled from the spec: what entering a step with the accumulated data
    gives (sections 4.1, 4.2 and 4.5): the input contract rejects the data,
    the resume contract rejects the resume data, or the body runs. *)
Inductive Entered : Type :=
| Rejected
| ResumeRejected
| Ran (e : Exec JSObject).

(** Modelled from the spec: a Step (section 3), its contracts and body
    folded into one function of the accumulated data and the resume data,
    if any. *)
Record Step : Type := {
  step_id : string;
  step_enter : Host -> JSObject -> option JSValue -> Entered
}.

(** Modelled from the spec: [validate(record) -> accepted(record')]
    (section 4.1).  [reads] checks the declared fields and gives them as
    the step body reads them; [fills] fills the defaults in.  The accepted
    record is the record given with its defaults filled: no field outside
    the declared shape is dropped, so a body that copies its input
    ([{ ...inputData }]) hands on every field it was given. *)
Definition accepted {I : Type} (reads : Host -> JSObject -> option I)
    (fills : JSObject -> JSObject) (h : Host) (record : JSObject)
    : option (I * JSObject) :=
  match reads h record with
  | Some inputData => Some (inputData, fills record)
  | None => None
  end.

(** Modelled from the spec: [createStep({ id, inputSchema, resumeSchema,
    execute })], the library's constructor of a step with a resume
    contract (sections 3 and 4.5).  The input contract is checked first
    and gives the body its [inputData]: the declared fields as the
    contract read them and, for a body that copies its input, the
    accepted record with them ([accepted]).  Resume data, when there is
    any, must pass the resume contract. *)
Definition createSuspendableStep {I R : Type} (id : string)
    (inputSchema : Host -> JSObject -> option I)
    (resumeSchema : Schema R)
    (execute : Host -> I -> option R -> Exec JSObject) : Step :=
  {| step_id := id;
     step_enter := fun h acc resumeData =>
       match inputSchema h acc with
       | None => Rejected
       | Some inputData =>
           match resumeData with
           | None => Ran (execute h inputData None)
           | Some rd =>
               match resumeSchema rd with
               | None => ResumeRejected
               | Some r => Ran (execute h inputData (Some r))
               end
           end
       end |}.

(** Modelled from the spec: [createStep({ id, inputSchema, execute })], a
    step that is never resumed (section 3). *)
Definition createStep {I : Type} (id : string)
    (inputSchema : Host -> JSObject -> option I)
    (execute : Host -> I -> Exec JSObject) : Step :=
  createSuspendableStep (R := unit) id inputSchema (fun _ => None)
    (fun h inputData _ => execute h inputData).

(** Modelled from the spec: a Node of a Pipeline (section 3): a step, a
    branch with its ordered [(guard, target)] pairs, or a mapping. *)
Inductive Node : Type :=
| NStep (s : Step)
| NBranch (alternatives : list ((JSObject -> bool) * Step))
| NMap (id : string) (f : JSObject -> JSObject).

Definition Pipeline : Type := list Node.

(** Modelled from the spec: branch evaluation (section 4.3).  The guards
    are tested in declaration order against the accumulated data; the first
    that holds selects its target and the remaining ones are not
    evaluated. *)
Fixpoint select_branch (alternatives : list ((JSObject -> bool) * Step))
    (acc : JSObject) : option Step :=
  match alternatives with
  | [] => None
  | (guard, target) :: rest =>
      if guard acc then Some target else select_branch rest acc
  end.

(** Modelled from the spec: a SuspensionCheckpoint (section 3). *)
Record Checkpoint : Type := {
  ck_stepId : string;
  ck_payload : JSObject;
  ck_snapshot : JSObject
}.

(** Modelled from the spec: a Run (section 3).  [accumulatedData] is the
    record under the cursor; [history] is the per-run sequence of events
    (section 4.6). *)
Record Run : Type := {
  status : Status;
  cursor : nat;
  accumulatedData : JSObject;
  suspensionCheckpoint : option Checkpoint;
  output : option JSObject;
  error : option RunError;
  history : Trace
}.

(** Modelled from the spec: what one node did (section 4.2): it ran to an
    Outcome, or a contract rejected what it was given. *)
Inductive Step_result : Type :=
| Went (o : Outcome)
| Invalid (e : RunError).

(** Modelled from the spec: entering one step (section 4.2, steps 1 to
    3).  The driver records the entry once the contracts have accepted. *)
Definition run_step (h : Host) (cur : nat) (s : Step) (acc : JSObject)
    (resumeData : option JSValue) : Trace * Step_result :=
  match step_enter s h acc resumeData with
  | Rejected => ([], Invalid (ValidationError (step_id s)))
  | ResumeRejected => ([], Invalid (ValidationError (step_id s)))
  | Ran e => (EvEnter cur (step_id s) :: fst e, Went (outcome_of e))
  end.

(** Modelled from the spec: the record a branch hands to the merge step
    that follows it (section 4.3).  It is keyed by the id of the target
    that ran: the merge step of the research workflow declares its input as
    [{ "human-approval"?: ..., "auto-approve"?: ... }] and picks the key
    that is present. *)
Definition keyed (s : Step) (r : Step_result) : Step_result :=
  match r with
  | Went (Continue record) => Went (Continue [(step_id s, VObj record)])
  | other => other
  end.

(** Modelled from the spec: invoking the node under the cursor (sections
    4.2 and 4.3); a branch none of whose guards holds is a routing error. *)
Definition invoke (h : Host) (cur : nat) (n : Node) (acc : JSObject)
    : Trace * Step_result * option Step :=
  match n with
  | NStep s => (run_step h cur s acc None, Some s)
  | NBranch alternatives =>
      match select_branch alternatives acc with
      | None => ([], Invalid RoutingError, None)
      | Some s =>
          let (t, r) := run_step h cur s acc None in (t, keyed s r, Some s)
      end
  | NMap id f => ([EvEnter cur id], Went (Continue (f acc)), None)
  end.

Definition id_of (s : option Step) : string :=
  match s with Some s => step_id s | None => "" end.

Definition finished (st : Status) (cur : nat) (acc : JSObject)
    (out : option JSObject) (err : option RunError) (hist : Trace) : Run :=
  {| status := st; cursor := cur; accumulatedData := acc;
     suspensionCheckpoint := None; output := out; error := err;
     history := hist |}.

Definition parked (cur : nat) (acc : JSObject) (ck : Checkpoint) (hist : Trace) : Run :=
  {| status := Suspended; cursor := cur; accumulatedData := acc;
     suspensionCheckpoint := Some ck; output := None; error := None;
     history := hist |}.

(** Modelled from the spec: what the driver does with the result of the
    node under the cursor (section 4.2, step 3), [rest] being what it does
    on [Continue] with the record handed on. *)
Definition settle_node (cur : nat) (acc : JSObject) (hist : Trace)
    (res : Trace * Step_result * option Step)
    (rest : JSObject -> Trace -> Run) : Run :=
  match res with
  | (t, Went (Continue record), _) => rest record (hist ++ t)%list
  | (t, Went (Suspend payload), s) =>
      parked cur acc
        {| ck_stepId := id_of s; ck_payload := payload; ck_snapshot := acc |}
        (hist ++ t)%list
  | (t, Went (Bail final), _) => finished Bailed cur acc (Some final) None (hist ++ t)%list
  | (t, Went (Fail e), s) =>
      finished Failed cur acc None (Some (ExecutionError (id_of s) e)) (hist ++ t)%list
  | (t, Invalid e, _) => finished Failed cur acc None (Some e) (hist ++ t)%list
  end.

(** Modelled from the spec: the driver loop (section 4.2).  One node at a
    time, from the cursor on; the record of the last node is the
    workflow's output. *)
Fixpoint drive (h : Host) (nodes : list Node) (cur : nat) (acc : JSObject)
    (hist : Trace) : Run :=
  match nodes with
  | [] => finished Succeeded cur acc (Some acc) None hist
  | n :: rest =>
      settle_node cur acc hist (invoke h cur n acc)
        (fun acc' hist' => drive h rest (S cur) acc' hist')
  end.

(** Modelled from the spec: [start(pipelineId, initialInput)] (section 6). *)
Definition start (h : Host) (p : Pipeline) (initialInput : JSObject) : Run :=
  drive h p 0 initialInput [].

(** Modelled from the spec: the step a checkpoint names, in the node under
    the cursor (section 3: the cursor is an index into the pipeline and
    the branch path taken). *)
Definition suspended_step (n : Node) (stepId : string) : option Step :=
  match n with
  | NStep s => if String.eqb (step_id s) stepId then Some s else None
  | NBranch alternatives =>
      find (fun s => String.eqb (step_id s) stepId) (map snd alternatives)
  | NMap _ _ => None
  end.

Definition is_branch (n : Node) : bool :=
  match n with NBranch _ => true | _ => false end.

(** Modelled from the spec: what a resume call gives (section 4.5): the
    run as it went on, or a refusal that leaves the run as it was. *)
Inductive Resumed : Type :=
| Resumed_run (r : Run)
| Refused (e : RunError).

(** Modelled from the spec: [resume(runId, resumeData)] (sections 4.5 and
    6).  A run that is not suspended refuses with an invalid-state error;
    resume data its contract rejects refuses with a validation error, and
    the run stays as it was.  Otherwise the suspended step is entered again
    with the resume data and the snapshot, and the driver goes on from
    there. *)
Definition resume (h : Host) (p : Pipeline) (r : Run) (resumeData : JSValue)
    : Resumed :=
  match status r, suspensionCheckpoint r with
  | Suspended, Some ck =>
      match skipn (cursor r) p with
      | [] => Refused InvalidStateError
      | n :: rest =>
          match suspended_step n (ck_stepId ck) with
          | None => Refused InvalidStateError
          | Some s =>
              match step_enter s h (ck_snapshot ck) (Some resumeData) with
              | ResumeRejected => Refused (ValidationError (step_id s))
              | _ =>
                  let (t, res) := run_step h (cursor r) s (ck_snapshot ck) (Some resumeData) in
                  Resumed_run
                    (settle_node (cursor r) (ck_snapshot ck) (history r)
                       (t, (if is_branch n then keyed s res else res), Some s)
                       (fun acc' hist' => drive h rest (S (cursor r)) acc' hist'))
              end
          end
      end
  | _, _ => Refused InvalidStateError
  end.

(** A step none of whose bodies calls [suspend], and a node made of such
    steps. *)
Definition quiet_step (s : Step) : Prop :=
  forall h acc resumeData e,
    step_enter s h acc resumeData = Ran e ->
    Forall (fun ev => is_suspend ev = false) (fst e).

Definition quiet_node (n : Node) : Prop :=
  match n with
  | NStep s => quiet_step s
  | NBranch alternatives => Forall quiet_step (map snd alternatives)
  | NMap _ _ => True
  end.

(** Modelled from the spec: a run that has not ended goes on with the
    nodes that follow (section 4.2, step 4). *)
Definition continue_with (h : Host) (nodes : list Node) (r : Run) : Run :=
  match status r with
  | Succeeded => drive h nodes (cursor r) (accumulatedData r) (history r)
  | _ => r
  end.

End Engine.

Import Engine.

(* ===================================================================== *)
(** ** Text helpers shared by the two workflows *)
(* ===================================================================== *)

Definition nl : string := String (ascii_of_nat 10) EmptyString.

Definition dquote : string := String (ascii_of_nat 34) EmptyString.

(** The text of a template literal, given by its lines. *)
Definition lines (ls : list string) : string := JS.join nl ls.

(** [s || fallback] on strings. *)
Definition str_or (s fallback : string) : string :=
  if String.eqb s "" then fallback else s.

(** [s || fallback] where [s] may be [undefined]. *)
Definition opt_str_or (s : option string) (fallback : string) : string :=
  match s with
  | Some s => str_or s fallback
  | None => fallback
  end.

(** [xs.map((x, i) => f(x, i))] *)
Fixpoint mapi_from {A B} (f : A -> nat -> B) (i : nat) (xs : list A) : list B :=
  match xs with
  | [] => []
  | x :: rest => f x i :: mapi_from f (S i) rest
  end.

(* ===================================================================== *)
(** ** The document-research workflow *)
(* ===================================================================== *)

Module Research.

Local Open Scope zod_scope.

Definition platformNames : list string := ["google-drive"; "github"; "slack"].
Definition channelNames : list string := ["slack"; "email"; "google-drive"].

(** [z.array(z.enum(["slack", "email", "google-drive"])).optional()], the
    [publishChannels] field of every schema of the workflow. *)
Definition publishChannelsSchema : Schema (option (list string)) :=
  z_optional (z_array (z_enum channelNames)).

(** The channels a contract accepted are accepted again once a step has
    written them back. *)
Definition valid_channels (pc : option (list string)) : Prop :=
  publishChannelsSchema (of_opt strings pc) = Some pc.

(** *** Step 1: search-documents *)

Record SearchInput : Type := {
  si_query : string;
  si_platforms : option (list string);
  si_requireApproval : bool;
  si_publishChannels : option (list string)
}.

Definition searchInputSchema (_ : Host) (o : JSObject) : option SearchInput :=
  query <- z_string (get "query" o) ;;
  platforms <- z_optional (z_array (z_enum platformNames)) (get "platforms" o) ;;
  requireApproval <- z_default z_boolean (VBool true) (get "requireApproval" o) ;;
  publishChannels <- publishChannelsSchema (get "publishChannels" o) ;;
  Some {| si_query := query; si_platforms := platforms;
          si_requireApproval := requireApproval;
          si_publishChannels := publishChannels |}.

Local Open Scope exec_scope.

Definition searchGoogleDrive (h : Host) (query : string) : Exec (list JSValue) :=
  emit (EvCall "searchGoogleDrive" [VStr query]) ;;
  try_catch
    (log h ("Searching Google Drive for: " ++ query) ;;
     ret [VObj [("id", VStr "1"); ("name", VStr ("Document about " ++ query));
                ("type", VStr "document")]])
    (fun error =>
       log_error "Google Drive search failed:" ;;
       ret []).

Definition searchGitHub (h : Host) (query : string) : Exec (list JSValue) :=
  emit (EvCall "searchGitHub" [VStr query]) ;;
  try_catch
    (log h ("Searching GitHub for: " ++ query) ;;
     ret [VObj [("id", VStr "1"); ("name", VStr ("Repository related to " ++ query));
                ("type", VStr "repository")]])
    (fun error =>
       log_error "GitHub search failed:" ;;
       ret []).

Definition searchSlack (h : Host) (query : string) : Exec (list JSValue) :=
  emit (EvCall "searchSlack" [VStr query]) ;;
  try_catch
    (log h ("Searching Slack for: " ++ query) ;;
     ret [VObj [("id", VStr "1"); ("text", VStr ("Message about " ++ query));
                ("channel", VStr "general")]])
    (fun error =>
       log_error "Slack search failed:" ;;
       ret []).

(** A launched sub-search: the promise of [search(query).then(handler)],
    by the platform it is for, the field of [results] its handler assigns
    and the list the search resolved to. *)
Record Pending : Type := {
  p_platform : string;
  p_field : string;
  p_res : list JSValue
}.

(** [if (platforms.includes(name)) searchPromises.push(search(query).then(...))] *)
Definition launch (platforms : list string) (name field : string)
    (search : Exec (list JSValue)) (searchPromises : list Pending)
    : Exec (list Pending) :=
  if includes platforms name then
    res <- search ;;
    ret (searchPromises ++ [{| p_platform := name; p_field := field; p_res := res |}])%list
  else ret searchPromises.

(** The three launches, in the order the step makes them. *)
Definition launch_all (h : Host) (platforms : list string) (query : string)
    : Exec (list Pending) :=
  ps <- launch platforms "google-drive" "googleDriveResults" (searchGoogleDrive h query) [] ;;
  ps <- launch platforms "github" "githubResults" (searchGitHub h query) ps ;;
  launch platforms "slack" "slackResults" (searchSlack h query) ps.

(** What a search helper resolves to: the one hit of its body, or nothing
    when the body threw. *)
Definition found (h : Host) (message : string) (hit : JSValue) : list JSValue :=
  match console_log h message with
  | Ok _ => [hit]
  | Throw _ => []
  end.

Definition found_googleDrive (h : Host) (query : string) : list JSValue :=
  found h ("Searching Google Drive for: " ++ query)
    (VObj [("id", VStr "1"); ("name", VStr ("Document about " ++ query));
           ("type", VStr "document")]).

Definition found_github (h : Host) (query : string) : list JSValue :=
  found h ("Searching GitHub for: " ++ query)
    (VObj [("id", VStr "1"); ("name", VStr ("Repository related to " ++ query));
           ("type", VStr "repository")]).

Definition found_slack (h : Host) (query : string) : list JSValue :=
  found h ("Searching Slack for: " ++ query)
    (VObj [("id", VStr "1"); ("text", VStr ("Message about " ++ query));
           ("channel", VStr "general")]).

(** The promises [launch_all] leaves in [searchPromises]. *)
Definition launched (h : Host) (platforms : list string) (query : string)
    : list Pending :=
  ((if includes platforms "google-drive"
    then [{| p_platform := "google-drive"; p_field := "googleDriveResults";
             p_res := found_googleDrive h query |}]
    else [])
   ++ (if includes platforms "github"
       then [{| p_platform := "github"; p_field := "githubResults";
                p_res := found_github h query |}]
       else [])
   ++ (if includes platforms "slack"
       then [{| p_platform := "slack"; p_field := "slackResults";
                p_res := found_slack h query |}]
       else []))%list.

(** The assignment a [then] handler makes: [results.field = res]. *)
Definition assign (p : Pending) (results : JSObject) : JSObject :=
  set (p_field p) (VArr (p_res p)) results.

(** A [then] handler, run when its search has settled. *)
Definition handler (results : JSObject) (p : Pending) : Exec JSObject :=
  let results := assign p results in
  write [("type", VStr "search-status"); ("platform", VStr (p_platform p));
         ("status", VStr "complete");
         ("count", VNum (Z.of_nat (List.length (p_res p))))] ;;
  ret results.

(** [results.totalResults = (results.googleDriveResults?.length || 0) + ...] *)
Definition count_total (results : JSObject) : JSObject :=
  set "totalResults"
    (add (add (JS.or (opt_length (get "googleDriveResults" results)) (VNum 0))
              (JS.or (opt_length (get "githubResults" results)) (VNum 0)))
         (JS.or (opt_length (get "slackResults" results)) (VNum 0)))
    results.

(** The handlers of [ps] run one after the other. *)
Definition settle_all (ps : list Pending) (results : JSObject) : JSObject :=
  fold_left (fun results p => assign p results) ps results.

Definition initial_results (inputData : SearchInput) : JSObject :=
  object [("googleDriveResults", VArr []);
          ("githubResults", VArr []);
          ("slackResults", VArr []);
          ("totalResults", VNum 0);
          ("query", VStr (si_query inputData));
          ("requireApproval", VBool (si_requireApproval inputData));
          ("publishChannels", of_opt strings (si_publishChannels inputData))].

Definition platforms_of (inputData : SearchInput) : list string :=
  match si_platforms inputData with
  | Some platforms => platforms
  | None => ["google-drive"; "github"; "slack"]
  end.

(** The body of the step, the handlers run in the order [settled] puts
    the launched searches in; [await Promise.all] hands on once each has
    run. *)
Definition search_with (settled : list Pending -> list Pending)
    (h : Host) (inputData : SearchInput) : Exec JSObject :=
  let query := si_query inputData in
  let platforms := platforms_of inputData in
  write [("type", VStr "search-status"); ("status", VStr "starting");
         ("platforms", strings platforms)] ;;
  let results := initial_results inputData in
  searchPromises <- launch_all h platforms query ;;
  results <- for_of (settled searchPromises) handler results ;;
  ret (count_total results).

(** The handlers of promises that are already resolved run in the order
    the promises were made. *)
Definition searchDocumentsStep_execute : Host -> SearchInput -> Exec JSObject :=
  search_with (fun searchPromises => searchPromises).

Definition searchDocumentsStep : Step :=
  createStep "search-documents" searchInputSchema searchDocumentsStep_execute.

(** [await Promise.all(searchPromises)], step by step.  While the step
    awaits, any launched search that has not settled yet may settle, and
    its handler then runs to its end (handlers do not interleave); the
    [await] returns once none is left, and only then. *)
Inductive Join : Type :=
| Awaiting (pending : list Pending) (results : JSObject)
| Returned (out : JSObject).

Inductive join_step : Join -> option Pending -> Join -> Prop :=
| join_settle (before after : list Pending) (p : Pending) (results : JSObject) :
    join_step (Awaiting (before ++ p :: after)%list results) (Some p)
      (Awaiting (before ++ after)%list (assign p results))
| join_return (results : JSObject) :
    join_step (Awaiting [] results) None (Returned (count_total results)).

(** [join_run s order s']: from [s] to [s'], the searches of [order]
    settling one after the other. *)
Inductive join_run : Join -> list Pending -> Join -> Prop :=
| join_done (s : Join) : join_run s [] s
| join_settled (s1 s2 s3 : Join) (p : Pending) (order : list Pending) :
    join_step s1 (Some p) s2 -> join_run s2 order s3 -> join_run s1 (p :: order) s3
| join_returned (s1 s2 s3 : Join) (order : list Pending) :
    join_step s1 None s2 -> join_run s2 order s3 -> join_run s1 order s3.

(** The fields the handlers of [ps] assign are present in [results] and
    no two handlers assign the same. *)
Definition disjoint_handlers (ps : list Pending) (results : JSObject) : Prop :=
  NoDup (map p_field ps) /\ Forall (fun p => has (p_field p) results = true) ps.

(** *** Step 2: analyze-results *)

Record AnalyzeInput : Type := {
  ai_googleDriveResults : option (list JSValue);
  ai_githubResults : option (list JSValue);
  ai_slackResults : option (list JSValue);
  ai_totalResults : Z;
  ai_query : string;
  ai_requireApproval : bool;
  ai_publishChannels : option (list string)
}.

Definition analyzeInputSchema (_ : Host) (o : JSObject) : option AnalyzeInput :=
  (googleDriveResults <- z_optional (z_array z_any) (get "googleDriveResults" o) ;;
   githubResults <- z_optional (z_array z_any) (get "githubResults" o) ;;
   slackResults <- z_optional (z_array z_any) (get "slackResults" o) ;;
   totalResults <- z_number (get "totalResults" o) ;;
   query <- z_string (get "query" o) ;;
   requireApproval <- z_boolean (get "requireApproval" o) ;;
   publishChannels <- publishChannelsSchema (get "publishChannels" o) ;;
   Some {| ai_googleDriveResults := googleDriveResults;
           ai_githubResults := githubResults;
           ai_slackResults := slackResults;
           ai_totalResults := totalResults;
           ai_query := query;
           ai_requireApproval := requireApproval;
           ai_publishChannels := publishChannels |})%zod.

Definition or_empty (l : option (list JSValue)) : list JSValue :=
  match l with Some l => l | None => [] end.

Definition analysis_prompt (h : Host) (query : string)
    (googleDriveResults githubResults slackResults : list JSValue) : string :=
  lines [
    "";
    "      Analyze the following search results for the query " ++ dquote ++ query ++ dquote ++ " and provide:";
    "      1. A concise summary";
    "      2. Key findings (3-5 bullet points)";
    "      3. Actionable recommendations (2-3 items)";
    "      4. A relevance score from 0-100";
    "      ";
    "      Google Drive Results: " ++ JSON_stringify h (VArr (firstn 5 googleDriveResults));
    "      GitHub Results: " ++ JSON_stringify h (VArr (firstn 5 githubResults));
    "      Slack Results: " ++ JSON_stringify h (VArr (firstn 5 slackResults));
    "      ";
    "      Format your response as JSON with keys: summary, keyFindings, recommendations, relevanceScore";
    "    "
  ].

(** The prompt the step builds from its input. *)
Definition prompt_of (h : Host) (inputData : AnalyzeInput) : string :=
  analysis_prompt h (ai_query inputData)
    (or_empty (ai_googleDriveResults inputData))
    (or_empty (ai_githubResults inputData))
    (or_empty (ai_slackResults inputData)).

(** [await generateText({ model, prompt, temperature })], by its [text]. *)
Definition generate_text (h : Host) (prompt : string) : Exec string :=
  emit (EvCall "generateText" [VStr prompt]) ;;
  lift (generateText h prompt).

(** The record of the [catch] branch. *)
Definition fallback_analysis (text : string) (inputData : AnalyzeInput) : JSObject :=
  object [("summary", VStr text);
          ("keyFindings", strings ["Analysis completed"]);
          ("recommendations", strings ["Review the findings"]);
          ("relevanceScore", VNum 75);
          ("query", VStr (ai_query inputData));
          ("requireApproval", VBool (ai_requireApproval inputData));
          ("publishChannels", of_opt strings (ai_publishChannels inputData))].

(** An analysis with the four fields the prompt asks for, typed as the
    report step declares them. *)
Definition declared_analysis (analysis : JSValue) : Prop :=
  exists summary keyFindings recommendations relevanceScore,
    get "summary" (own_props analysis) = VStr summary
    /\ get "keyFindings" (own_props analysis) = strings keyFindings
    /\ get "recommendations" (own_props analysis) = strings recommendations
    /\ get "relevanceScore" (own_props analysis) = VNum relevanceScore.

(** The completion's text is usable: it does not parse, and the fallback
    applies, or it parses to a declared analysis. *)
Definition usable_text (h : Host) (text : string) : Prop :=
  match JSON_parse h text with
  | Ok analysis => declared_analysis analysis
  | Throw _ => True
  end.

Definition analyzeResultsStep_execute (h : Host) (inputData : AnalyzeInput)
    : Exec JSObject :=
  write [("type", VStr "analysis-status"); ("status", VStr "analyzing")] ;;
  let prompt := prompt_of h inputData in
  text <- generate_text h prompt ;;
  try_catch
    (analysis <- lift (JSON_parse h text) ;;
     write [("type", VStr "analysis-status"); ("status", VStr "complete")] ;;
     ret (extend (own_props analysis)
            [("query", VStr (ai_query inputData));
             ("requireApproval", VBool (ai_requireApproval inputData));
             ("publishChannels", of_opt strings (ai_publishChannels inputData))]))
    (fun _ => ret (fallback_analysis text inputData)).

Definition analyzeResultsStep : Step :=
  createStep "analyze-results" analyzeInputSchema analyzeResultsStep_execute.

(** *** Step 3: create-report *)

Record ReportInput : Type := {
  ri_summary : string;
  ri_keyFindings : list string;
  ri_recommendations : list string;
  ri_relevanceScore : Z;
  ri_query : string;
  ri_requireApproval : bool;
  ri_publishChannels : option (list string)
}.

Definition reportInputSchema (_ : Host) (o : JSObject) : option ReportInput :=
  (summary <- z_string (get "summary" o) ;;
   keyFindings <- z_array z_string (get "keyFindings" o) ;;
   recommendations <- z_array z_string (get "recommendations" o) ;;
   relevanceScore <- z_number (get "relevanceScore" o) ;;
   query <- z_string (get "query" o) ;;
   requireApproval <- z_boolean (get "requireApproval" o) ;;
   publishChannels <- publishChannelsSchema (get "publishChannels" o) ;;
   Some {| ri_summary := summary; ri_keyFindings := keyFindings;
           ri_recommendations := recommendations;
           ri_relevanceScore := relevanceScore; ri_query := query;
           ri_requireApproval := requireApproval;
           ri_publishChannels := publishChannels |})%zod.

Definition report_title (query : string) : string := "Research Report: " ++ query.

Definition report_content (h : Host) (inputData : ReportInput) : string :=
  trim (lines [
    "";
    "# " ++ report_title (ri_query inputData);
    "";
    "**Generated on:** " ++ Date_toLocaleString h;
    "**Relevance Score:** " ++ Z_to_string (ri_relevanceScore inputData) ++ "/100";
    "";
    "## Executive Summary";
    ri_summary inputData;
    "";
    "## Key Findings";
    JS.join nl (map (fun finding => "- " ++ finding) (ri_keyFindings inputData));
    "";
    "## Recommendations";
    JS.join nl (mapi_from (fun rec i => nat_to_string (i + 1) ++ ". " ++ rec) 0
                  (ri_recommendations inputData));
    "";
    "---";
    "*This report was automatically generated by the Smart Document Research Workflow*";
    "    "
  ]).

Definition createReportStep_execute (h : Host) (inputData : ReportInput)
    : Exec JSObject :=
  let reportTitle := report_title (ri_query inputData) in
  let reportContent := report_content h inputData in
  ret (object [("reportTitle", VStr reportTitle);
               ("reportContent", VStr reportContent);
               ("reportFormat", VStr "markdown");
               ("requireApproval", VBool (ri_requireApproval inputData));
               ("publishChannels", of_opt strings (ri_publishChannels inputData))]).

Definition createReportStep : Step :=
  createStep "create-report" reportInputSchema createReportStep_execute.

(** *** Step 4: human-approval *)

Definition reportFormats : list string := ["markdown"; "html"; "plain"].

Record ApprovalInput : Type := {
  ap_reportTitle : string;
  ap_reportContent : string;
  ap_reportFormat : string;
  ap_requireApproval : bool;
  ap_publishChannels : option (list string)
}.

Definition approvalInputSchema (_ : Host) (o : JSObject) : option ApprovalInput :=
  (reportTitle <- z_string (get "reportTitle" o) ;;
   reportContent <- z_string (get "reportContent" o) ;;
   reportFormat <- z_enum reportFormats (get "reportFormat" o) ;;
   requireApproval <- z_boolean (get "requireApproval" o) ;;
   publishChannels <- publishChannelsSchema (get "publishChannels" o) ;;
   Some {| ap_reportTitle := reportTitle; ap_reportContent := reportContent;
           ap_reportFormat := reportFormat;
           ap_requireApproval := requireApproval;
           ap_publishChannels := publishChannels |})%zod.

Record ResumeData : Type := {
  rd_approved : bool;
  rd_feedback : option string;
  rd_modifiedContent : option string
}.

Definition approvalResumeSchema : Schema ResumeData :=
  z_object (fun o =>
    (approved <- z_boolean (get "approved" o) ;;
     feedback <- z_optional z_string (get "feedback" o) ;;
     modifiedContent <- z_optional z_string (get "modifiedContent" o) ;;
     Some {| rd_approved := approved; rd_feedback := feedback;
             rd_modifiedContent := modifiedContent |})%zod).

Definition approvalStep_execute (h : Host) (inputData : ApprovalInput)
    (resumeData : option ResumeData) : Exec JSObject :=
  let reportTitle := ap_reportTitle inputData in
  let reportContent := ap_reportContent inputData in
  let publishChannels := ap_publishChannels inputData in
  match resumeData with
  | None =>
      write [("type", VStr "approval-required"); ("status", VStr "waiting");
             ("message", VStr "Human approval required for report publication")] ;;
      suspend (object [("reportTitle", VStr reportTitle);
                       ("reportContent", VStr reportContent)]) ;;
      ret (object [("approved", VBool false);
                   ("reportTitle", VStr reportTitle);
                   ("reportContent", VStr reportContent);
                   ("publishChannels", of_opt strings publishChannels)])
  | Some resumeData =>
      write [("type", VStr "approval-received");
             ("status", VStr (if rd_approved resumeData then "approved" else "rejected"));
             ("feedback", of_opt VStr (rd_feedback resumeData))] ;;
      ret (object [("approved", VBool (rd_approved resumeData));
                   ("feedback", of_opt VStr (rd_feedback resumeData));
                   ("reportTitle", VStr reportTitle);
                   ("reportContent",
                    VStr (opt_str_or (rd_modifiedContent resumeData) reportContent));
                   ("publishChannels", of_opt strings publishChannels)])
  end.

Definition approvalStep : Step :=
  createSuspendableStep "human-approval" approvalInputSchema approvalResumeSchema
    approvalStep_execute.

(** *** Step 5: auto-approve *)

Definition autoApproveStep_execute (_ : Host) (inputData : ApprovalInput)
    : Exec JSObject :=
  ret (object [("approved", VBool true);
               ("reportTitle", VStr (ap_reportTitle inputData));
               ("reportContent", VStr (ap_reportContent inputData));
               ("publishChannels", of_opt strings (ap_publishChannels inputData))]).

Definition autoApproveStep : Step :=
  createStep "auto-approve" approvalInputSchema autoApproveStep_execute.

(** *** Step 6: normalize-branch-output *)

Record BranchResult : Type := {
  br_approved : bool;
  br_feedback : option string;
  br_reportTitle : string;
  br_reportContent : string;
  br_publishChannels : option (list string)
}.

Definition humanApprovalShape : Schema BranchResult :=
  z_object (fun o =>
    (approved <- z_boolean (get "approved" o) ;;
     feedback <- z_optional z_string (get "feedback" o) ;;
     reportTitle <- z_string (get "reportTitle" o) ;;
     reportContent <- z_string (get "reportContent" o) ;;
     publishChannels <- publishChannelsSchema (get "publishChannels" o) ;;
     Some {| br_approved := approved; br_feedback := feedback;
             br_reportTitle := reportTitle; br_reportContent := reportContent;
             br_publishChannels := publishChannels |})%zod).

Definition autoApproveShape : Schema BranchResult :=
  z_object (fun o =>
    (approved <- z_boolean (get "approved" o) ;;
     reportTitle <- z_string (get "reportTitle" o) ;;
     reportContent <- z_string (get "reportContent" o) ;;
     publishChannels <- publishChannelsSchema (get "publishChannels" o) ;;
     Some {| br_approved := approved; br_feedback := None;
             br_reportTitle := reportTitle; br_reportContent := reportContent;
             br_publishChannels := publishChannels |})%zod).

Record NormalizeInput : Type := {
  ni_human_approval : option BranchResult;
  ni_auto_approve : option BranchResult
}.

Definition normalizeInputSchema (_ : Host) (o : JSObject) : option NormalizeInput :=
  (human <- z_optional humanApprovalShape (get "human-approval" o) ;;
   auto <- z_optional autoApproveShape (get "auto-approve" o) ;;
   Some {| ni_human_approval := human; ni_auto_approve := auto |})%zod.

(** [a || b] on values that are an object or [undefined]. *)
Definition obj_or {A} (a b : option A) : option A :=
  match a with Some _ => a | None => b end.

Definition normalizeBranchOutputStep_execute (_ : Host) (inputData : NormalizeInput)
    : Exec JSObject :=
  let branchResult := obj_or (ni_human_approval inputData) (ni_auto_approve inputData) in
  match branchResult with
  | None => throw (Error "No branch result found")
  | Some branchResult =>
      ret (object [("approved", VBool (br_approved branchResult));
                   ("reportTitle", VStr (br_reportTitle branchResult));
                   ("reportContent", VStr (br_reportContent branchResult));
                   ("publishChannels", of_opt strings (br_publishChannels branchResult))])
  end.

Definition normalizeBranchOutputStep : Step :=
  createStep "normalize-branch-output" normalizeInputSchema
    normalizeBranchOutputStep_execute.

(** *** Step 7: publish-report *)

Record PublishInput : Type := {
  pi_approved : bool;
  pi_reportTitle : string;
  pi_reportContent : string;
  pi_publishChannels : option (list string)
}.

Definition publishInputSchema (_ : Host) (o : JSObject) : option PublishInput :=
  (approved <- z_boolean (get "approved" o) ;;
   reportTitle <- z_string (get "reportTitle" o) ;;
   reportContent <- z_string (get "reportContent" o) ;;
   publishChannels <- publishChannelsSchema (get "publishChannels" o) ;;
   Some {| pi_approved := approved; pi_reportTitle := reportTitle;
           pi_reportContent := reportContent;
           pi_publishChannels := publishChannels |})%zod.

Definition createGoogleDoc (h : Host) (title content : string) : Exec string :=
  emit (EvCall "createGoogleDoc" [VStr title; VStr content]) ;;
  log h ("Creating Google Doc: " ++ title) ;;
  ret ("https://docs.google.com/document/d/example-" ++ Z_to_string (Date_now h)).

Definition postToSlack (h : Host) (title content : string) : Exec bool :=
  emit (EvCall "postToSlack" [VStr title; VStr content]) ;;
  log h ("Posting to Slack: " ++ title) ;;
  ret true.

Definition sendEmail (h : Host) (title content : string) : Exec bool :=
  emit (EvCall "sendEmail" [VStr title; VStr content]) ;;
  log h ("Sending email: " ++ title) ;;
  ret true.

(** The two arrays the loop pushes to. *)
Definition Published : Type := (list string * list string)%type.

(** One turn of [for (const channel of publishChannels)]. *)
Definition publish_channel (h : Host) (reportTitle reportContent : string)
    (st : Published) (channel : string) : Exec Published :=
  let (publishedChannels, urls) := st in
  write [("type", VStr "publishing"); ("channel", VStr channel);
         ("status", VStr "in-progress")] ;;
  try_catch
    (st' <-
       (if String.eqb channel "google-drive" then
          url <- createGoogleDoc h reportTitle reportContent ;;
          ret ((publishedChannels ++ ["google-drive"])%list, (urls ++ [url])%list)
        else if String.eqb channel "slack" then
          postToSlack h reportTitle reportContent ;;
          ret ((publishedChannels ++ ["slack"])%list, urls)
        else if String.eqb channel "email" then
          sendEmail h reportTitle reportContent ;;
          ret ((publishedChannels ++ ["email"])%list, urls)
        else ret (publishedChannels, urls)) ;;
     write [("type", VStr "publishing"); ("channel", VStr channel);
            ("status", VStr "complete")] ;;
     ret st')
    (fun error =>
       write [("type", VStr "publishing"); ("channel", VStr channel);
              ("status", VStr "failed");
              ("error", VStr (str_or (let (message) := error in message) "Unknown error"))] ;;
       ret (publishedChannels, urls)).

Definition publishReportStep_execute (h : Host) (inputData : PublishInput)
    : Exec JSObject :=
  if negb (pi_approved inputData) then
    bail (object [("published", VBool false);
                  ("publishedChannels", VArr []);
                  ("urls", VArr []);
                  ("reportTitle", VStr (pi_reportTitle inputData));
                  ("message", VStr "Report was not approved for publication")])
  else
    let reportTitle := pi_reportTitle inputData in
    let reportContent := pi_reportContent inputData in
    let publishChannels :=
      match pi_publishChannels inputData with
      | Some channels => channels
      | None => ["google-drive"]
      end in
    st <- for_of publishChannels (publish_channel h reportTitle reportContent) ([], []) ;;
    let (publishedChannels, urls) := (st : Published) in
    ret (object [("published", VBool (Nat.ltb 0 (List.length publishedChannels)));
                 ("publishedChannels", strings publishedChannels);
                 ("urls", strings urls);
                 ("reportTitle", VStr reportTitle);
                 ("message",
                  VStr (if Nat.ltb 0 (List.length publishedChannels)
                        then "Report published to " ++ JS.join ", " publishedChannels
                        else "Report was not published to any channels"))]).

Definition publishReportStep : Step :=
  createStep "publish-report" publishInputSchema publishReportStep_execute.

(** *** The workflow *)

(** [async ({ inputData }) => inputData.requireApproval === true] *)
Definition approval_required (inputData : JSObject) : bool :=
  is_true (get "requireApproval" inputData).

(** [async ({ inputData }) => inputData.requireApproval !== true] *)
Definition approval_not_required (inputData : JSObject) : bool :=
  negb (is_true (get "requireApproval" inputData)).

Definition approvalBranch : list ((JSObject -> bool) * Step) :=
  [(approval_required, approvalStep); (approval_not_required, autoApproveStep)].

(** The final [.map(...)]. *)
Definition final_output (inputData : JSObject) : JSObject :=
  object [("success", get "published" inputData);
          ("reportTitle", get "reportTitle" inputData);
          ("publishedChannels", get "publishedChannels" inputData);
          ("message", get "message" inputData)].

(** The input of the end-to-end scenario of the design document:
    [{ query: "X", platforms: ["github"], requireApproval: false }]. *)
Definition scenario_input : JSObject :=
  [("query", VStr "X"); ("platforms", strings ["github"]);
   ("requireApproval", VBool false)].

Definition documentResearchWorkflow : Pipeline :=
  [NStep searchDocumentsStep;
   NStep analyzeResultsStep;
   NStep createReportStep;
   NBranch approvalBranch;
   NStep normalizeBranchOutputStep;
   NStep publishReportStep;
   NMap "mapping" final_output].

End Research.

(* ===================================================================== *)
(** ** The project-onboarding workflow *)
(* ===================================================================== *)

Module Onboard.

(** *** Text *)

Definition lower (c : ascii) : ascii :=
  let n := nat_of_ascii c in
  if (Nat.leb 65 n && Nat.leb n 90)%bool then ascii_of_nat (n + 32) else c.

Definition upper (c : ascii) : ascii :=
  let n := nat_of_ascii c in
  if (Nat.leb 97 n && Nat.leb n 122)%bool then ascii_of_nat (n - 32) else c.

(** [s.toLowerCase()] and [s.toUpperCase()]: the ASCII letters change
    case and every other byte stays; exact on ASCII text ([is_ascii]). *)
Definition toLowerCase (s : string) : string :=
  string_of_list_ascii (map lower (list_ascii_of_string s)).

Definition toUpperCase (s : string) : string :=
  string_of_list_ascii (map upper (list_ascii_of_string s)).

(** The class [[a-z0-9]]. *)
Definition is_slug_char (c : ascii) : bool :=
  let n := nat_of_ascii c in
  ((Nat.leb 97 n && Nat.leb n 122) || (Nat.leb 48 n && Nat.leb n 57))%bool.

Definition dash : ascii := ascii_of_nat 45.

(** [.replace(/[^a-z0-9]+/g, '-')]: [in_run] holds while the characters
    just read were outside the class. *)
Fixpoint dash_runs (in_run : bool) (cs : list ascii) : list ascii :=
  match cs with
  | [] => []
  | c :: rest =>
      if is_slug_char c then c :: dash_runs false rest
      else if in_run then dash_runs true rest
      else dash :: dash_runs true rest
  end.

Definition drop_leading_dash (cs : list ascii) : list ascii :=
  match cs with
  | c :: rest => if Ascii.eqb c dash then rest else cs
  | [] => []
  end.

(** [.replace(/^-|-$/g, '')]: one dash off each end. *)
Definition strip_dashes (cs : list ascii) : list ascii :=
  rev (drop_leading_dash (rev (drop_leading_dash cs))).

(** [name.toLowerCase().replace(/[^a-z0-9]+/g, '-').replace(/^-|-$/g, '')] *)
Definition slugify (name : string) : string :=
  string_of_list_ascii
    (strip_dashes (dash_runs false (list_ascii_of_string (toLowerCase name)))).

(** *** Schemas: each extends the one before *)

Record Platforms : Type := {
  github : bool;
  slack : bool;
  googleDrive : bool
}.

Record ProjectInput : Type := {
  projectName : string;
  description : string;
  teamMembers : list string;
  techStack : list string;
  deadline : option string;
  priority : string;
  platforms : Platforms
}.

Record Step1Output : Type := {
  s1_project : ProjectInput;
  projectId : string;
  createdAt : string;
  slug : string
}.

Record Step2Output : Type := {
  s2_step1 : Step1Output;
  repositoryUrl : string;
  repositoryName : string;
  githubSuccess : bool
}.

Record Step3Output : Type := {
  s3_step2 : Step2Output;
  driveFolderUrl : string;
  driveFolderId : string;
  driveSuccess : bool
}.

Record Step4Output : Type := {
  s4_step3 : Step3Output;
  channelName : string;
  channelId : string;
  slackSuccess : bool
}.

Definition platformsShape : Schema Platforms :=
  z_object (fun o =>
    (github <- z_default z_boolean (VBool true) (get "github" o) ;;
     slack <- z_default z_boolean (VBool true) (get "slack" o) ;;
     googleDrive <- z_default z_boolean (VBool true) (get "googleDrive" o) ;;
     Some {| github := github; slack := slack; googleDrive := googleDrive |})%zod).

Definition projectInputSchema (h : Host) (o : JSObject) : option ProjectInput :=
  (projectName <- z_string_min 1 (get "projectName" o) ;;
   description <- z_string_min 10 (get "description" o) ;;
   teamMembers <- z_array_min (z_email h) 1 (get "teamMembers" o) ;;
   techStack <- z_default (z_array z_string) (VArr []) (get "techStack" o) ;;
   deadline <- z_optional z_string (get "deadline" o) ;;
   priority <- z_default (z_enum ["low"; "medium"; "high"]) (VStr "medium") (get "priority" o) ;;
   platforms <- z_default platformsShape (VObj []) (get "platforms" o) ;;
   Some {| projectName := projectName; description := description;
           teamMembers := teamMembers; techStack := techStack;
           deadline := deadline; priority := priority;
           platforms := platforms |})%zod.

Definition step1OutputSchema (h : Host) (o : JSObject) : option Step1Output :=
  (project <- projectInputSchema h o ;;
   projectId <- z_string (get "projectId" o) ;;
   createdAt <- z_string (get "createdAt" o) ;;
   slug <- z_string (get "slug" o) ;;
   Some {| s1_project := project; projectId := projectId;
           createdAt := createdAt; slug := slug |})%zod.

Definition step2OutputSchema (h : Host) (o : JSObject) : option Step2Output :=
  (step1 <- step1OutputSchema h o ;;
   repositoryUrl <- z_string (get "repositoryUrl" o) ;;
   repositoryName <- z_string (get "repositoryName" o) ;;
   githubSuccess <- z_boolean (get "githubSuccess" o) ;;
   Some {| s2_step1 := step1; repositoryUrl := repositoryUrl;
           repositoryName := repositoryName; githubSuccess := githubSuccess |})%zod.

Definition step3OutputSchema (h : Host) (o : JSObject) : option Step3Output :=
  (step2 <- step2OutputSchema h o ;;
   driveFolderUrl <- z_string (get "driveFolderUrl" o) ;;
   driveFolderId <- z_string (get "driveFolderId" o) ;;
   driveSuccess <- z_boolean (get "driveSuccess" o) ;;
   Some {| s3_step2 := step2; driveFolderUrl := driveFolderUrl;
           driveFolderId := driveFolderId; driveSuccess := driveSuccess |})%zod.

Definition step4OutputSchema (h : Host) (o : JSObject) : option Step4Output :=
  (step3 <- step3OutputSchema h o ;;
   channelName <- z_string (get "channelName" o) ;;
   channelId <- z_string (get "channelId" o) ;;
   slackSuccess <- z_boolean (get "slackSuccess" o) ;;
   Some {| s4_step3 := step3; channelName := channelName;
           channelId := channelId; slackSuccess := slackSuccess |})%zod.

(** *** The record a step body sees as [inputData]

    A step body reads the declared fields of [inputData] and copies the
    whole of it into what it returns ([{ ...inputData, ... }]).  It is
    given both here: the declared fields as the contract read them, and
    the accepted record, which is the record the step was handed with the
    schema's defaults filled in. *)

(** [platforms] as the contract accepts it: a flag that is missing is
    [true], and whatever else the object holds stays. *)
Definition platforms_defaults (v : JSValue) : JSValue :=
  let flags (fields : JSObject) :=
    VObj (fill "googleDrive" (VBool true)
            (fill "slack" (VBool true)
               (fill "github" (VBool true) fields))) in
  match v with
  | VUndefined => flags []
  | VObj fields => flags fields
  | _ => v
  end.

(** The defaults of the project schema: [techStack] is [[]], [priority]
    is ["medium"], [platforms] is [{}] and each of its flags [true].  The
    schemas that extend the project schema declare no further default. *)
Definition project_defaults (record : JSObject) : JSObject :=
  let record := fill "techStack" (VArr []) record in
  let record := fill "priority" (VStr "medium") record in
  set "platforms" (platforms_defaults (get "platforms" record)) record.

(** The declared fields alone, in the order the schema declares them; an
    optional field that is absent is not among them. *)

Definition platforms_fields (p : Platforms) : JSObject :=
  [("github", VBool (github p)); ("slack", VBool (slack p));
   ("googleDrive", VBool (googleDrive p))].

Definition project_fields (i : ProjectInput) : JSObject :=
  ([("projectName", VStr (projectName i));
    ("description", VStr (description i));
    ("teamMembers", strings (teamMembers i));
    ("techStack", strings (techStack i))]
   ++ match deadline i with
      | Some d => [("deadline", VStr d)]
      | None => []
      end
   ++ [("priority", VStr (priority i));
       ("platforms", VObj (platforms_fields (platforms i)))])%list.

Definition step1_fields (i : Step1Output) : JSObject :=
  (project_fields (s1_project i)
   ++ [("projectId", VStr (projectId i));
       ("createdAt", VStr (createdAt i));
       ("slug", VStr (slug i))])%list.

Definition step2_fields (i : Step2Output) : JSObject :=
  (step1_fields (s2_step1 i)
   ++ [("repositoryUrl", VStr (repositoryUrl i));
       ("repositoryName", VStr (repositoryName i));
       ("githubSuccess", VBool (githubSuccess i))])%list.

Definition step3_fields (i : Step3Output) : JSObject :=
  (step2_fields (s3_step2 i)
   ++ [("driveFolderUrl", VStr (driveFolderUrl i));
       ("driveFolderId", VStr (driveFolderId i));
       ("driveSuccess", VBool (driveSuccess i))])%list.

Definition step4_fields (i : Step4Output) : JSObject :=
  (step3_fields (s4_step3 i)
   ++ [("channelName", VStr (channelName i));
       ("channelId", VStr (channelId i));
       ("slackSuccess", VBool (slackSuccess i))])%list.

(** A project record the input schema accepts when it reads it back. *)
Definition valid_project (h : Host) (p : ProjectInput) : Prop :=
  projectInputSchema h (project_fields p) = Some p.

Local Open Scope exec_scope.

(** [await agent.generate(prompt, { resourceId, threadId })] *)
Definition agent_generate (agent : Agent) (prompt resourceId threadId : string)
    : Exec string :=
  emit (EvCall "agent.generate" [VStr prompt; VStr resourceId; VStr threadId]) ;;
  lift (generate agent prompt resourceId threadId).

Definition agent_not_found : JSError := Error "Project Assistant agent not found".

(** *** Step 1: validate-project-data *)

(** [execute], on the accepted [record] and the declared fields read off
    it. *)
Definition validateProjectData_body (h : Host) (record : JSObject)
    (inputData : ProjectInput) : Exec JSObject :=
  let projectId :=
    "proj_" ++ Z_to_string (Date_now h) ++ "_"
    ++ substring 2 9 (Math_random_toString36 h) in
  let slug := slugify (projectName inputData) in
  ret (extend record
         [("projectId", VStr projectId);
          ("slug", VStr slug);
          ("createdAt", VStr (Date_toISOString h))]).

(** [execute] on a record that holds the declared fields and no other. *)
Definition validateProjectData_execute (h : Host) (inputData : ProjectInput)
    : Exec JSObject :=
  validateProjectData_body h (project_fields inputData) inputData.

Definition validateProjectData : Step :=
  createStep "validate-project-data" (accepted projectInputSchema project_defaults)
    (fun h given => validateProjectData_body h (snd given) (fst given)).

(** *** Step 2: create-github-repo *)

Definition github_prompt (inputData : Step1Output) : string :=
  let project := s1_project inputData in
  lines [
    "Create a new GitHub repository with these details:";
    "      - Name: " ++ slug inputData;
    "      - Description: " ++ description project;
    "      - Make it private initially";
    "      - Initialize with README";
    "      - Add .gitignore for " ++ str_or (JS.join ", " (techStack project)) "general development";
    "      ";
    "      Please create the repository and return the repository URL."
  ].

Definition createGitHubRepository_body (h : Host) (record : JSObject)
    (inputData : Step1Output) : Exec JSObject :=
  match getAgent h "projectAssistantAgent" with
  | None => throw agent_not_found
  | Some agent =>
      if negb (github (platforms (s1_project inputData))) then
        ret (extend record
               [("repositoryUrl", VStr "");
                ("repositoryName", VStr "");
                ("githubSuccess", VBool false)])
      else
        try_catch
          (let prompt := github_prompt inputData in
           response <- agent_generate agent prompt
                         ("system-" ++ projectId inputData)
                         ("github-setup-" ++ projectId inputData) ;;
           ret (extend record
                  [("repositoryUrl", VStr ("https://github.com/user/" ++ slug inputData));
                   ("repositoryName", VStr (slug inputData));
                   ("githubSuccess", VBool true)]))
          (fun error =>
             log_error "Failed to create GitHub repository:" ;;
             ret (extend record
                    [("repositoryUrl", VStr "");
                     ("repositoryName", VStr "");
                     ("githubSuccess", VBool false)]))
  end.

Definition createGitHubRepository_execute (h : Host) (inputData : Step1Output)
    : Exec JSObject :=
  createGitHubRepository_body h (step1_fields inputData) inputData.

Definition createGitHubRepository : Step :=
  createStep "create-github-repo" (accepted step1OutputSchema project_defaults)
    (fun h given => createGitHubRepository_body h (snd given) (fst given)).

(** *** Step 3: create-google-drive-folder *)

Definition drive_prompt (inputData : Step2Output) : string :=
  let project := s1_project (s2_step1 inputData) in
  lines [
    "Create a Google Drive folder for project " ++ dquote ++ projectName project ++ dquote ++ ":";
    "      - Folder name: " ++ projectName project ++ " - Project Files";
    "      - Share with team members: " ++ JS.join ", " (teamMembers project);
    "      - Create subfolders: Documentation, Design Assets, Meeting Notes, Resources";
    "      - Set permissions to allow editing for team members";
    "      ";
    "      Please create the folder structure and return the main folder URL."
  ].

Definition createGoogleDriveFolder_body (h : Host) (record : JSObject)
    (inputData : Step2Output) : Exec JSObject :=
  match getAgent h "projectAssistantAgent" with
  | None => throw agent_not_found
  | Some agent =>
      if negb (googleDrive (platforms (s1_project (s2_step1 inputData)))) then
        ret (extend record
               [("driveFolderUrl", VStr "");
                ("driveFolderId", VStr "");
                ("driveSuccess", VBool false)])
      else
        try_catch
          (let prompt := drive_prompt inputData in
           response <- agent_generate agent prompt
                         ("system-" ++ projectId (s2_step1 inputData))
                         ("drive-setup-" ++ projectId (s2_step1 inputData)) ;;
           ret (extend record
                  [("driveFolderUrl",
                    VStr "https://drive.google.com/drive/folders/example_folder_id");
                   ("driveFolderId", VStr "example_folder_id");
                   ("driveSuccess", VBool true)]))
          (fun error =>
             log_error "Failed to create Google Drive folder:" ;;
             ret (extend record
                    [("driveFolderUrl", VStr "");
                     ("driveFolderId", VStr "");
                     ("driveSuccess", VBool false)]))
  end.

Definition createGoogleDriveFolder_execute (h : Host) (inputData : Step2Output)
    : Exec JSObject :=
  createGoogleDriveFolder_body h (step2_fields inputData) inputData.

Definition createGoogleDriveFolder : Step :=
  createStep "create-google-drive-folder" (accepted step2OutputSchema project_defaults)
    (fun h given => createGoogleDriveFolder_body h (snd given) (fst given)).

(** *** Step 4: create-slack-channel *)

Definition slack_prompt (inputData : Step3Output) (channelName : string) : string :=
  let project := s1_project (s2_step1 (s3_step2 inputData)) in
  lines [
    "Create a Slack channel for project communication:";
    "      - Channel name: #" ++ channelName;
    "      - Topic: " ++ description project;
    "      - Invite team members: " ++ JS.join ", " (teamMembers project);
    "      - Pin important information: Project deadline "
      ++ opt_str_or (deadline project) "TBD" ++ ", Priority: " ++ priority project;
    "      ";
    "      Please create the channel and invite the team members."
  ].

Definition createSlackChannel_body (h : Host) (record : JSObject)
    (inputData : Step3Output) : Exec JSObject :=
  let step1 := s2_step1 (s3_step2 inputData) in
  match getAgent h "projectAssistantAgent" with
  | None => throw agent_not_found
  | Some agent =>
      if negb (slack (platforms (s1_project step1))) then
        ret (extend record
               [("channelName", VStr "");
                ("channelId", VStr "");
                ("slackSuccess", VBool false)])
      else
        try_catch
          (let channelName := "proj-" ++ slug step1 in
           let prompt := slack_prompt inputData channelName in
           response <- agent_generate agent prompt
                         ("system-" ++ projectId step1)
                         ("slack-setup-" ++ projectId step1) ;;
           ret (extend record
                  [("channelName", VStr channelName);
                   ("channelId",
                    VStr ("C" ++ toUpperCase (substring 2 10 (Math_random_toString36 h))));
                   ("slackSuccess", VBool true)]))
          (fun error =>
             log_error "Failed to create Slack channel:" ;;
             ret (extend record
                    [("channelName", VStr "");
                     ("channelId", VStr "");
                     ("slackSuccess", VBool false)]))
  end.

Definition createSlackChannel_execute (h : Host) (inputData : Step3Output)
    : Exec JSObject :=
  createSlackChannel_body h (step3_fields inputData) inputData.

Definition createSlackChannel : Step :=
  createStep "create-slack-channel" (accepted step3OutputSchema project_defaults)
    (fun h given => createSlackChannel_body h (snd given) (fst given)).

(** *** Step 5: generate-project-summary *)

Definition summary_prompt (inputData : Step4Output) : string :=
  let step3 := s4_step3 inputData in
  let step2 := s3_step2 step3 in
  let project := s1_project (s2_step1 step2) in
  lines [
    "Generate a comprehensive project onboarding summary for " ++ dquote ++ projectName project ++ dquote ++ ":";
    "";
    "    Project Details:";
    "    - Name: " ++ projectName project;
    "    - Description: " ++ description project;
    "    - Team: " ++ JS.join ", " (teamMembers project);
    "    - Tech Stack: " ++ str_or (JS.join ", " (techStack project)) "Not specified";
    "    - Priority: " ++ priority project;
    "    - Deadline: " ++ opt_str_or (deadline project) "TBD";
    "";
    "    Created Resources:";
    "    - GitHub Repository: " ++ (if githubSuccess step2 then repositoryUrl step2 else "Not created");
    "    - Google Drive Folder: " ++ (if driveSuccess step3 then driveFolderUrl step3 else "Not created");
    "    - Slack Channel: " ++ (if slackSuccess inputData then "#" ++ channelName inputData else "Not created");
    "";
    "    Please generate a professional project summary with next steps for the team."
  ].

Definition welcome_message (inputData : Step4Output) : string :=
  let step3 := s4_step3 inputData in
  let step2 := s3_step2 step3 in
  let project := s1_project (s2_step1 step2) in
  lines [
    "üéâ Welcome to " ++ projectName project ++ "!";
    "";
    "Your project has been successfully set up with the following resources:";
    "";
    "üìÇ **Project Resources:**";
    (if githubSuccess step2 then "‚Ä¢ GitHub Repository: " ++ repositoryUrl step2
     else "‚Ä¢ GitHub: Setup failed");
    (if driveSuccess step3 then "‚Ä¢ Google Drive Folder: " ++ driveFolderUrl step3
     else "‚Ä¢ Google Drive: Setup failed");
    (if slackSuccess inputData then "‚Ä¢ Slack Channel: #" ++ channelName inputData
     else "‚Ä¢ Slack: Setup failed");
    "";
    "üë• **Team Members:** " ++ JS.join ", " (teamMembers project);
    "üìÖ **Deadline:** " ++ opt_str_or (deadline project) "To be determined";
    "üè∑Ô∏è **Priority:** " ++ toUpperCase (priority project);
    "üîß **Tech Stack:** " ++ str_or (JS.join ", " (techStack project)) "Not specified";
    "";
    "**Next Steps:**";
    "1. Clone the repository and set up your development environment";
    "2. Join the Slack channel for team communication";
    "3. Access the Google Drive folder for shared documents";
    "4. Review the project requirements and timeline";
    "";
    "Let's build something amazing together! üöÄ"
  ].

Definition generateProjectSummary_execute (h : Host) (inputData : Step4Output)
    : Exec JSObject :=
  let step3 := s4_step3 inputData in
  let step2 := s3_step2 step3 in
  let step1 := s2_step1 step2 in
  match getAgent h "projectAssistantAgent" with
  | None => throw agent_not_found
  | Some agent =>
      let prompt := summary_prompt inputData in
      response <- agent_generate agent prompt
                    ("system-" ++ projectId step1)
                    ("summary-" ++ projectId step1) ;;
      let welcomeMessage := welcome_message inputData in
      ret (object
             [("projectSummary", VStr response);
              ("welcomeMessage", VStr welcomeMessage);
              ("onboardingComplete", VBool true);
              ("setupLinks",
               VObj (object
                 [("github",
                   if githubSuccess step2 then VStr (repositoryUrl step2) else VUndefined);
                  ("googleDrive",
                   if driveSuccess step3 then VStr (driveFolderUrl step3) else VUndefined);
                  ("slack",
                   if slackSuccess inputData
                   then VStr ("slack://channel?team=YOUR_TEAM&id=" ++ channelId inputData)
                   else VUndefined)]));
              ("projectId", VStr (projectId step1))])
  end.

Definition generateProjectSummary : Step :=
  createStep "generate-project-summary" step4OutputSchema
    generateProjectSummary_execute.

(** The record of the summary step. *)
Definition summary_record (i4 : Step4Output) (text : string) : JSObject :=
  [("projectSummary", VStr text);
   ("welcomeMessage", VStr (welcome_message i4));
   ("onboardingComplete", VBool true);
   ("setupLinks",
    VObj [("github",
           if githubSuccess (s3_step2 (s4_step3 i4))
           then VStr (repositoryUrl (s3_step2 (s4_step3 i4))) else VUndefined);
          ("googleDrive",
           if driveSuccess (s4_step3 i4)
           then VStr (driveFolderUrl (s4_step3 i4)) else VUndefined);
          ("slack",
           if slackSuccess i4
           then VStr ("slack://channel?team=YOUR_TEAM&id=" ++ channelId i4)
           else VUndefined)]);
   ("projectId", VStr (projectId (s2_step1 (s3_step2 (s4_step3 i4)))))].

(** *** The workflow *)

Definition projectOnboardingWorkflow : Pipeline :=
  [NStep validateProjectData;
   NStep createGitHubRepository;
   NStep createGoogleDriveFolder;
   NStep createSlackChannel;
   NStep generateProjectSummary].

End Onboard.

(* ===================================================================== *)
(** ** The simple demo workflow *)
(* ===================================================================== *)

(** [src/mastra/workflows/simple-demo-workflow.ts]: three steps that take
    nothing from outside but the console, the clock and the random
    source. *)
Module Demo.

(** *** Numbers

    A JavaScript number is a binary64 float.  The one place of the
    workflow where that shows is [Math.floor(baseDays * 0.8)] and
    [Math.floor(baseDays * 1.2)]: the product is rounded to the nearest
    float before it is floored. *)

Definition prec : Z := 53.
Definition emax : Z := 1024.

(** The float of an integer. *)
Definition Number_of_Z (z : Z) : SpecFloat.spec_float :=
  SpecFloat.binary_normalize prec emax z 0 false.

(** [a * b] and [a / b] *)
Definition times (a b : SpecFloat.spec_float) : SpecFloat.spec_float :=
  SpecFloat.SFmul prec emax a b.

Definition divided_by (a b : SpecFloat.spec_float) : SpecFloat.spec_float :=
  SpecFloat.SFdiv prec emax a b.

(** The literals [0.8] and [1.2]: the floats nearest to 8/10 and 12/10,
    which is what the correctly rounded quotients are. *)
Definition lit_0_8 : SpecFloat.spec_float :=
  divided_by (Number_of_Z 8) (Number_of_Z 10).

Definition lit_1_2 : SpecFloat.spec_float :=
  divided_by (Number_of_Z 12) (Number_of_Z 10).

(** [Math.floor(x)] of a finite [x], as the integer it is.  The workflow
    floors no infinity and no NaN. *)
Definition Math_floor (x : SpecFloat.spec_float) : Z :=
  match x with
  | SpecFloat.S754_finite s m e =>
      let n := if s then Z.neg m else Z.pos m in
      if (0 <=? e)%Z then (n * 2 ^ e)%Z else (n / 2 ^ (- e))%Z
  | _ => 0%Z
  end.

Definition is_finite (x : SpecFloat.spec_float) : bool :=
  match x with
  | SpecFloat.S754_zero _ | SpecFloat.S754_finite _ _ _ => true
  | _ => false
  end.

(** [xs.push(x)] *)
Definition push {A} (xs : list A) (x : A) : list A := (xs ++ [x])%list.

(** *** Schemas *)

Local Open Scope zod_scope.

(** [z.number().min(lo).max(hi)].  Numbers are the integers, as everywhere
    in [JS]: a team size with a fraction is outside the model. *)
Definition z_number_min_max (lo hi : Z) : Schema Z :=
  fun v => match v with
           | VNum n => if ((lo <=? n)%Z && (n <=? hi)%Z)%bool then Some n else None
           | _ => None
           end.

Record ProjectInput : Type := {
  projectName : string;
  description : string;
  teamSize : Z;
  priority : string
}.

Record ProcessedProject : Type := {
  pp_project : ProjectInput;
  projectId : string;
  slug : string;
  estimatedDuration : string;
  createdAt : string
}.

Record ProjectPlan : Type := {
  plan_project : ProcessedProject;
  phases : list string;
  milestones : list string;
  risks : list string
}.

Definition projectInputSchema (_ : Host) (o : JSObject) : option ProjectInput :=
  projectName <- z_string_min 1 (get "projectName" o) ;;
  description <- z_string_min 10 (get "description" o) ;;
  teamSize <- z_number_min_max 1 100 (get "teamSize" o) ;;
  priority <- z_default (z_enum ["low"; "medium"; "high"]) (VStr "medium")
                (get "priority" o) ;;
  Some {| projectName := projectName; description := description;
          teamSize := teamSize; priority := priority |}.

(** [processProjectData.outputSchema] *)
Definition processedSchema (h : Host) (o : JSObject) : option ProcessedProject :=
  project <- projectInputSchema h o ;;
  projectId <- z_string (get "projectId" o) ;;
  slug <- z_string (get "slug" o) ;;
  estimatedDuration <- z_string (get "estimatedDuration" o) ;;
  createdAt <- z_string (get "createdAt" o) ;;
  Some {| pp_project := project; projectId := projectId; slug := slug;
          estimatedDuration := estimatedDuration; createdAt := createdAt |}.

(** [createProjectPlan.outputSchema] *)
Definition planSchema (h : Host) (o : JSObject) : option ProjectPlan :=
  project <- processedSchema h o ;;
  phases <- z_array z_string (get "phases" o) ;;
  milestones <- z_array z_string (get "milestones" o) ;;
  risks <- z_array z_string (get "risks" o) ;;
  Some {| plan_project := project; phases := phases;
          milestones := milestones; risks := risks |}.

(** The one default of the project schema, filled into the record a step
    is handed: [priority] is ["medium"]. *)
Definition project_defaults (record : JSObject) : JSObject :=
  fill "priority" (VStr "medium") record.

(** The declared fields alone, in the order the schema declares them. *)
Definition project_fields (i : ProjectInput) : JSObject :=
  [("projectName", VStr (projectName i));
   ("description", VStr (description i));
   ("teamSize", VNum (teamSize i));
   ("priority", VStr (priority i))].

Definition processed_fields (i : ProcessedProject) : JSObject :=
  (project_fields (pp_project i)
   ++ [("projectId", VStr (projectId i));
       ("slug", VStr (slug i));
       ("estimatedDuration", VStr (estimatedDuration i));
       ("createdAt", VStr (createdAt i))])%list.

Definition plan_fields (i : ProjectPlan) : JSObject :=
  (processed_fields (plan_project i)
   ++ [("phases", strings (phases i));
       ("milestones", strings (milestones i));
       ("risks", strings (risks i))])%list.

Local Open Scope exec_scope.

(** *** Step 1: process-project-data *)

(** The estimate, in days: [baseDays] after the two adjustments. *)
Definition estimated_days (teamSize : Z) (priority : string) : Z :=
  let baseDays := 30%Z in
  let baseDays :=
    if (teamSize <=? 2)%Z then (baseDays + 20)%Z
    else if (teamSize <=? 5)%Z then (baseDays + 10)%Z
    else (baseDays - 5)%Z in
  if String.eqb priority "high" then Math_floor (times (Number_of_Z baseDays) lit_0_8)
  else if String.eqb priority "low" then Math_floor (times (Number_of_Z baseDays) lit_1_2)
  else baseDays.

(** [execute], on the accepted [record] and the declared fields read off
    it. *)
Definition processProjectData_body (h : Host) (record : JSObject)
    (inputData : ProjectInput) : Exec JSObject :=
  log h ("🔍 Processing project: " ++ projectName inputData) ;;
  let projectId :=
    "proj_" ++ Z_to_string (Date_now h) ++ "_"
    ++ substring 2 6 (Math_random_toString36 h) in
  let slug := Onboard.slugify (projectName inputData) in
  let baseDays := estimated_days (teamSize inputData) (priority inputData) in
  let estimatedDuration := Z_to_string baseDays ++ " days" in
  log h ("✅ Generated project ID: " ++ projectId) ;;
  ret (extend record
         [("projectId", VStr projectId);
          ("slug", VStr slug);
          ("estimatedDuration", VStr estimatedDuration);
          ("createdAt", VStr (Date_toISOString h))]).

(** [execute] on a record that holds the declared fields and no other. *)
Definition processProjectData_execute (h : Host) (inputData : ProjectInput)
    : Exec JSObject :=
  processProjectData_body h (project_fields inputData) inputData.

Definition processProjectData : Step :=
  createStep "process-project-data" (accepted projectInputSchema project_defaults)
    (fun h given => processProjectData_body h (snd given) (fst given)).

(** *** Step 2: create-project-plan *)

Definition plan_phases : list string :=
  ["Project Initiation";
   "Requirements Gathering";
   "Design & Planning";
   "Development";
   "Testing";
   "Deployment";
   "Project Closure"].

Definition plan_milestones : list string :=
  ["Requirements approved (Week 1)";
   "Design completed (Week 2)";
   "MVP ready (Week 4)";
   "Testing completed (Week 6)";
   "Production deployment (Week 8)"].

Definition plan_risks (teamSize : Z) (priority : string) : list string :=
  let risks := [] in
  let risks :=
    if (teamSize <=? 2)%Z
    then push risks "Small team may face capacity constraints"
    else risks in
  let risks :=
    if String.eqb priority "high"
    then push (push risks "Tight timeline may impact quality")
              "Increased pressure on team members"
    else risks in
  let risks := push risks "Scope creep during development" in
  push risks "Integration challenges".

Definition createProjectPlan_body (h : Host) (record : JSObject)
    (inputData : ProcessedProject) : Exec JSObject :=
  let project := pp_project inputData in
  log h ("📋 Creating project plan for: " ++ projectName project) ;;
  let phases := plan_phases in
  let milestones := plan_milestones in
  let risks := plan_risks (teamSize project) (priority project) in
  log h ("✅ Created plan with " ++ nat_to_string (List.length phases)
         ++ " phases and " ++ nat_to_string (List.length milestones)
         ++ " milestones") ;;
  ret (extend record
         [("phases", strings phases);
          ("milestones", strings milestones);
          ("risks", strings risks)]).

Definition createProjectPlan_execute (h : Host) (inputData : ProcessedProject)
    : Exec JSObject :=
  createProjectPlan_body h (processed_fields inputData) inputData.

Definition createProjectPlan : Step :=
  createStep "create-project-plan" (accepted processedSchema project_defaults)
    (fun h given => createProjectPlan_body h (snd given) (fst given)).

(** *** Step 3: generate-project-report *)

(** [xs.map((x, i) => `${i + 1}. ${x}`).join('\n')] *)
Definition numbered (xs : list string) : string :=
  JS.join nl (mapi_from (fun x i => nat_to_string (i + 1) ++ ". " ++ x) 0 xs).

(** The report; [toLocaleDateString] is the runtime's
    [new Date(iso).toLocaleDateString()]. *)
Definition report_text (toLocaleDateString : string -> string) (h : Host)
    (inputData : ProjectPlan) : string :=
  let processed := plan_project inputData in
  let project := pp_project processed in
  trim (lines [
    "";
    "# PROJECT ANALYSIS REPORT";
    "";
    "## Project Overview";
    "- **Name**: " ++ projectName project;
    "- **ID**: " ++ projectId processed;
    "- **Description**: " ++ description project;
    "- **Team Size**: " ++ Z_to_string (teamSize project) ++ " members";
    "- **Priority**: " ++ Onboard.toUpperCase (priority project);
    "- **Estimated Duration**: " ++ estimatedDuration processed;
    "- **Created**: " ++ toLocaleDateString (createdAt processed);
    "";
    "## Project Phases";
    numbered (phases inputData);
    "";
    "## Key Milestones";
    numbered (milestones inputData);
    "";
    "## Risk Assessment";
    numbered (risks inputData);
    "";
    "## Resource Requirements";
    "- Team Size: " ++ Z_to_string (teamSize project) ++ " members";
    "- Timeline: " ++ estimatedDuration processed;
    "- Priority Level: " ++ priority project;
    "";
    "Generated on: " ++ Date_toLocaleString h;
    "    "
  ]).

Definition report_summary (inputData : ProjectPlan) : string :=
  let processed := plan_project inputData in
  let project := pp_project processed in
  "Project " ++ dquote ++ projectName project ++ dquote ++ " is a "
  ++ priority project ++ " priority initiative requiring "
  ++ Z_to_string (teamSize project) ++ " team members and an estimated "
  ++ estimatedDuration processed ++ " to complete. The project includes "
  ++ nat_to_string (List.length (phases inputData)) ++ " phases and "
  ++ nat_to_string (List.length (milestones inputData)) ++ " key milestones.".

Definition report_recommendations (teamSize : Z) (priority : string) : list string :=
  let recommendations := [] in
  let recommendations :=
    if (teamSize <=? 2)%Z
    then push recommendations
           "Consider adding additional team members to reduce delivery risk"
    else recommendations in
  let recommendations :=
    if String.eqb priority "high"
    then push (push recommendations
                 "Implement daily standup meetings for close progress monitoring")
              "Consider splitting into smaller, deliverable chunks"
    else recommendations in
  let recommendations := push recommendations "Set up regular stakeholder check-ins" in
  let recommendations := push recommendations "Document all decisions and changes" in
  push recommendations "Plan for regular testing cycles throughout development".

Definition generateProjectReport_execute (toLocaleDateString : string -> string)
    (h : Host) (inputData : ProjectPlan) : Exec JSObject :=
  let processed := plan_project inputData in
  let project := pp_project processed in
  log h ("📝 Generating report for: " ++ projectName project) ;;
  let report := report_text toLocaleDateString h inputData in
  let summary := report_summary inputData in
  let recommendations :=
    report_recommendations (teamSize project) (priority project) in
  log h ("✅ Generated comprehensive report with "
         ++ nat_to_string (List.length recommendations) ++ " recommendations") ;;
  ret (object [("projectId", VStr (projectId processed));
               ("projectName", VStr (projectName project));
               ("report", VStr report);
               ("summary", VStr summary);
               ("recommendations", strings recommendations)]).

Definition generateProjectReport (toLocaleDateString : string -> string) : Step :=
  createStep "generate-project-report" planSchema
    (generateProjectReport_execute toLocaleDateString).

(** *** The workflow *)

Definition simpleDemoWorkflow (toLocaleDateString : string -> string) : Pipeline :=
  [NStep processProjectData;
   NStep createProjectPlan;
   NStep (generateProjectReport toLocaleDateString)].

End Demo.

(* ===================================================================== *)
(** ** Sample hosts and inputs *)
(* ===================================================================== *)

Module Samples.

(** A [JSON.parse] that knows the empty object and rejects any other text. *)
Definition parse_sample (s : string) : Result JSValue :=
  if String.eqb s "{}" then Ok (VObj []) else Throw (Error "Unexpected token").

Definition has_at_sign (s : string) : bool :=
  existsb (Ascii.eqb (ascii_of_nat 64)) (list_ascii_of_string s).

Fixpoint starts_with (p s : string) : bool :=
  match p, s with
  | EmptyString, _ => true
  | String a p', String b s' => (Ascii.eqb a b && starts_with p' s')%bool
  | String _ _, EmptyString => false
  end.

(** An assistant that answers every call. *)
Definition assistant : Agent :=
  {| generate := fun _ _ _ => Ok "Kick-off summary." |}.

(** An assistant whose platform calls throw and whose summary call
    answers. *)
Definition summary_only_assistant : Agent :=
  {| generate := fun _ _ threadId =>
       if starts_with "summary-" threadId then Ok "Kick-off summary."
       else Throw (Error "integration unavailable") |}.

(** An assistant none of whose calls answers. *)
Definition unreachable_assistant : Agent :=
  {| generate := fun _ _ _ => Throw (Error "service unavailable") |}.

Definition registry_of (a : Agent) (name : string) : option Agent :=
  if String.eqb name "projectAssistantAgent" then Some a else None.

(** A host where every outside call works; the completion answers prose,
    not JSON. *)
Definition working_host : Host :=
  {| console_log := fun _ => Ok tt;
     generateText := fun _ => Ok "Mostly release notes; relevance is high.";
     JSON_parse := parse_sample;
     JSON_stringify := fun _ => "[...]";
     is_email := has_at_sign;
     Date_now := 1718000000000;
     Date_toLocaleString := "6/10/2024, 8:13:20 AM";
     Date_toISOString := "2024-06-10T06:13:20.000Z";
     Math_random_toString36 := "0.4fzyo82mvyr";
     mastra := Some (registry_of assistant) |}.

Definition with_completion (text : string) (h : Host) : Host :=
  {| console_log := console_log h;
     generateText := fun _ => Ok text;
     JSON_parse := JSON_parse h;
     JSON_stringify := JSON_stringify h;
     is_email := is_email h;
     Date_now := Date_now h;
     Date_toLocaleString := Date_toLocaleString h;
     Date_toISOString := Date_toISOString h;
     Math_random_toString36 := Math_random_toString36 h;
     mastra := mastra h |}.

Definition with_mastra (m : option (string -> option Agent)) (h : Host) : Host :=
  {| console_log := console_log h;
     generateText := generateText h;
     JSON_parse := JSON_parse h;
     JSON_stringify := JSON_stringify h;
     is_email := is_email h;
     Date_now := Date_now h;
     Date_toLocaleString := Date_toLocaleString h;
     Date_toISOString := Date_toISOString h;
     Math_random_toString36 := Math_random_toString36 h;
     mastra := m |}.

(** The completion answers the empty JSON object. *)
Definition empty_json_host : Host := with_completion "{}" working_host.

(** The completion service is down: the call throws. *)
Definition completion_down_host : Host :=
  {| console_log := console_log working_host;
     generateText := fun _ => Throw (Error "completion service unavailable");
     JSON_parse := JSON_parse working_host;
     JSON_stringify := JSON_stringify working_host;
     is_email := is_email working_host;
     Date_now := Date_now working_host;
     Date_toLocaleString := Date_toLocaleString working_host;
     Date_toISOString := Date_toISOString working_host;
     Math_random_toString36 := Math_random_toString36 working_host;
     mastra := mastra working_host |}.

(** The platform integrations are down, the summary call works. *)
Definition platforms_down_host : Host :=
  with_mastra (Some (registry_of summary_only_assistant)) working_host.

(** The assistant is registered and never answers. *)
Definition unreachable_host : Host :=
  with_mastra (Some (registry_of unreachable_assistant)) working_host.

(** No [mastra] instance is passed to the steps. *)
Definition no_agent_host : Host := with_mastra None working_host.

Definition approval_input : JSObject :=
  [("query", VStr "X"); ("platforms", strings ["github"]);
   ("requireApproval", VBool true)].

Definition rejection : JSObject := [("approved", VBool false)].

Definition project_input : JSObject :=
  [("projectName", VStr "Apollo Launch");
   ("description", VStr "Landing page and docs for the launch");
   ("teamMembers", strings ["ada@example.com"; "lin@example.com"]);
   ("techStack", strings ["typescript"]);
   ("priority", VStr "high")].

Definition project_input_no_platforms : JSObject :=
  (project_input
   ++ [("platforms",
        VObj [("github", VBool false); ("slack", VBool false);
              ("googleDrive", VBool false)])])%list.

Definition analyze_input : Research.AnalyzeInput :=
  {| Research.ai_googleDriveResults := Some [];
     Research.ai_githubResults := Some [];
     Research.ai_slackResults := None;
     Research.ai_totalResults := 0;
     Research.ai_query := "X";
     Research.ai_requireApproval := true;
     Research.ai_publishChannels := Some ["email"] |}.

Definition project : Onboard.ProjectInput :=
  {| Onboard.projectName := "Apollo Launch";
     Onboard.description := "Landing page and docs for the launch";
     Onboard.teamMembers := ["ada@example.com"];
     Onboard.techStack := [];
     Onboard.deadline := Some "2024-09-01";
     Onboard.priority := "medium";
     Onboard.platforms :=
       {| Onboard.github := false; Onboard.slack := true;
          Onboard.googleDrive := true |} |}.

Definition step1_record : Onboard.Step1Output :=
  {| Onboard.s1_project := project;
     Onboard.projectId := "proj_1718000000000_4fzyo82mv";
     Onboard.createdAt := "2024-06-10T06:13:20.000Z";
     Onboard.slug := "apollo-launch" |}.

End Samples.

(* ===================================================================== *)
(** ** What a trace and a record show *)
(* ===================================================================== *)

(** How often a trace enters the function [fn]. *)
Definition calls (fn : string) (t : Trace) : nat :=
  List.length
    (filter (fun e => match e with
                      | EvCall f _ => String.eqb f fn
                      | _ => false
                      end) t).

(** A call came back with an answer. *)
Definition answered {A : Type} (r : Result A) : bool :=
  match r with
  | Ok _ => true
  | Throw _ => false
  end.

(** The line a publish helper of the research workflow logs for a
    channel: the only thing of its body that can throw.  A channel that is
    none of the three has no helper. *)
Definition announcement (channel title : string) : option string :=
  if String.eqb channel "google-drive" then Some ("Creating Google Doc: " ++ title)
  else if String.eqb channel "slack" then Some ("Posting to Slack: " ++ title)
  else if String.eqb channel "email" then Some ("Sending email: " ++ title)
  else None.

(** The channel's helper runs to its end. *)
Definition delivered (h : Host) (title channel : string) : bool :=
  match announcement channel title with
  | Some message =>
      match console_log h message with
      | Ok _ => true
      | Throw _ => false
      end
  | None => false
  end.

(** A list of characters is a slug: letters, digits and single dashes
    between them. *)
Definition slug_shaped (cs : list ascii) : Prop :=
  Forall (fun c => Onboard.is_slug_char c = true \/ c = Onboard.dash) cs
  /\ (forall rest, cs <> Onboard.dash :: rest)
  /\ (forall front, cs <> (front ++ [Onboard.dash])%list)
  /\ (forall front rest, cs <> (front ++ Onboard.dash :: Onboard.dash :: rest)%list).

(** [kept but o o']: every field of [o] is a field of [o'], and has in
    [o'] the value it has in [o] unless it is named in [but]. *)
Definition kept (but : list string) (o o' : JSObject) : Prop :=
  forall k : string,
    (has k o = true -> has k o' = true)
    /\ (~ In k but -> get k o' = get k o).

(** The fields the onboarding contracts fill with a default and the fields
    the first four onboarding steps write. *)
Definition written_names : list string :=
  ["techStack"; "priority"; "platforms";
   "projectId"; "slug"; "createdAt";
   "repositoryUrl"; "repositoryName"; "githubSuccess";
   "driveFolderUrl"; "driveFolderId"; "driveSuccess";
   "channelName"; "channelId"; "slackSuccess"].

(* ===================================================================== *)
(** ** More sample hosts and inputs *)
(* ===================================================================== *)

Module Cases.

Import Samples.

(** A console that cannot be written to. *)
Definition closed_console_host : Host :=
  {| console_log := fun _ => Throw (Error "write EPIPE");
     generateText := generateText working_host;
     JSON_parse := JSON_parse working_host;
     JSON_stringify := JSON_stringify working_host;
     is_email := is_email working_host;
     Date_now := Date_now working_host;
     Date_toLocaleString := Date_toLocaleString working_host;
     Date_toISOString := Date_toISOString working_host;
     Math_random_toString36 := Math_random_toString36 working_host;
     mastra := mastra working_host |}.

Definition search_for (platforms : option (list string)) : Research.SearchInput :=
  {| Research.si_query := "X";
     Research.si_platforms := platforms;
     Research.si_requireApproval := true;
     Research.si_publishChannels := None |}.

Definition hit (n : Z) : JSValue := VObj [("id", VNum n)].

Definition analyze_results (github : list JSValue) (totalResults : Z)
    : Research.AnalyzeInput :=
  {| Research.ai_googleDriveResults := None;
     Research.ai_githubResults := Some github;
     Research.ai_slackResults := Some [];
     Research.ai_totalResults := totalResults;
     Research.ai_query := "X";
     Research.ai_requireApproval := false;
     Research.ai_publishChannels := None |}.

Definition analyze_record : JSObject :=
  [("googleDriveResults", VArr []);
   ("githubResults", VArr []);
   ("totalResults", VNum 0);
   ("query", VStr "X");
   ("requireApproval", VBool true);
   ("publishChannels", strings ["email"])].

Definition report_record : JSObject :=
  [("reportTitle", VStr "Research Report: X");
   ("reportContent", VStr "# Research Report: X");
   ("reportFormat", VStr "markdown");
   ("requireApproval", VBool true);
   ("publishChannels", strings ["slack"; "email"])].

Definition report_input : Research.ApprovalInput :=
  {| Research.ap_reportTitle := "Research Report: X";
     Research.ap_reportContent := "# Research Report: X";
     Research.ap_reportFormat := "markdown";
     Research.ap_requireApproval := true;
     Research.ap_publishChannels := Some ["slack"; "email"] |}.

Definition scored_report : Research.ReportInput :=
  {| Research.ri_summary := "Mostly release notes; relevance is high.";
     Research.ri_keyFindings := ["Analysis completed"];
     Research.ri_recommendations := ["Review the findings"];
     Research.ri_relevanceScore := 75;
     Research.ri_query := "X";
     Research.ri_requireApproval := false;
     Research.ri_publishChannels := None |}.

Definition publish_input (approved : bool) : Research.PublishInput :=
  {| Research.pi_approved := approved;
     Research.pi_reportTitle := "Research Report: X";
     Research.pi_reportContent := "# Research Report: X";
     Research.pi_publishChannels := Some ["slack"; "fax"; "google-drive"; "slack"] |}.

Definition project_record : Onboard.ProjectInput :=
  {| Onboard.projectName := "Apollo Launch";
     Onboard.description := "Landing page and docs for the launch";
     Onboard.teamMembers := ["ada@example.com"; "lin@example.com"];
     Onboard.techStack := ["typescript"];
     Onboard.deadline := None;
     Onboard.priority := "high";
     Onboard.platforms :=
       {| Onboard.github := true; Onboard.slack := true;
          Onboard.googleDrive := true |} |}.

(** The sample project with a field that no schema of the onboarding
    workflow declares. *)
Definition ticketed_input : JSObject :=
  (project_input ++ [("ticket", VStr "OPS-7")])%list.

(** The sample project with a field named as the validation step names
    one of the fields it writes. *)
Definition slugged_input : JSObject :=
  (project_input ++ [("slug", VStr "custom")])%list.

Definition demo_input : JSObject :=
  [("projectName", VStr "Apollo Launch");
   ("description", VStr "Landing page and docs for the launch");
   ("teamSize", VNum 4)].

Definition demo_project : Demo.ProjectInput :=
  {| Demo.projectName := "Apollo Launch";
     Demo.description := "Landing page and docs for the launch";
     Demo.teamSize := 4;
     Demo.priority := "medium" |}.

Definition demo_plan : Demo.ProjectPlan :=
  {| Demo.plan_project :=
       {| Demo.pp_project := demo_project;
          Demo.projectId := "proj_1718000000000_4fzyo8";
          Demo.slug := "apollo-launch";
          Demo.estimatedDuration := "40 days";
          Demo.createdAt := "2024-06-10T06:13:20.000Z" |};
     Demo.phases := Demo.plan_phases;
     Demo.milestones := Demo.plan_milestones;
     Demo.risks := Demo.plan_risks 4 "medium" |}.

(** A runtime whose short dates are the day of the ISO text. *)
Definition day_of (iso : string) : string := substring 0 10 iso.

End Cases.

(* ===================================================================== *)
(** ** Facts about objects and effects *)
(* ===================================================================== *)

Section ObjectFacts.

Lemma get_set (k k' : string) (v : JSValue) (o : JSObject) :
  get k (set k' v o) = if String.eqb k k' then v else get k o.
Proof.
  induction o as [|[k0 v0] o IH]; simpl.
  - reflexivity.
  - destruct (String.eqb k' k0) eqn:E0; simpl.
    + apply String.eqb_eq in E0; subst k0.
      destruct (String.eqb k k'); reflexivity.
    + destruct (String.eqb k k0) eqn:E1.
      * apply String.eqb_eq in E1; subst k0.
        rewrite String.eqb_sym, E0. reflexivity.
      * exact IH.
Qed.

Lemma get_extend (k : string) (props : list (string * JSValue)) (base : JSObject) :
  get k (extend base props) = get_last k props (get k base).
Proof.
  unfold extend. revert base.
  induction props as [|[k' v] props IH]; intro base; simpl.
  - reflexivity.
  - rewrite IH, get_set. reflexivity.
Qed.

Lemma get_app (k : string) (o1 o2 : JSObject) :
  get k (o1 ++ o2)%list = if has k o1 then get k o1 else get k o2.
Proof.
  induction o1 as [|[k0 v0] o1 IH]; simpl.
  - reflexivity.
  - destruct (String.eqb k k0); [reflexivity | exact IH].
Qed.

Lemma set_fresh (k : string) (v : JSValue) (o : JSObject) :
  has k o = false -> set k v o = (o ++ [(k, v)])%list.
Proof.
  induction o as [|[k0 v0] o IH]; simpl; intro H.
  - reflexivity.
  - destruct (String.eqb k k0); [discriminate | now rewrite IH].
Qed.

Lemma has_app (k : string) (o1 o2 : JSObject) :
  has k (o1 ++ o2)%list = (has k o1 || has k o2)%bool.
Proof.
  induction o1 as [|[k0 v0] o1 IH]; simpl.
  - reflexivity.
  - destruct (String.eqb k k0); [reflexivity | exact IH].
Qed.

Lemma has_In (k : string) (o : JSObject) : has k o = true <-> In k (keys o).
Proof.
  induction o as [|[k0 v0] o IH]; simpl.
  - split; [discriminate | tauto].
  - destruct (String.eqb k k0) eqn:E.
    + apply String.eqb_eq in E. split; auto.
    + apply String.eqb_neq in E. rewrite IH. split; [auto | intros [H|H]; congruence].
Qed.

End ObjectFacts.

Section EffectFacts.

Context {A : Type}.

Variable P : Event -> Prop.

Lemma emits_ret (a : A) : emits P (ret a).
Proof. constructor. Qed.

Lemma emits_throw (e : JSError) : emits P (throw (A := A) e).
Proof. constructor. Qed.

Lemma emits_lift (r : Result A) : emits P (lift r).
Proof. constructor. Qed.

Lemma emits_emit (e : Event) : P e -> emits P (emit e).
Proof. intro H. repeat constructor. exact H. Qed.

Lemma emits_bind {B : Type} (m : Exec B) (k : B -> Exec A) :
  emits P m -> (forall b, emits P (k b)) -> emits P (bind m k).
Proof.
  unfold emits. destruct m as [t [b|e]]; simpl; intros Hm Hk.
  - specialize (Hk b). destruct (k b) as [t' r]; simpl in *.
    apply Forall_app; split; assumption.
  - exact Hm.
Qed.

Lemma emits_try_catch (body : Exec A) (handler : JSError -> Exec A) :
  emits P body -> (forall e, emits P (handler e)) -> emits P (try_catch body handler).
Proof.
  unfold emits. destruct body as [t [a|e]]; simpl; intros Hb Hh.
  - exact Hb.
  - specialize (Hh e). destruct (handler e) as [t' r]; simpl in *.
    apply Forall_app; split; assumption.
Qed.

Lemma emits_for_of {B : Type} (xs : list B) (body : A -> B -> Exec A) (s : A) :
  (forall s x, emits P (body s x)) -> emits P (for_of xs body s).
Proof.
  intro Hb. revert s. induction xs as [|x xs IH]; intro s; simpl.
  - apply emits_ret.
  - apply emits_bind; [apply Hb | exact IH].
Qed.

End EffectFacts.

(* ===================================================================== *)
(** ** The driver: routing *)
(* ===================================================================== *)

Section Routing.

Lemma run_step_not_routing h cur s acc resumeData :
  snd (run_step h cur s acc resumeData) <> Invalid RoutingError.
Proof.
  unfold run_step. destruct (step_enter s h acc resumeData); simpl; discriminate.
Qed.

Lemma keyed_not_routing s r : r <> Invalid RoutingError -> keyed s r <> Invalid RoutingError.
Proof.
  destruct r as [[ | | | ]|e]; simpl; intros H; try discriminate; exact H.
Qed.

(** A branch fails with a routing error exactly when none of its guards
    holds. *)
Lemma invoke_branch_routing h cur alternatives acc :
  snd (fst (invoke h cur (NBranch alternatives) acc)) = Invalid RoutingError
  <-> select_branch alternatives acc = None.
Proof.
  simpl. destruct (select_branch alternatives acc) as [s|].
  - split; [|discriminate].
    pose proof (run_step_not_routing h cur s acc None) as H.
    destruct (run_step h cur s acc None) as [t r]; simpl in *.
    intro K. exfalso. exact (keyed_not_routing s r H K).
  - split; reflexivity.
Qed.

(** First match wins: once a guard holds, what is declared after its
    alternative is not consulted. *)
Lemma select_branch_first alternatives later acc target :
  select_branch alternatives acc = Some target ->
  select_branch (alternatives ++ later)%list acc = Some target.
Proof.
  induction alternatives as [|[g t] rest IH]; simpl.
  - discriminate.
  - destruct (g acc); [auto | exact IH].
Qed.

End Routing.

Section ResearchRouting.
Import Research.

(** C3.  Branch routing of the document-research workflow is deterministic
    and first-match-wins: for every accumulated record the two guards,
    tested in declaration order, select exactly one target, the
    human-approval step when [requireApproval === true] and the
    auto-approve step otherwise; alternatives declared later are never
    consulted; the two guards are complementary, so the routing error of a
    branch with no matching guard does not occur. *)
Theorem branch_routing_first_match :
  forall acc : JSObject,
    let target :=
      if is_true (get "requireApproval" acc) then approvalStep else autoApproveStep in
    select_branch approvalBranch acc = Some target
    /\ step_id target
       = (if is_true (get "requireApproval" acc) then "human-approval" else "auto-approve")
    /\ (forall later, select_branch (approvalBranch ++ later)%list acc = Some target)
    /\ approval_not_required acc = negb (approval_required acc)
    /\ (forall h cur,
          snd (fst (invoke h cur (NBranch approvalBranch) acc)) <> Invalid RoutingError).
Proof.
  intros acc target.
  assert (Hsel : select_branch approvalBranch acc = Some target).
  { subst target. unfold approvalBranch, approval_required, approval_not_required.
    simpl. destruct (is_true (get "requireApproval" acc)); reflexivity. }
  split; [exact Hsel|].
  split; [subst target; destruct (is_true (get "requireApproval" acc)); reflexivity|].
  split; [intro later; apply select_branch_first; exact Hsel|].
  split; [reflexivity|].
  intros h cur K. apply invoke_branch_routing in K. congruence.
Qed.

End ResearchRouting.

(* ===================================================================== *)
(** ** The document-research steps *)
(* ===================================================================== *)

Section ApprovalStep.
Import Research.

(** *** human-approval, resumed *)

(** C10.  Resume data can rewrite the report: when the human-approval step
    is resumed, its output's [reportContent] is [modifiedContent] of the
    resume data if that is present and not the empty string, and the
    input's [reportContent] otherwise; [approved] and [feedback] are those
    of the resume data. *)
Theorem approval_resume_output :
  forall (h : Host) (inputData : ApprovalInput) (resumeData : ResumeData),
  exists t out,
    approvalStep_execute h inputData (Some resumeData) = (t, Ok out)
    /\ get "reportContent" out
       = VStr (match rd_modifiedContent resumeData with
               | Some content =>
                   if String.eqb content "" then ap_reportContent inputData else content
               | None => ap_reportContent inputData
               end)
    /\ get "approved" out = VBool (rd_approved resumeData)
    /\ get "feedback" out = of_opt VStr (rd_feedback resumeData)
    /\ get "reportTitle" out = VStr (ap_reportTitle inputData)
    /\ outcome_of (approvalStep_execute h inputData (Some resumeData)) = Continue out.
Proof.
  intros h inputData resumeData.
  eexists. eexists. split; [reflexivity|].
  repeat split.
Qed.

End ApprovalStep.
Section AnalyzeStep.
Import Research.

(** What the resume contract accepts is what the step reads as
    [resumeData]: the three fields, as they stand in the resume record. *)
Lemma approvalResumeSchema_reads (raw : JSObject) (resumeData : ResumeData) :
  approvalResumeSchema (VObj raw) = Some resumeData ->
  get "approved" raw = VBool (rd_approved resumeData)
  /\ get "feedback" raw = of_opt VStr (rd_feedback resumeData)
  /\ get "modifiedContent" raw = of_opt VStr (rd_modifiedContent resumeData).
Proof.
  unfold approvalResumeSchema, z_object, obind.
  destruct (get "approved" raw) as [ | |b| | | | ]; simpl; try discriminate.
  destruct (get "feedback" raw) as [ | | | |f| | ]; simpl; try discriminate;
    destruct (get "modifiedContent" raw) as [ | | | |m| | ]; simpl; try discriminate;
    intro H; injection H as <-; simpl; repeat split.
Qed.

(** *** analyze-results *)

Lemma analyze_unfold h inputData :
  analyzeResultsStep_execute h inputData
  = bind (write [("type", VStr "analysis-status"); ("status", VStr "analyzing")])
      (fun _ =>
         bind (generate_text h (prompt_of h inputData))
           (fun text =>
              try_catch
                (bind (lift (JSON_parse h text))
                   (fun analysis =>
                      bind (write [("type", VStr "analysis-status"); ("status", VStr "complete")])
                        (fun _ =>
                           ret (extend (own_props analysis)
                                  [("query", VStr (ai_query inputData));
                                   ("requireApproval", VBool (ai_requireApproval inputData));
                                   ("publishChannels", of_opt strings (ai_publishChannels inputData))]))))
                (fun _ => ret (fallback_analysis text inputData)))).
Proof. reflexivity. Qed.

(** C9.  The analyze-results step does not fail on malformed model
    output: whenever the completion call returns a text that does not
    parse as JSON, the step returns the fallback record, whose summary is
    the raw text, with the two fixed lists and the score 75; and whether
    the text parses or not, the step returns a record that keeps the
    [query], [requireApproval] and [publishChannels] of its input. *)
Theorem analyze_falls_back_on_malformed_output :
  forall (h : Host) (inputData : AnalyzeInput) (text : string),
    generateText h (prompt_of h inputData) = Ok text ->
    (forall e, JSON_parse h text = Throw e ->
       snd (analyzeResultsStep_execute h inputData)
       = Ok [("summary", VStr text);
             ("keyFindings", VArr [VStr "Analysis completed"]);
             ("recommendations", VArr [VStr "Review the findings"]);
             ("relevanceScore", VNum 75);
             ("query", VStr (ai_query inputData));
             ("requireApproval", VBool (ai_requireApproval inputData));
             ("publishChannels", of_opt strings (ai_publishChannels inputData))])
    /\ exists out,
         snd (analyzeResultsStep_execute h inputData) = Ok out
         /\ outcome_of (analyzeResultsStep_execute h inputData) = Continue out
         /\ get "query" out = VStr (ai_query inputData)
         /\ get "requireApproval" out = VBool (ai_requireApproval inputData)
         /\ get "publishChannels" out = of_opt strings (ai_publishChannels inputData).
Proof.
  intros h inputData text Htext.
  rewrite analyze_unfold.
  unfold generate_text, write, lift, emit, bind at 1 2 3.
  cbn -[extend own_props prompt_of]. rewrite Htext. cbn -[extend own_props prompt_of].
  destruct (JSON_parse h text) as [analysis|e] eqn:Hparse; cbn -[extend own_props prompt_of].
  - split; [intros e He; discriminate|].
    eexists. split; [reflexivity|]. split; [reflexivity|].
    rewrite !get_extend. simpl. repeat split.
  - split.
    + intros e' _. reflexivity.
    + eexists. split; [reflexivity|]. repeat split.
Qed.
End AnalyzeStep.
Section SearchStep.
Import Research.

Lemma or_num_0 (n : Z) : JS.or (VNum n) (VNum 0) = VNum n.
Proof.
  unfold JS.or, truthy. destruct (Z.eqb_spec n 0) as [->|_]; reflexivity.
Qed.

Ltac helper_total :=
  intros h query;
  unfold searchGoogleDrive, searchGitHub, searchSlack, found_googleDrive, found_github,
    found_slack, found, log, log_error, lift, emit, plain, emits;
  cbn -[String.append];
  destruct (console_log h _) as [[]|e]; cbn -[String.append];
  eexists; (split; [reflexivity|]); repeat constructor.

(** A search helper never throws. *)
Lemma searchGoogleDrive_total :
  forall h query, exists t,
    searchGoogleDrive h query = (t, Ok (found_googleDrive h query)) /\ Forall plain t.
Proof. helper_total. Qed.

Lemma searchGitHub_total :
  forall h query, exists t,
    searchGitHub h query = (t, Ok (found_github h query)) /\ Forall plain t.
Proof. helper_total. Qed.

Lemma searchSlack_total :
  forall h query, exists t,
    searchSlack h query = (t, Ok (found_slack h query)) /\ Forall plain t.
Proof. helper_total. Qed.

Lemma bind_ok {A B} (t : Trace) (a : A) (k : A -> Exec B) :
  bind (t, Ok a) k = ((t ++ fst (k a))%list, snd (k a)).
Proof. simpl. destruct (k a); reflexivity. Qed.

Lemma launch_all_launched h platforms query :
  exists t,
    launch_all h platforms query = (t, Ok (launched h platforms query))
    /\ Forall plain t.
Proof.
  destruct (searchGoogleDrive_total h query) as (t1 & E1 & P1).
  destruct (searchGitHub_total h query) as (t2 & E2 & P2).
  destruct (searchSlack_total h query) as (t3 & E3 & P3).
  unfold launch_all, launch, launched. rewrite E1, E2, E3.
  destruct (includes platforms "google-drive"), (includes platforms "github"),
    (includes platforms "slack"); cbn -[found_googleDrive found_github found_slack];
    eexists; (split; [reflexivity|]);
    rewrite ?app_nil_r; repeat (apply Forall_app; split); auto.
Qed.

Lemma handlers_settle_all ps results :
  exists t,
    for_of ps handler results = (t, Ok (settle_all ps results)) /\ Forall plain t.
Proof.
  revert results. induction ps as [|p ps IH]; intro results.
  - exists []. split; [reflexivity | constructor].
  - destruct (IH (assign p results)) as (t & E & Pt).
    cbn [for_of]. unfold handler at 1, write, emit. cbn [bind ret].
    rewrite E. eexists. split; [reflexivity|].
    cbn. constructor; [repeat split | exact Pt].
Qed.

(** The step body runs to its [return]: it hands on the results object
    with every handler's assignment made and the total counted. *)
Lemma search_with_returns settled h inputData :
  exists t,
    search_with settled h inputData
    = (t, Ok (count_total
                (settle_all
                   (settled (launched h (platforms_of inputData) (si_query inputData)))
                   (initial_results inputData))))
    /\ Forall plain t.
Proof.
  destruct (launch_all_launched h (platforms_of inputData) (si_query inputData))
    as (t1 & E1 & P1).
  destruct (handlers_settle_all
              (settled (launched h (platforms_of inputData) (si_query inputData)))
              (initial_results inputData)) as (t2 & E2 & P2).
  unfold search_with, write, emit. cbn [bind]. rewrite E1. cbn [bind].
  rewrite E2. cbn [bind ret]. eexists. split; [reflexivity|].
  cbn. constructor; [repeat split|]. 
  repeat (apply Forall_app; split); auto.
Qed.

End SearchStep.
Section Outcome.

Lemma no_signal_suspend (t : Trace) :
  Forall (fun e => is_signal e = false) t -> suspend_called t = None /\ bail_called t = None.
Proof.
  induction 1 as [|e t He _ [IH1 IH2]]; [split; reflexivity|].
  destruct e; simpl in *; try discriminate; auto.
Qed.

Lemma plain_no_signal (t : Trace) :
  Forall plain t -> Forall (fun e => is_signal e = false) t.
Proof. apply Forall_impl. intros e (_ & H & _). exact H. Qed.

(** A body that returned without calling [suspend] or [bail] continues
    with its return value. *)
Lemma outcome_continue (t : Trace) (out : JSObject) :
  Forall plain t -> outcome_of (t, Ok out) = Continue out.
Proof.
  intro H. apply plain_no_signal, no_signal_suspend in H. destruct H as [H1 H2].
  unfold outcome_of. rewrite H1, H2. reflexivity.
Qed.

End Outcome.

Section Join.
Import Research.

Lemma has_set (k k' : string) (v : JSValue) (o : JSObject) :
  has k (set k' v o) = (String.eqb k k' || has k o)%bool.
Proof.
  induction o as [|[k0 v0] o IH]; simpl.
  - destruct (String.eqb k k'); reflexivity.
  - destruct (String.eqb k' k0) eqn:E0; simpl.
    + apply String.eqb_eq in E0; subst k0.
      destruct (String.eqb k k'); reflexivity.
    + rewrite IH. destruct (String.eqb k k0), (String.eqb k k'); reflexivity.
Qed.

(** Assignments to two different properties that both exist commute, layout
    included. *)
Lemma set_comm (k1 k2 : string) (v1 v2 : JSValue) (o : JSObject) :
  k1 <> k2 -> has k1 o = true -> has k2 o = true ->
  set k1 v1 (set k2 v2 o) = set k2 v2 (set k1 v1 o).
Proof.
  intros Hne. induction o as [|[k0 v0] o IH]; simpl; [discriminate|].
  destruct (String.eqb k1 k0) eqn:E1, (String.eqb k2 k0) eqn:E2; simpl;
    rewrite ?E1, ?E2; try reflexivity.
  - apply String.eqb_eq in E1, E2. congruence.
  - intros H1 H2. rewrite IH; auto.
Qed.

Lemma disjoint_handlers_tail p ps results :
  disjoint_handlers (p :: ps) results -> disjoint_handlers ps (assign p results).
Proof.
  intros [Hnd Hall]. inversion Hnd; subst. inversion Hall; subst. split; [assumption|].
  eapply Forall_impl; [|eassumption].
  intros q Hq. unfold assign. rewrite has_set, Hq. apply orb_true_r.
Qed.

Lemma disjoint_handlers_perm ps ps' results :
  Permutation ps ps' -> disjoint_handlers ps results -> disjoint_handlers ps' results.
Proof.
  intros Hp [Hnd Hall]. split.
  - eapply Permutation_NoDup; [|exact Hnd]. apply Permutation_map. exact Hp.
  - eapply Permutation_Forall; eassumption.
Qed.

(** With disjoint handlers the order in which they run does not show in
    the results object. *)
Lemma settle_all_perm ps ps' :
  Permutation ps ps' ->
  forall results, disjoint_handlers ps results ->
  settle_all ps results = settle_all ps' results.
Proof.
  induction 1 as [|x l l' Hp IH|x y l|l l' l'' Hp1 IH1 Hp2 IH2]; intros results Hd.
  - reflexivity.
  - simpl. apply IH. apply disjoint_handlers_tail. exact Hd.
  - simpl. f_equal. destruct Hd as [Hnd Hall]. unfold assign.
    inversion Hnd as [|? ? Hnotin _]; subst. inversion Hall as [|? ? Hy Hall']; subst.
    inversion Hall' as [|? ? Hx _]; subst.
    apply set_comm; auto.
    intro E. apply Hnotin. simpl. left. exact E.
  - rewrite IH1 by exact Hd. apply IH2. eapply disjoint_handlers_perm; eassumption.
Qed.

Lemma join_run_inv s order s' :
  join_run s order s' ->
  forall pending results out,
    s = Awaiting pending results -> s' = Returned out ->
    Permutation order pending /\ out = count_total (settle_all order results).
Proof.
  induction 1 as [s|s1 s2 s3 p order Hstep Hrun IH|s1 s2 s3 order Hstep Hrun IH];
    intros pending results out E1 E3; subst.
  - discriminate.
  - inversion Hstep; subst.
    destruct (IH _ _ _ eq_refl eq_refl) as [Hp Hout].
    split; [|exact Hout].
    apply Permutation_cons_app. exact Hp.
  - inversion Hstep; subst. inversion Hrun; subst.
    + split; [constructor | reflexivity].
    + match goal with H : join_step (Returned _) _ _ |- _ => inversion H end.
    + match goal with H : join_step (Returned _) _ _ |- _ => inversion H end.
Qed.

Lemma join_run_any_order order :
  forall pending results,
    Permutation order pending ->
    join_run (Awaiting pending results) order
      (Returned (count_total (settle_all order results))).
Proof.
  induction order as [|p order IH]; intros pending results Hp.
  - apply Permutation_nil in Hp. subst.
    eapply join_returned; [apply join_return | apply join_done].
  - assert (Hin : In p pending) by (eapply Permutation_in; [exact Hp | left; reflexivity]).
    apply in_split in Hin. destruct Hin as (before & after & ->).
    apply Permutation_cons_app_inv in Hp.
    eapply join_settled; [apply join_settle|].
    simpl. apply IH. exact Hp.
Qed.

Lemma launched_disjoint h inputData :
  disjoint_handlers (launched h (platforms_of inputData) (si_query inputData))
    (initial_results inputData).
Proof.
  unfold launched, disjoint_handlers.
  destruct (includes (platforms_of inputData) "google-drive"),
           (includes (platforms_of inputData) "github"),
           (includes (platforms_of inputData) "slack"); simpl;
    (split; [repeat constructor; simpl; intuition discriminate | repeat constructor]).
Qed.

(** C5.  The output of the search-documents step does not depend on the
    order in which its sub-searches settle.  Whatever order the launched
    searches settle in, the awaiting step returns only after each of them
    has settled, exactly once, and what it then returns is the one record,
    layout and values, that the step body returns; every order is
    possible. *)
Theorem search_output_independent_of_settlement_order :
  forall (h : Host) (inputData : SearchInput),
    let searchPromises := launched h (platforms_of inputData) (si_query inputData) in
    let awaiting := Awaiting searchPromises (initial_results inputData) in
    (forall order out,
        join_run awaiting order (Returned out) ->
        Permutation order searchPromises
        /\ snd (searchDocumentsStep_execute h inputData) = Ok out)
    /\ (forall order,
          Permutation order searchPromises ->
          exists out, join_run awaiting order (Returned out))
    /\ (forall settled : list Pending -> list Pending,
          (forall ps, Permutation (settled ps) ps) ->
          snd (search_with settled h inputData)
          = snd (searchDocumentsStep_execute h inputData)).
Proof.
  intros h inputData searchPromises awaiting.
  pose proof (launched_disjoint h inputData) as Hd. fold searchPromises in Hd.
  destruct (search_with_returns (fun ps => ps) h inputData) as (t & E & _).
  fold searchPromises in E. unfold searchDocumentsStep_execute. rewrite E. simpl.
  repeat split.
  - destruct (join_run_inv _ _ _ H _ _ _ eq_refl eq_refl) as [Hp _]. exact Hp.
  - destruct (join_run_inv _ _ _ H _ _ _ eq_refl eq_refl) as [Hp ->].
    do 2 f_equal. apply settle_all_perm; [apply Permutation_sym; exact Hp | exact Hd].
  - intros order Hp. eexists. apply join_run_any_order. exact Hp.
  - intros settled Hs.
    destruct (search_with_returns settled h inputData) as (t' & E' & _).
    fold searchPromises in E'. rewrite E'. simpl. do 2 f_equal.
    symmetry. apply settle_all_perm; [apply Permutation_sym, Hs | exact Hd].
Qed.

End Join.

(* ===================================================================== *)
(** ** Schemas read back what steps write *)
(* ===================================================================== *)

Section SchemaFacts.

Lemma all_items_any (l : list JSValue) : all_items z_any l = Some l.
Proof. induction l as [|v l IH]; simpl; [reflexivity | now rewrite IH]. Qed.

Lemma all_items_strings (l : list string) : all_items z_string (map VStr l) = Some l.
Proof. induction l as [|v l IH]; simpl; [reflexivity | now rewrite IH]. Qed.

Lemma all_items_enum_back (allowed : list string) (items : list JSValue) (l : list string) :
  all_items (z_enum allowed) items = Some l ->
  all_items (z_enum allowed) (map VStr l) = Some l.
Proof.
  revert l. induction items as [|v items IH]; simpl; intros l H.
  - injection H as <-. reflexivity.
  - destruct (z_enum allowed v) as [a|] eqn:Ea; [|discriminate].
    destruct (all_items (z_enum allowed) items) as [r|]; [|discriminate].
    injection H as <-. cbn [map all_items].
    assert (Hs : z_enum allowed (VStr a) = Some a).
    { unfold z_enum in *. destruct v; try discriminate.
      destruct (includes allowed s) eqn:Ei; [|discriminate].
      injection Ea as <-. rewrite Ei. reflexivity. }
    rewrite Hs, (IH r eq_refl). reflexivity.
Qed.

End SchemaFacts.

Section ResearchContracts.
Import Research.

Lemma publishChannels_back (v : JSValue) (pc : option (list string)) :
  publishChannelsSchema v = Some pc -> valid_channels pc.
Proof.
  unfold valid_channels, publishChannelsSchema, z_optional, z_array, strings.
  destruct v; simpl; intro H; try discriminate.
  - injection H as <-. reflexivity.
  - destruct (all_items (z_enum channelNames) items) as [l|] eqn:E; [|discriminate].
    simpl in H. injection H as <-. cbn [of_opt].
    rewrite (all_items_enum_back _ _ _ E). reflexivity.
Qed.

Lemma searchInputSchema_reads h o i :
  searchInputSchema h o = Some i ->
  valid_channels (si_publishChannels i)
  /\ (forall b, get "requireApproval" o = VBool b -> si_requireApproval i = b).
Proof.
  unfold searchInputSchema, obind.
  destruct (z_string (get "query" o)); [|discriminate].
  destruct (z_optional _ (get "platforms" o)); [|discriminate].
  destruct (z_default z_boolean (VBool true) (get "requireApproval" o)) as [ra|] eqn:Era;
    [|discriminate].
  destruct (publishChannelsSchema (get "publishChannels" o)) as [pc|] eqn:Epc; [|discriminate].
  intro H. injection H as <-. simpl. split.
  - eapply publishChannels_back. exact Epc.
  - intros b Hb. rewrite Hb in Era. simpl in Era. congruence.
Qed.

End ResearchContracts.

(* ===================================================================== *)
(** ** The driver, node by node *)
(* ===================================================================== *)

Section Driver.

Lemma run_step_createStep {I : Type} h cur id
    (schema : Host -> JSObject -> option I) (exec : Host -> I -> Exec JSObject) acc :
  run_step h cur (createStep id schema exec) acc None
  = match schema h acc with
    | None => ([], Invalid (ValidationError id))
    | Some i => (EvEnter cur id :: fst (exec h i), Went (outcome_of (exec h i)))
    end.
Proof.
  unfold run_step, createStep, createSuspendableStep. simpl.
  destruct (schema h acc); reflexivity.
Qed.

Lemma run_step_suspendable {I R : Type} h cur id
    (schema : Host -> JSObject -> option I) (resumeSchema : Schema R)
    (exec : Host -> I -> option R -> Exec JSObject) acc :
  run_step h cur (createSuspendableStep id schema resumeSchema exec) acc None
  = match schema h acc with
    | None => ([], Invalid (ValidationError id))
    | Some i => (EvEnter cur id :: fst (exec h i None), Went (outcome_of (exec h i None)))
    end.
Proof.
  unfold run_step, createSuspendableStep. simpl.
  destruct (schema h acc); reflexivity.
Qed.

Variable h : Host.

(** A step whose contract rejects the record fails the run where it
    stands. *)
Lemma drive_step_rejects {I : Type} id
    (schema : Host -> JSObject -> option I) exec rest cur acc hist :
  schema h acc = None ->
  drive h (NStep (createStep id schema exec) :: rest) cur acc hist
  = finished Failed cur acc None (Some (ValidationError id)) hist.
Proof.
  intro H. cbn [drive invoke]. rewrite run_step_createStep, H.
  cbn [settle_node]. rewrite app_nil_r. reflexivity.
Qed.

(** A step whose body throws fails the run. *)
Lemma drive_step_throws {I : Type} id
    (schema : Host -> JSObject -> option I) exec rest cur acc hist i t e :
  schema h acc = Some i -> exec h i = (t, Throw e) ->
  drive h (NStep (createStep id schema exec) :: rest) cur acc hist
  = finished Failed cur acc None (Some (ExecutionError id e))
      (hist ++ EvEnter cur id :: t)%list.
Proof.
  intros H E. cbn [drive invoke]. rewrite run_step_createStep, H, E.
  reflexivity.
Qed.

(** A step whose body returns, having called neither [suspend] nor
    [bail], hands its record to the next node. *)
Lemma drive_step_returns {I : Type} id
    (schema : Host -> JSObject -> option I) exec rest cur acc hist i t out :
  schema h acc = Some i -> exec h i = (t, Ok out) ->
  Forall (fun e => is_signal e = false) t ->
  drive h (NStep (createStep id schema exec) :: rest) cur acc hist
  = drive h rest (S cur) out (hist ++ EvEnter cur id :: t)%list.
Proof.
  intros H E Pt. cbn [drive invoke]. rewrite run_step_createStep, H, E.
  cbn [fst]. apply no_signal_suspend in Pt. destruct Pt as [P1 P2].
  unfold outcome_of. rewrite P1, P2. reflexivity.
Qed.

Lemma drive_step_continues {I : Type} id
    (schema : Host -> JSObject -> option I) exec rest cur acc hist i t out :
  schema h acc = Some i -> exec h i = (t, Ok out) -> Forall plain t ->
  drive h (NStep (createStep id schema exec) :: rest) cur acc hist
  = drive h rest (S cur) out (hist ++ EvEnter cur id :: t)%list.
Proof.
  intros H E Pt. cbn [drive invoke]. rewrite run_step_createStep, H, E.
  cbn [fst]. rewrite (outcome_continue _ _ Pt). reflexivity.
Qed.

Lemma drive_cons n rest cur acc hist :
  drive h (n :: rest) cur acc hist
  = settle_node cur acc hist (invoke h cur n acc)
      (fun acc' hist' => drive h rest (S cur) acc' hist').
Proof. reflexivity. Qed.

Lemma drive_map id f rest cur acc hist :
  drive h (NMap id f :: rest) cur acc hist
  = drive h rest (S cur) (f acc) (hist ++ [EvEnter cur id])%list.
Proof. reflexivity. Qed.

(** Running [p1 ++ p2] is running [p1] and, if it came to its end, going
    on with [p2]. *)
Lemma drive_app p1 p2 : forall cur acc hist,
  drive h (p1 ++ p2)%list cur acc hist = continue_with h p2 (drive h p1 cur acc hist).
Proof.
  induction p1 as [|n p1 IH]; intros cur acc hist.
  - reflexivity.
  - cbn [app drive].
    destruct (invoke h cur n acc) as [[t [[record|payload|final|e]|e]] s];
      cbn [settle_node]; try reflexivity.
    apply IH.
Qed.

(** The driver only adds to the history of a run. *)
Lemma drive_history nodes : forall cur acc hist,
  exists t, history (drive h nodes cur acc hist) = (hist ++ t)%list.
Proof.
  induction nodes as [|n nodes IH]; intros cur acc hist.
  - exists []. cbn. now rewrite app_nil_r.
  - cbn [drive].
    destruct (invoke h cur n acc) as [[t [[record|payload|final|e]|e]] s];
      cbn [settle_node history finished parked]; try (eexists; reflexivity).
    destruct (IH (S cur) record (hist ++ t)%list) as (t' & ->).
    exists (t ++ t')%list. now rewrite app_assoc.
Qed.

End Driver.

(* ===================================================================== *)
(** ** The document-research run, up to the report *)
(* ===================================================================== *)

Section ResearchPrefix.
Import Research.

Lemma plain_upto c t : Forall plain t -> Forall (upto c) t.
Proof.
  apply Forall_impl. intros e (He & _ & Hp). split; [exact Hp|].
  destruct e; simpl in *; try exact I. discriminate.
Qed.

Lemma upto_le c c' t : c <= c' -> Forall (upto c) t -> Forall (upto c') t.
Proof.
  intro Hle. apply Forall_impl. intros e [Hp Hc]. split; [exact Hp|].
  destruct e; simpl in *; try exact I. lia.
Qed.

Lemma analyze_contract_after_search h i :
  valid_channels (si_publishChannels i) ->
  exists i2,
    analyzeInputSchema h
      (count_total
         (settle_all (launched h (platforms_of i) (si_query i)) (initial_results i)))
    = Some i2
    /\ ai_query i2 = si_query i
    /\ ai_requireApproval i2 = si_requireApproval i
    /\ ai_publishChannels i2 = si_publishChannels i.
Proof.
  intro Hv. unfold valid_channels in Hv.
  unfold launched, count_total, analyzeInputSchema.
  destruct (includes (platforms_of i) "google-drive"),
           (includes (platforms_of i) "github"),
           (includes (platforms_of i) "slack");
    cbn -[found_googleDrive found_github found_slack JS.or Z.add Z.of_nat
          publishChannelsSchema all_items];
    rewrite !or_num_0;
    cbn -[found_googleDrive found_github found_slack Z.add Z.of_nat
          publishChannelsSchema all_items];
    rewrite ?all_items_any, Hv; cbn [option_map obind all_items];
    eexists; (split; [reflexivity|]); repeat split.
Qed.

Lemma analyze_exec_cases h i2 :
  (exists t e, analyzeResultsStep_execute h i2 = (t, Throw e) /\ Forall plain t)
  \/ (exists t out,
        analyzeResultsStep_execute h i2 = (t, Ok out) /\ Forall plain t
        /\ get "query" out = VStr (ai_query i2)
        /\ get "requireApproval" out = VBool (ai_requireApproval i2)
        /\ get "publishChannels" out = of_opt strings (ai_publishChannels i2)).
Proof.
  rewrite analyze_unfold.
  unfold generate_text, write, lift, emit, bind at 1 2 3.
  cbn -[extend own_props prompt_of].
  destruct (generateText h (prompt_of h i2)) as [text|e]; cbn -[extend own_props prompt_of].
  - destruct (JSON_parse h text) as [analysis|e]; cbn -[extend own_props prompt_of].
    + right. eexists. eexists. split; [reflexivity|].
      split; [repeat constructor|].
      rewrite !get_extend. repeat split.
    + right. eexists. eexists. split; [reflexivity|].
      split; [repeat constructor|]. repeat split.
  - left. eexists. eexists. split; [reflexivity|]. repeat constructor.
Qed.

Lemma reportInputSchema_reads h o i3 :
  reportInputSchema h o = Some i3 ->
  get "query" o = VStr (ri_query i3)
  /\ get "requireApproval" o = VBool (ri_requireApproval i3)
  /\ publishChannelsSchema (get "publishChannels" o) = Some (ri_publishChannels i3).
Proof.
  unfold reportInputSchema, obind.
  destruct (z_string (get "summary" o)); [|discriminate].
  destruct (z_array z_string (get "keyFindings" o)); [|discriminate].
  destruct (z_array z_string (get "recommendations" o)); [|discriminate].
  destruct (z_number (get "relevanceScore" o)); [|discriminate].
  destruct (get "query" o) as [ | | | |q| | ]; try discriminate.
  destruct (get "requireApproval" o) as [ | |ra| | | | ]; try discriminate.
  cbn [z_string z_boolean].
  destruct (publishChannelsSchema (get "publishChannels" o)) as [pc|]; [|discriminate].
  intro H. injection H as <-. repeat split.
Qed.

(** The record the report step hands on. *)
Lemma createReport_returns h i3 :
  createReportStep_execute h i3
  = ([], Ok [("reportTitle", VStr (report_title (ri_query i3)));
             ("reportContent", VStr (report_content h i3));
             ("reportFormat", VStr "markdown");
             ("requireApproval", VBool (ri_requireApproval i3));
             ("publishChannels", of_opt strings (ri_publishChannels i3))]).
Proof. reflexivity. Qed.

(** The first three nodes either fail the run, at a cursor before the
    branch, or hand the branch a report record that carries the
    [requireApproval] and [publishChannels] the search step accepted. *)
Lemma research_prefix h input :
  let r := drive h (firstn 3 documentResearchWorkflow) 0 input [] in
  Forall (upto 2) (history r)
  /\ ((status r = Failed /\ cursor r <= 2 /\ output r = None)
      \/ (exists i i3,
            searchInputSchema h input = Some i
            /\ ri_requireApproval i3 = si_requireApproval i
            /\ ri_publishChannels i3 = si_publishChannels i
            /\ status r = Succeeded /\ cursor r = 3
            /\ accumulatedData r
               = [("reportTitle", VStr (report_title (ri_query i3)));
                  ("reportContent", VStr (report_content h i3));
                  ("reportFormat", VStr "markdown");
                  ("requireApproval", VBool (ri_requireApproval i3));
                  ("publishChannels", of_opt strings (ri_publishChannels i3))])).
Proof.
  cbn [firstn documentResearchWorkflow].
  unfold searchDocumentsStep, analyzeResultsStep, createReportStep.
  destruct (searchInputSchema h input) as [i|] eqn:S1.
  2:{ rewrite (drive_step_rejects h _ _ _ _ _ _ _ S1). cbn.
      split; [constructor|]. left. repeat split; lia. }
  destruct (searchInputSchema_reads _ _ _ S1) as [Hv _].
  destruct (search_with_returns (fun ps => ps) h i) as (t1 & E1 & P1).
  rewrite (drive_step_continues h _ _ _ _ _ _ _ _ _ _ S1 E1 P1).
  destruct (analyze_contract_after_search h i Hv) as (i2 & S2 & Hq & Hra & Hpc).
  destruct (analyze_exec_cases h i2) as [(t2 & e & E2 & P2)|(t2 & out2 & E2 & P2 & Gq & Gra & Gpc)].
  { rewrite (drive_step_throws h _ _ _ _ _ _ _ _ _ _ S2 E2). cbn.
    split.
    - constructor; [split; [reflexivity | simpl; lia]|].
      apply Forall_app; split; [apply plain_upto; exact P1|].
      constructor; [split; [reflexivity | simpl; lia]|]. apply plain_upto; exact P2.
    - left. repeat split; lia. }
  rewrite (drive_step_continues h _ _ _ _ _ _ _ _ _ _ S2 E2 P2).
  assert (Hhist : Forall (upto 2)
            (([] ++ EvEnter 0 "search-documents" :: t1) ++ EvEnter 1 "analyze-results" :: t2)%list).
  { cbn. constructor; [split; [reflexivity | simpl; lia]|].
    apply Forall_app; split; [apply plain_upto; exact P1|].
    constructor; [split; [reflexivity | simpl; lia]|]. apply plain_upto; exact P2. }
  destruct (reportInputSchema h out2) as [i3|] eqn:S3.
  2:{ rewrite (drive_step_rejects h _ _ _ _ _ _ _ S3). cbn [history finished status cursor output].
      split; [exact Hhist|]. left. repeat split; lia. }
  rewrite (drive_step_continues h _ _ _ _ _ _ _ _ _ _ S3 (createReport_returns h i3) (Forall_nil _)).
  cbn [drive history finished status cursor output accumulatedData].
  split.
  - apply Forall_app; split; [exact Hhist|].
    constructor; [split; [reflexivity | simpl; lia] | constructor].
  - right. exists i, i3.
    destruct (reportInputSchema_reads _ _ _ S3) as (Rq & Rra & Rpc).
    rewrite Gra in Rra. rewrite Gpc in Rpc.
    injection Rra as Rra.
    unfold valid_channels in Hv. rewrite Hpc, Hv in Rpc. injection Rpc as Rpc.
    repeat split; congruence.
Qed.

End ResearchPrefix.

Section SearchTotal.
Import Research.

(** C4.  For every input of the search-documents step the step returns
    and continues, and [totalResults] of its output is the sum of the
    lengths of the three result lists.  Each list is what the platform's
    search gave: the one hit of the helper when the platform is selected
    and the helper's body runs through, and the empty list when the
    platform is not selected or the body throws; the failure is caught
    inside the helper and the step goes on, and so does the run: it
    enters the analysis step. *)
Theorem search_total_is_sum :
  forall (h : Host) (inputData : SearchInput),
  let query := si_query inputData in
  let platforms := platforms_of inputData in
  let searched (name message : string) (hit : JSValue) : list JSValue :=
    if includes platforms name
    then match console_log h (message ++ query) with
         | Ok _ => [hit]
         | Throw _ => []
         end
    else [] in
  let gd :=
    searched "google-drive" "Searching Google Drive for: "
      (VObj [("id", VStr "1"); ("name", VStr ("Document about " ++ query));
             ("type", VStr "document")]) in
  let gh :=
    searched "github" "Searching GitHub for: "
      (VObj [("id", VStr "1"); ("name", VStr ("Repository related to " ++ query));
             ("type", VStr "repository")]) in
  let sl :=
    searched "slack" "Searching Slack for: "
      (VObj [("id", VStr "1"); ("text", VStr ("Message about " ++ query));
             ("channel", VStr "general")]) in
  exists t out,
    searchDocumentsStep_execute h inputData = (t, Ok out)
    /\ outcome_of (searchDocumentsStep_execute h inputData) = Continue out
    /\ (forall input : JSObject,
          searchInputSchema h input = Some inputData ->
          In (EvEnter 1 "analyze-results")
            (history (start h documentResearchWorkflow input)))
    /\ get "googleDriveResults" out = VArr gd
    /\ get "githubResults" out = VArr gh
    /\ get "slackResults" out = VArr sl
    /\ get "totalResults" out
       = VNum (Z.of_nat (List.length gd + List.length gh + List.length sl))
    /\ (includes platforms "google-drive" = false -> gd = [])
    /\ (includes platforms "github" = false -> gh = [])
    /\ (includes platforms "slack" = false -> sl = [])
    /\ (forall e, console_log h ("Searching Google Drive for: " ++ query) = Throw e
                  -> gd = [])
    /\ (forall e, console_log h ("Searching GitHub for: " ++ query) = Throw e
                  -> gh = [])
    /\ (forall e, console_log h ("Searching Slack for: " ++ query) = Throw e
                  -> sl = [])
    /\ List.length gd <= 1 /\ List.length gh <= 1 /\ List.length sl <= 1.
Proof.
  intros h inputData query platforms searched gd gh sl.
  destruct (search_with_returns (fun ps => ps) h inputData) as (t & E & Pt).
  assert (Hrun : forall input : JSObject,
             searchInputSchema h input = Some inputData ->
             In (EvEnter 1 "analyze-results")
               (history (start h documentResearchWorkflow input))).
  { intros input S1. unfold start, documentResearchWorkflow, searchDocumentsStep.
    rewrite (drive_step_continues h _ _ _ _ _ _ _ _ _ _ S1 E Pt).
    destruct (searchInputSchema_reads _ _ _ S1) as [Hv _].
    destruct (analyze_contract_after_search h inputData Hv) as (i2 & S2 & _).
    unfold analyzeResultsStep. rewrite drive_cons. cbn [invoke].
    rewrite run_step_createStep, S2.
    destruct (outcome_of (analyzeResultsStep_execute h i2)) as [r|payload|final|err];
      cbn [settle_node history finished parked];
      try (apply in_or_app; right; left; reflexivity).
    match goal with |- In _ (history (drive h ?rest ?cur ?acc ?hist)) =>
      destruct (drive_history h rest cur acc hist) as (t' & ->)
    end.
    apply in_or_app. left. apply in_or_app. right. left. reflexivity. }
  unfold searchDocumentsStep_execute. rewrite E.
  exists t. eexists.
  split; [reflexivity|].
  split; [apply outcome_continue; exact Pt|].
  split; [exact Hrun|]. clear Hrun.
  subst gd gh sl searched. fold query. fold platforms.
  unfold launched, count_total, found_googleDrive, found_github, found_slack, found.
  destruct (includes platforms "google-drive") eqn:I1,
           (includes platforms "github") eqn:I2,
           (includes platforms "slack") eqn:I3;
    destruct (console_log h ("Searching Google Drive for: " ++ query)) as [u1|e1];
    destruct (console_log h ("Searching GitHub for: " ++ query)) as [u2|e2];
    destruct (console_log h ("Searching Slack for: " ++ query)) as [u3|e3];
    cbn -[String.append];
    (repeat split; try discriminate; try reflexivity; try lia;
     intros e He; discriminate He).
Qed.

End SearchTotal.

(* ===================================================================== *)
(** ** The document-research run: approval *)
(* ===================================================================== *)

Section ResearchApproval.
Import Research.

Lemma research_split :
  documentResearchWorkflow
  = (firstn 3 documentResearchWorkflow ++ skipn 3 documentResearchWorkflow)%list.
Proof. reflexivity. Qed.

Lemma upto_not_entered c k id t : c < k -> Forall (upto c) t -> ~ In (EvEnter k id) t.
Proof.
  intros Hlt Hall Hin. rewrite Forall_forall in Hall.
  destruct (Hall _ Hin) as [_ Hk]. simpl in Hk. lia.
Qed.

Lemma approval_contract h title content ra pc :
  valid_channels pc ->
  approvalInputSchema h
    [("reportTitle", VStr title); ("reportContent", VStr content);
     ("reportFormat", VStr "markdown"); ("requireApproval", VBool ra);
     ("publishChannels", of_opt strings pc)]
  = Some {| ap_reportTitle := title; ap_reportContent := content;
            ap_reportFormat := "markdown"; ap_requireApproval := ra;
            ap_publishChannels := pc |}.
Proof.
  intro Hv. unfold approvalInputSchema. cbn -[publishChannelsSchema].
  rewrite Hv. reflexivity.
Qed.

(** What the run is once the report record reaches the branch with
    [requireApproval] set: parked at the human-approval step. *)
Lemma research_parks h title content pc hist :
  valid_channels pc ->
  let acc := [("reportTitle", VStr title); ("reportContent", VStr content);
              ("reportFormat", VStr "markdown"); ("requireApproval", VBool true);
              ("publishChannels", of_opt strings pc)] in
  drive h (skipn 3 documentResearchWorkflow) 3 acc hist
  = parked 3 acc
      {| ck_stepId := "human-approval";
         ck_payload := [("reportTitle", VStr title); ("reportContent", VStr content)];
         ck_snapshot := acc |}
      (hist ++ [EvEnter 3 "human-approval";
                EvWrite [("type", VStr "approval-required"); ("status", VStr "waiting");
                         ("message", VStr "Human approval required for report publication")];
                EvSuspend [("reportTitle", VStr title); ("reportContent", VStr content)]])%list.
Proof.
  intros Hv acc.
  cbn [skipn documentResearchWorkflow drive invoke].
  unfold approvalBranch. cbn [select_branch]. 
  change (approval_required acc) with true. cbn iota.
  unfold approvalStep. rewrite run_step_suspendable.
  unfold acc. rewrite (approval_contract h title content true pc Hv).
  reflexivity.
Qed.

(** C1.  For every run of the document-research workflow whose input has
    [requireApproval = true]: when the human-approval step is entered, on
    this first entry with no resume data, it suspends the run; the
    checkpoint's payload is exactly the report title and the report
    content, and the run is Suspended, with no output, rather than in a
    terminal status. *)
Theorem approval_suspends_with_report :
  forall (h : Host) (input : JSObject),
    get "requireApproval" input = VBool true ->
    let r := start h documentResearchWorkflow input in
    In (EvEnter 3 "human-approval") (history r) ->
    status r = Suspended
    /\ output r = None
    /\ exists title content,
         suspensionCheckpoint r
         = Some {| ck_stepId := "human-approval";
                   ck_payload := [("reportTitle", VStr title);
                                  ("reportContent", VStr content)];
                   ck_snapshot := accumulatedData r |}
         /\ get "reportTitle" (accumulatedData r) = VStr title
         /\ get "reportContent" (accumulatedData r) = VStr content
         /\ In (EvSuspend [("reportTitle", VStr title); ("reportContent", VStr content)])
              (history r).
Proof.
  intros h input Hra r. subst r. unfold start.
  rewrite research_split, drive_app.
  destruct (research_prefix h input) as [Hhist Hcases].
  set (r0 := drive h (firstn 3 documentResearchWorkflow) 0 input []) in *.
  destruct Hcases as [(Hst & Hcur & _)|(i & i3 & S1 & Era & Epc & Hst & Hcur & Hacc)].
  - unfold continue_with. rewrite Hst. intro Hin. exfalso.
    eapply (upto_not_entered 2 3); [lia | exact Hhist | exact Hin].
  - intros _. unfold continue_with. rewrite Hst, Hcur, Hacc.
    destruct (searchInputSchema_reads _ _ _ S1) as [Hv Hb].
    rewrite Era, (Hb true Hra). rewrite Epc.
    rewrite (research_parks h _ _ _ _ Hv).
    cbn [status output suspensionCheckpoint accumulatedData history parked].
    split; [reflexivity|]. split; [reflexivity|].
    eexists. eexists. split; [reflexivity|]. split; [reflexivity|]. split; [reflexivity|].
    apply in_or_app. right. simpl. auto.
Qed.

End ResearchApproval.
Section Quiet.

Lemma no_suspend_called (t : Trace) :
  Forall (fun e => is_suspend e = false) t -> suspend_called t = None.
Proof.
  induction 1 as [|e t He _ IH]; [reflexivity|].
  destruct e; simpl in *; try discriminate; auto.
Qed.

Lemma outcome_not_suspend (e : Exec JSObject) :
  Forall (fun ev => is_suspend ev = false) (fst e) ->
  forall payload, outcome_of e <> Suspend payload.
Proof.
  destruct e as [t [r|err]]; simpl; intros H payload; [|discriminate].
  rewrite (no_suspend_called _ H). destruct (bail_called t); discriminate.
Qed.

Lemma run_step_quiet h cur s acc resumeData :
  quiet_step s ->
  forall payload, snd (run_step h cur s acc resumeData) <> Went (Suspend payload).
Proof.
  intros Hq payload. unfold run_step.
  destruct (step_enter s h acc resumeData) as [ | |e] eqn:E; simpl; try discriminate.
  intro K. injection K as K. revert K. apply outcome_not_suspend.
  eapply Hq. exact E.
Qed.

Lemma select_branch_in alternatives acc s :
  select_branch alternatives acc = Some s -> In s (map snd alternatives).
Proof.
  induction alternatives as [|[g t] rest IH]; simpl; [discriminate|].
  destruct (g acc); [intro H; injection H as ->; auto | auto].
Qed.

Lemma invoke_quiet h cur n acc :
  quiet_node n ->
  forall payload, snd (fst (invoke h cur n acc)) <> Went (Suspend payload).
Proof.
  intros Hq payload. destruct n as [s|alternatives|id f]; simpl in *.
  - apply run_step_quiet. exact Hq.
  - destruct (select_branch alternatives acc) as [s|] eqn:E; simpl; [|discriminate].
    pose proof (run_step_quiet h cur s acc None) as H.
    rewrite Forall_forall in Hq. specialize (H (Hq _ (select_branch_in _ _ _ E))).
    destruct (run_step h cur s acc None) as [t r]; simpl in *.
    destruct r as [[ | | | ]|]; simpl; try discriminate. apply H.
  - discriminate.
Qed.

(** A pipeline of steps that never call [suspend] never parks a run. *)
Lemma drive_never_suspended h nodes :
  Forall quiet_node nodes ->
  forall cur acc hist, status (drive h nodes cur acc hist) <> Suspended.
Proof.
  induction 1 as [|n nodes Hn _ IH]; intros cur acc hist.
  - discriminate.
  - cbn [drive].
    pose proof (invoke_quiet h cur n acc Hn) as Hi.
    destruct (invoke h cur n acc) as [[t [[record|payload|final|e]|e]] s];
      cbn [settle_node]; try discriminate.
    + apply IH.
    + exfalso. eapply Hi. reflexivity.
Qed.

End Quiet.
Section ResearchQuiet.
Import Research.

Lemma quiet_createStep {I : Type} id (schema : Host -> JSObject -> option I) exec :
  (forall h i, Forall (fun ev => is_suspend ev = false) (fst (exec h i))) ->
  quiet_step (createStep id schema exec).
Proof.
  intros H h acc resumeData e. unfold createStep, createSuspendableStep. simpl.
  destruct (schema h acc) as [i|]; [|discriminate].
  destruct resumeData; [discriminate|].
  intro K. injection K as <-. apply H.
Qed.

Ltac emits_auto :=
  repeat first
    [ apply emits_ret | apply emits_throw | apply emits_lift
    | apply emits_emit; reflexivity
    | apply emits_bind; [|intros ?]
    | apply emits_try_catch; [|intros ?]
    | apply emits_for_of; intros ? ?
    | match goal with
      | |- emits _ (if ?b then _ else _) => destruct b
      | |- emits _ (let (_, _) := ?x in _) => destruct x
      end ].

Lemma publish_never_suspends h i :
  emits (fun ev => is_suspend ev = false) (publishReportStep_execute h i).
Proof.
  unfold publishReportStep_execute, bail, publish_channel, createGoogleDoc, postToSlack,
    sendEmail, log, write.
  emits_auto.
Qed.

Lemma research_tail_quiet :
  Forall quiet_node (skipn 4 documentResearchWorkflow).
Proof.
  cbn [skipn documentResearchWorkflow].
  repeat constructor; simpl.
  - apply quiet_createStep. intros h i. unfold normalizeBranchOutputStep_execute.
    destruct (obj_or _ _); constructor.
  - apply quiet_createStep. intros h i. apply publish_never_suspends.
Qed.

End ResearchQuiet.
Section ResearchResume.
Import Research.

Lemma research_auto_never_parks h title content pc hist :
  valid_channels pc ->
  status
    (drive h (skipn 3 documentResearchWorkflow) 3
       [("reportTitle", VStr title); ("reportContent", VStr content);
        ("reportFormat", VStr "markdown"); ("requireApproval", VBool false);
        ("publishChannels", of_opt strings pc)] hist)
  <> Suspended.
Proof.
  intro Hv.
  cbn [skipn documentResearchWorkflow drive invoke].
  unfold approvalBranch. cbn [select_branch].
  match goal with |- context [approval_required ?a] =>
    change (approval_required a) with false;
    change (approval_not_required a) with true
  end. cbn iota.
  unfold autoApproveStep. rewrite run_step_createStep.
  rewrite (approval_contract h title content false pc Hv).
  cbn [fst autoApproveStep_execute ret outcome_of suspend_called bail_called keyed
       settle_node].
  apply (drive_never_suspended h _ research_tail_quiet).
Qed.

(** A run of the workflow is suspended only at the human-approval step,
    with the report record as its snapshot, before anything was
    published. *)
Lemma research_suspended_inv h input :
  status (start h documentResearchWorkflow input) = Suspended ->
  exists title content pc hist,
    valid_channels pc
    /\ Forall (upto 3) hist
    /\ start h documentResearchWorkflow input
       = parked 3
           [("reportTitle", VStr title); ("reportContent", VStr content);
            ("reportFormat", VStr "markdown"); ("requireApproval", VBool true);
            ("publishChannels", of_opt strings pc)]
           {| ck_stepId := "human-approval";
              ck_payload := [("reportTitle", VStr title); ("reportContent", VStr content)];
              ck_snapshot :=
                [("reportTitle", VStr title); ("reportContent", VStr content);
                 ("reportFormat", VStr "markdown"); ("requireApproval", VBool true);
                 ("publishChannels", of_opt strings pc)] |}
           hist.
Proof.
  unfold start. rewrite research_split, drive_app.
  destruct (research_prefix h input) as [Hhist Hcases].
  set (r0 := drive h (firstn 3 documentResearchWorkflow) 0 input []) in *.
  destruct Hcases as [(Hst & _)|(i & i3 & S1 & Era & Epc & Hst & Hcur & Hacc)].
  - unfold continue_with. rewrite Hst. congruence.
  - unfold continue_with. rewrite Hst, Hcur, Hacc.
    destruct (searchInputSchema_reads _ _ _ S1) as [Hv _].
    rewrite Epc. destruct (ri_requireApproval i3).
    + intros _. rewrite (research_parks h _ _ _ _ Hv).
      eexists. eexists. exists (si_publishChannels i). eexists.
      split; [exact Hv|]. split; [|reflexivity].
      apply Forall_app; split.
      * eapply upto_le; [|exact Hhist]. lia.
      * repeat constructor.
    + intro K. exfalso. revert K. apply research_auto_never_parks. exact Hv.
Qed.

End ResearchResume.
(** Normalising object literals and record projections. *)
Ltac js_norm :=
  cbn [object extend fold_left set fst snd String.eqb Ascii.eqb Bool.eqb
       Research.br_approved Research.br_feedback Research.br_reportTitle Research.br_reportContent Research.br_publishChannels
       Research.ap_reportTitle Research.ap_reportContent Research.ap_reportFormat Research.ap_requireApproval
       Research.ap_publishChannels
       Research.pi_approved Research.pi_reportTitle Research.pi_reportContent Research.pi_publishChannels
       Research.ni_human_approval Research.ni_auto_approve Research.obj_or].

Section ResearchBail.
Import Research.

Lemma suspended_at_approval :
  suspended_step (NBranch approvalBranch) "human-approval" = Some approvalStep.
Proof. reflexivity. Qed.

Lemma approval_resumed h title content pc (raw : JSObject) rd :
  valid_channels pc ->
  approvalResumeSchema (VObj raw) = Some rd ->
  step_enter approvalStep h
    [("reportTitle", VStr title); ("reportContent", VStr content);
     ("reportFormat", VStr "markdown"); ("requireApproval", VBool true);
     ("publishChannels", of_opt strings pc)] (Some (VObj raw))
  = Ran (approvalStep_execute h
           {| ap_reportTitle := title; ap_reportContent := content;
              ap_reportFormat := "markdown"; ap_requireApproval := true;
              ap_publishChannels := pc |} (Some rd)).
Proof.
  intros Hv Hrd. unfold approvalStep, createSuspendableStep. cbn [step_enter].
  rewrite (approval_contract h title content true pc Hv), Hrd. reflexivity.
Qed.

Lemma normalize_contract_human h approved feedback title content pc :
  valid_channels pc ->
  normalizeInputSchema h
    [("human-approval",
      VObj [("approved", VBool approved); ("feedback", of_opt VStr feedback);
            ("reportTitle", VStr title); ("reportContent", VStr content);
            ("publishChannels", of_opt strings pc)])]
  = Some {| ni_human_approval :=
              Some {| br_approved := approved; br_feedback := feedback;
                      br_reportTitle := title; br_reportContent := content;
                      br_publishChannels := pc |};
            ni_auto_approve := None |}.
Proof.
  intro Hv. unfold normalizeInputSchema, humanApprovalShape.
  cbn -[publishChannelsSchema]. rewrite Hv.
  destruct feedback; reflexivity.
Qed.

Lemma publish_contract h approved title content pc :
  valid_channels pc ->
  publishInputSchema h
    [("approved", VBool approved); ("reportTitle", VStr title);
     ("reportContent", VStr content); ("publishChannels", of_opt strings pc)]
  = Some {| pi_approved := approved; pi_reportTitle := title;
            pi_reportContent := content; pi_publishChannels := pc |}.
Proof.
  intro Hv. unfold publishInputSchema. cbn -[publishChannelsSchema]. rewrite Hv.
  reflexivity.
Qed.

(** C2.  For every run of the document-research workflow that is
    suspended at the human-approval step and then resumed with resume data
    whose [approved] is [false], the publish-report step bails: the run
    ends Bailed with the record of the bail as its output, [published]
    false and [publishedChannels] empty; no publish operation was entered
    at any point of the run, and no node after the publish-report step
    was. *)
Theorem rejected_resume_bails :
  forall (h h' : Host) (input resumeData : JSObject) (rd : ResumeData),
    status (start h documentResearchWorkflow input) = Suspended ->
    approvalResumeSchema (VObj resumeData) = Some rd ->
    rd_approved rd = false ->
    exists r' title,
      resume h' documentResearchWorkflow (start h documentResearchWorkflow input)
        (VObj resumeData) = Resumed_run r'
      /\ status r' = Bailed
      /\ output r'
         = Some [("published", VBool false);
                 ("publishedChannels", VArr []);
                 ("urls", VArr []);
                 ("reportTitle", VStr title);
                 ("message", VStr "Report was not approved for publication")]
      /\ get "reportTitle" (accumulatedData (start h documentResearchWorkflow input))
         = VStr title
      /\ cursor r' = 5
      /\ In (EvEnter 5 "publish-report") (history r')
      /\ (forall e, In e (history r') -> is_publish_call e = false)
      /\ (forall k id, In (EvEnter k id) (history r') -> k <= 5).
Proof.
  intros h h' input raw rd Hs Hrd Hrej.
  destruct (research_suspended_inv h input Hs) as (title & content & pc & hist & Hv & Hhist & E).
  rewrite E. unfold resume.
  cbn [status cursor suspensionCheckpoint parked ck_stepId ck_snapshot history].
  cbn [skipn documentResearchWorkflow]. rewrite suspended_at_approval.
  unfold run_step.
  rewrite (approval_resumed h' title content pc raw rd Hv Hrd).
  cbn [is_branch].
  unfold approvalStep_execute. rewrite Hrej.
  cbn [fst snd bind write emit ret app outcome_of suspend_called bail_called keyed
       settle_node object extend fold_left set String.eqb Ascii.eqb Bool.eqb].
  unfold normalizeBranchOutputStep.
  erewrite drive_step_continues;
    [ | apply normalize_contract_human; exact Hv | reflexivity | constructor ].
  unfold publishReportStep.
  cbn [drive invoke]. rewrite run_step_createStep.
  unfold normalizeBranchOutputStep_execute. js_norm. cbn [ret snd].
  rewrite (publish_contract h' false title _ pc Hv).
  cbn [publishReportStep_execute pi_approved negb bail bind emit ret fst snd app
       outcome_of suspend_called bail_called settle_node finished].
  eexists. exists title.
  split; [reflexivity|].
  cbn [status output cursor history].
  split; [reflexivity|]. split; [reflexivity|]. split; [reflexivity|].
  split; [reflexivity|].
  assert (Hall : Forall (upto 5)
            (((hist ++
               EvEnter 3 "human-approval"
               :: [EvWrite (object [("type", VStr "approval-received");
                                    ("status", VStr "rejected");
                                    ("feedback", of_opt VStr (rd_feedback rd))])]) ++
              [EvEnter 4 "normalize-branch-output"]) ++
             EvEnter 5 "publish-report"
             :: [EvBail [("published", VBool false); ("publishedChannels", VArr []);
                         ("urls", VArr []); ("reportTitle", VStr title);
                         ("message", VStr "Report was not approved for publication")]])%list).
  { repeat (apply Forall_app; split);
      [eapply upto_le; [|exact Hhist]; lia | | | ];
      repeat constructor; simpl; lia. }
  split.
  - apply in_or_app. right. left. reflexivity.
  - rewrite Forall_forall in Hall. split.
    + intros e He. exact (proj1 (Hall e He)).
    + intros k id He. exact (proj2 (Hall _ He)).
Qed.

End ResearchBail.

(* ===================================================================== *)
(** ** The document-research run: publishing *)
(* ===================================================================== *)

Section ResearchPublish.
Import Research.

Lemma analyze_returns_usable h i2 text :
  generateText h (prompt_of h i2) = Ok text ->
  usable_text h text ->
  valid_channels (ai_publishChannels i2) ->
  exists t out i3,
    analyzeResultsStep_execute h i2 = (t, Ok out) /\ Forall plain t
    /\ reportInputSchema h out = Some i3
    /\ ri_query i3 = ai_query i2
    /\ ri_requireApproval i3 = ai_requireApproval i2
    /\ ri_publishChannels i3 = ai_publishChannels i2.
Proof.
  intros Htext Huse Hv. unfold usable_text in Huse. unfold valid_channels in Hv.
  rewrite analyze_unfold.
  unfold generate_text, write, lift, emit, bind at 1 2 3.
  cbn -[extend own_props prompt_of]. rewrite Htext. cbn -[extend own_props prompt_of].
  destruct (JSON_parse h text) as [analysis|e]; cbn -[extend own_props prompt_of].
  - destruct Huse as (summary & kf & recs & score & Hs & Hk & Hr & Hn).
    eexists. eexists.
    exists {| ri_summary := summary; ri_keyFindings := kf; ri_recommendations := recs;
              ri_relevanceScore := score; ri_query := ai_query i2;
              ri_requireApproval := ai_requireApproval i2;
              ri_publishChannels := ai_publishChannels i2 |}.
    split; [reflexivity|]. split; [repeat constructor|].
    split; [|repeat split].
    unfold reportInputSchema. rewrite !get_extend.
    cbn [get_last String.eqb Ascii.eqb Bool.eqb]. rewrite Hs, Hk, Hr, Hn, Hv.
    unfold strings, z_array. rewrite !all_items_strings. reflexivity.
  - eexists. eexists.
    exists {| ri_summary := text; ri_keyFindings := ["Analysis completed"];
              ri_recommendations := ["Review the findings"];
              ri_relevanceScore := 75; ri_query := ai_query i2;
              ri_requireApproval := ai_requireApproval i2;
              ri_publishChannels := ai_publishChannels i2 |}.
    split; [reflexivity|]. split; [repeat constructor|].
    split; [|repeat split].
    unfold reportInputSchema, fallback_analysis. cbn -[publishChannelsSchema].
    rewrite Hv. reflexivity.
Qed.

(** With a usable completion the first three nodes hand the branch the
    report record. *)
Lemma research_prefix_succeeds h input i text :
  searchInputSchema h input = Some i ->
  (forall prompt, generateText h prompt = Ok text) ->
  usable_text h text ->
  exists i3 hist,
    ri_query i3 = si_query i
    /\ ri_requireApproval i3 = si_requireApproval i
    /\ ri_publishChannels i3 = si_publishChannels i
    /\ drive h (firstn 3 documentResearchWorkflow) 0 input []
       = drive h [] 3
           [("reportTitle", VStr (report_title (ri_query i3)));
            ("reportContent", VStr (report_content h i3));
            ("reportFormat", VStr "markdown");
            ("requireApproval", VBool (ri_requireApproval i3));
            ("publishChannels", of_opt strings (ri_publishChannels i3))]
           hist.
Proof.
  intros S1 Htext Huse.
  cbn [firstn documentResearchWorkflow].
  unfold searchDocumentsStep, analyzeResultsStep, createReportStep.
  destruct (searchInputSchema_reads _ _ _ S1) as [Hv _].
  destruct (search_with_returns (fun ps => ps) h i) as (t1 & E1 & P1).
  rewrite (drive_step_continues h _ _ _ _ _ _ _ _ _ _ S1 E1 P1).
  destruct (analyze_contract_after_search h i Hv) as (i2 & S2 & Hq & Hra & Hpc).
  rewrite <- Hpc in Hv.
  destruct (analyze_returns_usable h i2 text (Htext _) Huse Hv)
    as (t2 & out2 & i3 & E2 & P2 & S3 & Rq & Rra & Rpc).
  rewrite (drive_step_continues h _ _ _ _ _ _ _ _ _ _ S2 E2 P2).
  rewrite (drive_step_continues h _ _ _ _ _ _ _ _ _ _ S3 (createReport_returns h i3) (Forall_nil _)).
  exists i3. eexists. split; [congruence|]. split; [congruence|]. split; [congruence|].
  reflexivity.
Qed.

End ResearchPublish.
Section ResearchAutoApprove.
Import Research.

Lemma publish_default_channel h title content :
  console_log h ("Creating Google Doc: " ++ title) = Ok tt ->
  publishReportStep_execute h
    {| pi_approved := true; pi_reportTitle := title; pi_reportContent := content;
       pi_publishChannels := None |}
  = ([EvWrite [("type", VStr "publishing"); ("channel", VStr "google-drive");
               ("status", VStr "in-progress")];
      EvCall "createGoogleDoc" [VStr title; VStr content];
      EvLog ("Creating Google Doc: " ++ title);
      EvWrite [("type", VStr "publishing"); ("channel", VStr "google-drive");
               ("status", VStr "complete")]],
     Ok [("published", VBool true);
         ("publishedChannels", VArr [VStr "google-drive"]);
         ("urls", VArr [VStr ("https://docs.google.com/document/d/example-"
                              ++ Z_to_string (Date_now h))]);
         ("reportTitle", VStr title);
         ("message", VStr "Report published to google-drive")]).
Proof.
  intro Hlog.
  unfold publishReportStep_execute, publish_channel, createGoogleDoc, log, write, lift.
  cbn -[String.append Z_to_string]. rewrite Hlog. reflexivity.
Qed.

Lemma normalize_contract_auto h approved title content pc :
  valid_channels pc ->
  normalizeInputSchema h
    [("auto-approve",
      VObj [("approved", VBool approved);
            ("reportTitle", VStr title); ("reportContent", VStr content);
            ("publishChannels", of_opt strings pc)])]
  = Some {| ni_human_approval := None;
            ni_auto_approve :=
              Some {| br_approved := approved; br_feedback := None;
                      br_reportTitle := title; br_reportContent := content;
                      br_publishChannels := pc |} |}.
Proof.
  intro Hv. unfold normalizeInputSchema, autoApproveShape.
  cbn -[publishChannelsSchema]. rewrite Hv. reflexivity.
Qed.

(** Without required approval and with no channel named, the run goes
    through the auto-approve step and publishes to the default channel. *)
Lemma research_auto_publishes_default h title content hist :
  console_log h ("Creating Google Doc: " ++ title) = Ok tt ->
  exists hist',
    drive h (skipn 3 documentResearchWorkflow) 3
      [("reportTitle", VStr title); ("reportContent", VStr content);
       ("reportFormat", VStr "markdown"); ("requireApproval", VBool false);
       ("publishChannels", of_opt strings None)] hist
    = drive h [] 7
        [("success", VBool true);
         ("reportTitle", VStr title);
         ("publishedChannels", VArr [VStr "google-drive"]);
         ("message", VStr "Report published to google-drive")]
        (hist ++ EvEnter 3 "auto-approve" :: hist')%list
    /\ In (EvCall "createGoogleDoc" [VStr title; VStr content]) hist'.
Proof.
  intro Hlog.
  assert (Hv : valid_channels None) by reflexivity.
  cbn [skipn documentResearchWorkflow].
  rewrite drive_cons. cbn [invoke].
  unfold approvalBranch. cbn [select_branch].
  match goal with |- context [approval_required ?a] =>
    change (approval_required a) with false;
    change (approval_not_required a) with true
  end. cbn iota.
  unfold autoApproveStep. rewrite run_step_createStep.
  rewrite (approval_contract h title content false None Hv).
  cbn [fst autoApproveStep_execute ret outcome_of suspend_called bail_called keyed
       settle_node].
  js_norm.
  unfold normalizeBranchOutputStep.
  erewrite drive_step_continues;
    [ | apply (normalize_contract_auto h true title content None Hv)
      | reflexivity | constructor ].
  unfold normalizeBranchOutputStep_execute. js_norm. cbn [ret snd].
  unfold publishReportStep.
  erewrite drive_step_returns;
    [ | apply (publish_contract h true title content None Hv)
      | apply (publish_default_channel h title content Hlog)
      | repeat constructor ].
  rewrite drive_map. unfold final_output. cbn [get String.eqb Ascii.eqb Bool.eqb]. js_norm.
  eexists. split.
  - rewrite <- !app_assoc. cbn [app]. reflexivity.
  - simpl. auto 10.
Qed.

(** The run of the scenario, for a host whose completion call returns a
    usable text and whose document creation succeeds. *)
Lemma scenario_run h text :
  (forall prompt, generateText h prompt = Ok text) ->
  usable_text h text ->
  console_log h "Creating Google Doc: Research Report: X" = Ok tt ->
  exists content hist hist',
    start h documentResearchWorkflow scenario_input
    = drive h [] 7
        [("success", VBool true);
         ("reportTitle", VStr "Research Report: X");
         ("publishedChannels", VArr [VStr "google-drive"]);
         ("message", VStr "Report published to google-drive")]
        (hist ++ EvEnter 3 "auto-approve" :: hist')%list
    /\ In (EvCall "createGoogleDoc" [VStr "Research Report: X"; VStr content]) hist'.
Proof.
  intros Htext Huse Hlog. unfold start.
  rewrite research_split, drive_app.
  destruct (research_prefix_succeeds h scenario_input _ text eq_refl Htext Huse)
    as (i3 & hist & Rq & Rra & Rpc & E).
  rewrite E. cbn in Rq, Rra, Rpc. rewrite Rq, Rra, Rpc.
  unfold continue_with. cbn [drive status finished cursor accumulatedData history].
  destruct (research_auto_publishes_default h "Research Report: X"
              (report_content h i3) hist Hlog) as (hist' & E' & Hin).
  unfold report_title. cbn [String.append].
  exists (report_content h i3), hist, hist'. split; [exact E' | exact Hin].
Qed.

End ResearchAutoApprove.

(* ===================================================================== *)
(** ** The project-onboarding steps *)
(* ===================================================================== *)

Section ObjectExtension.

(** Defining properties that are new to an object, and distinct, appends
    them in the order given. *)
Lemma extend_fresh (props : list (string * JSValue)) : forall base : JSObject,
  NoDup (map fst props) ->
  (forall k, In k (map fst props) -> has k base = false) ->
  extend base props = (base ++ props)%list.
Proof.
  unfold extend.
  induction props as [|[k v] props IH]; intros base Hnd Hfresh; simpl.
  - now rewrite app_nil_r.
  - inversion Hnd as [|? ? Hnotin Hnd']; subst.
    rewrite (set_fresh k v base) by (apply Hfresh; left; reflexivity).
    rewrite IH.
    + rewrite <- app_assoc. reflexivity.
    + exact Hnd'.
    + intros k' Hin. rewrite has_app. rewrite (Hfresh k') by (right; exact Hin).
      simpl. destruct (String.eqb k' k) eqn:E; [|reflexivity].
      apply String.eqb_eq in E. subst. contradiction.
Qed.

(** What an object holds stays readable, unchanged, after properties are
    appended. *)
Lemma get_app_kept (k : string) (o extra : JSObject) :
  has k o = true -> get k (o ++ extra)%list = get k o.
Proof. intro H. rewrite get_app, H. reflexivity. Qed.

End ObjectExtension.

Section SchemaBack.

Lemma z_string_min_back n v s : z_string_min n v = Some s -> z_string_min n (VStr s) = Some s.
Proof.
  unfold z_string_min. destruct v; try discriminate.
  destruct (Nat.leb n (str_length s0)) eqn:E; [|discriminate].
  intro H. injection H as <-. rewrite E. reflexivity.
Qed.

Lemma all_items_email_back h items l :
  all_items (z_email h) items = Some l -> all_items (z_email h) (map VStr l) = Some l.
Proof.
  revert l. induction items as [|v items IH]; simpl; intros l H.
  - injection H as <-. reflexivity.
  - destruct (z_email h v) as [a|] eqn:Ea; [|discriminate].
    destruct (all_items (z_email h) items) as [r|]; [|discriminate].
    injection H as <-. cbn [map all_items].
    assert (Hs : z_email h (VStr a) = Some a).
    { unfold z_email in *. destruct v; try discriminate.
      destruct (is_email h s) eqn:Ei; [|discriminate].
      injection Ea as <-. rewrite Ei. reflexivity. }
    rewrite Hs, (IH r eq_refl). reflexivity.
Qed.

Lemma z_emails_back h n v l :
  z_array_min (z_email h) n v = Some l ->
  z_array_min (z_email h) n (strings l) = Some l.
Proof.
  unfold z_array_min, z_array, strings. destruct v; try discriminate.
  destruct (all_items (z_email h) items) as [r|] eqn:E; [|discriminate].
  destruct (Nat.leb n (List.length r)) eqn:El; [|discriminate].
  intro H. injection H as <-. rewrite (all_items_email_back _ _ _ E), El. reflexivity.
Qed.

Lemma z_enum_default_back allowed d v s :
  z_default (z_enum allowed) d v = Some s ->
  z_default (z_enum allowed) d (VStr s) = Some s.
Proof.
  assert (K : forall w, z_enum allowed w = Some s -> z_enum allowed (VStr s) = Some s).
  { unfold z_enum. intros w. destruct w; try discriminate.
    destruct (includes allowed s0) eqn:E; [|discriminate].
    intro H. injection H as <-. rewrite E. reflexivity. }
  unfold z_default. destruct v; intro H; cbn; eapply K; exact H.
Qed.

End SchemaBack.

Section OnboardSchemas.
Import Onboard.

Lemma has_project_fields k p :
  has k (project_fields p)
  = (includes ["projectName"; "description"; "teamMembers"; "techStack";
               "priority"; "platforms"] k
     || (String.eqb k "deadline"
         && match deadline p with Some _ => true | None => false end))%bool.
Proof.
  unfold project_fields. destruct (deadline p); cbn [app has includes existsb];
    repeat match goal with |- context [String.eqb ?a ?b] =>
      destruct (String.eqb a b); cbn [orb andb]; try reflexivity end.
Qed.

Lemma platforms_back (pl : Platforms) :
  z_default platformsShape (VObj []) (VObj (platforms_fields pl)) = Some pl.
Proof. destruct pl. reflexivity. Qed.

(** A project the input schema has accepted is accepted again when a
    later step reads it back from the record. *)
Lemma project_accepted_valid h o p :
  projectInputSchema h o = Some p -> valid_project h p.
Proof.
  unfold valid_project, projectInputSchema, obind.
  destruct (z_string_min 1 (get "projectName" o)) as [name|] eqn:E1; [|discriminate].
  destruct (z_string_min 10 (get "description" o)) as [descr|] eqn:E2; [|discriminate].
  destruct (z_array_min (z_email h) 1 (get "teamMembers" o)) as [team|] eqn:E3; [|discriminate].
  destruct (z_default (z_array z_string) (VArr []) (get "techStack" o)) as [tech|] eqn:E4;
    [|discriminate].
  destruct (z_optional z_string (get "deadline" o)) as [dl|] eqn:E5; [|discriminate].
  destruct (z_default (z_enum ["low"; "medium"; "high"]) (VStr "medium") (get "priority" o))
    as [prio|] eqn:E6; [|discriminate].
  destruct (z_default platformsShape (VObj []) (get "platforms" o)) as [pl|] eqn:E7;
    [|discriminate].
  intro H. injection H as <-.
  apply z_string_min_back in E1, E2. apply z_emails_back in E3.
  apply z_enum_default_back in E6.
  unfold project_fields. cbn [projectName description teamMembers techStack deadline
                              priority platforms].
  destruct dl as [d|]; cbn [app get String.eqb Ascii.eqb Bool.eqb];
    rewrite E1, E2, E3, E6, platforms_back;
    unfold strings, z_default, z_array; rewrite all_items_strings; reflexivity.
Qed.

End OnboardSchemas.
Section OnboardReadBack.
Import Onboard.

Lemma project_read_back h p extra :
  valid_project h p -> get "deadline" extra = VUndefined ->
  projectInputSchema h (project_fields p ++ extra)%list = Some p.
Proof.
  intros Hv Hd. unfold valid_project in Hv.
  transitivity (projectInputSchema h (project_fields p)); [|exact Hv].
  assert (K : forall k,
             In k ["projectName"; "description"; "teamMembers"; "techStack"; "deadline";
                   "priority"; "platforms"] ->
             get k (project_fields p ++ extra)%list = get k (project_fields p)).
  { intros k Hk. rewrite get_app, has_project_fields.
    simpl in Hk.
    destruct Hk as [<-|[<-|[<-|[<-|[<-|[<-|[<-|[]]]]]]]]; try reflexivity.
    unfold project_fields. destruct (deadline p); [reflexivity|]. exact Hd. }
  unfold projectInputSchema.
  rewrite !K by (simpl; tauto). reflexivity.
Qed.

Lemma step1_read_back h i extra :
  valid_project h (s1_project i) -> get "deadline" extra = VUndefined ->
  step1OutputSchema h (step1_fields i ++ extra)%list = Some i.
Proof.
  intros Hv Hd. unfold step1OutputSchema, step1_fields.
  rewrite <- app_assoc.
  rewrite (project_read_back h _ _ Hv) by exact Hd.
  rewrite !get_app, !has_project_fields. destruct i. reflexivity.
Qed.

Lemma step2_read_back h i extra :
  valid_project h (s1_project (s2_step1 i)) -> get "deadline" extra = VUndefined ->
  step2OutputSchema h (step2_fields i ++ extra)%list = Some i.
Proof.
  intros Hv Hd. unfold step2OutputSchema, step2_fields.
  rewrite <- app_assoc.
  rewrite (step1_read_back h _ _ Hv) by exact Hd.
  unfold step1_fields. rewrite <- !app_assoc.
  rewrite !get_app, !has_project_fields. destruct i. reflexivity.
Qed.

Lemma step3_read_back h i extra :
  valid_project h (s1_project (s2_step1 (s3_step2 i))) ->
  get "deadline" extra = VUndefined ->
  step3OutputSchema h (step3_fields i ++ extra)%list = Some i.
Proof.
  intros Hv Hd. unfold step3OutputSchema, step3_fields.
  rewrite <- app_assoc.
  rewrite (step2_read_back h _ _ Hv) by exact Hd.
  unfold step2_fields, step1_fields. rewrite <- !app_assoc.
  rewrite !get_app, !has_project_fields. destruct i. reflexivity.
Qed.

Lemma step4_read_back h i extra :
  valid_project h (s1_project (s2_step1 (s3_step2 (s4_step3 i)))) ->
  get "deadline" extra = VUndefined ->
  step4OutputSchema h (step4_fields i ++ extra)%list = Some i.
Proof.
  intros Hv Hd. unfold step4OutputSchema, step4_fields.
  rewrite <- app_assoc.
  rewrite (step3_read_back h _ _ Hv) by exact Hd.
  unfold step3_fields, step2_fields, step1_fields. rewrite <- !app_assoc.
  rewrite !get_app, !has_project_fields. destruct i. reflexivity.
Qed.

End OnboardReadBack.
Import Onboard.

Ltac fresh_extension :=
  apply extend_fresh;
  [ repeat constructor; simpl; intuition discriminate
  | let k := fresh "k" in
    let Hk := fresh "Hk" in
    intros k Hk; simpl in Hk;
    unfold Onboard.step4_fields, Onboard.step3_fields, Onboard.step2_fields,
      Onboard.step1_fields;
    rewrite ?has_app, has_project_fields;
    repeat (destruct Hk as [Hk|Hk]; [subst k; reflexivity|]); contradiction ].

Section AcceptedRecords.

Lemma get_fill (k k' : string) (d : JSValue) (o : JSObject) :
  get k (fill k' d o)
  = if String.eqb k k'
    then match get k' o with VUndefined => d | v => v end
    else get k o.
Proof.
  unfold fill. destruct (String.eqb_spec k k') as [->|N].
  - destruct (get k' o) eqn:E; try (rewrite E; reflexivity).
    rewrite get_set, String.eqb_refl. reflexivity.
  - destruct (get k' o); try reflexivity.
    rewrite get_set. apply String.eqb_neq in N. rewrite N. reflexivity.
Qed.

Lemma has_fill (k k' : string) (d : JSValue) (o : JSObject) :
  has k o = true -> has k (fill k' d o) = true.
Proof.
  unfold fill. intro H. destruct (get k' o); try exact H.
  rewrite has_set, H. apply orb_true_r.
Qed.

Lemma get_last_other (k : string) (props : list (string * JSValue)) : forall d : JSValue,
  ~ In k (map fst props) -> get_last k props d = d.
Proof.
  induction props as [|[k' v] props IH]; intros d H; cbn [get_last]; [reflexivity|].
  rewrite IH by (intro Hin; apply H; right; exact Hin).
  destruct (String.eqb_spec k k') as [->|_]; [|reflexivity].
  exfalso. apply H. left. reflexivity.
Qed.

Lemma has_extend (k : string) (props : list (string * JSValue)) : forall base : JSObject,
  has k base = true -> has k (extend base props) = true.
Proof.
  unfold extend. induction props as [|[k' v] props IH]; intros base H; cbn [fold_left].
  - exact H.
  - apply IH. cbn [fst snd]. rewrite has_set, H. apply orb_true_r.
Qed.

Lemma kept_refl (o : JSObject) : kept [] o o.
Proof. intro k. split; [tauto | reflexivity]. Qed.

Lemma kept_trans (but but' : list string) (o o' o'' : JSObject) :
  kept but o o' -> kept but' o' o'' -> kept (but ++ but') o o''.
Proof.
  intros H H' k. destruct (H k) as [H1 H2], (H' k) as [H1' H2']. split.
  - intro Hk. apply H1', H1, Hk.
  - intro N. rewrite H2', H2; [reflexivity| |]; intro Hin; apply N, in_or_app; auto.
Qed.

Lemma kept_weaken (but but' : list string) (o o' : JSObject) :
  incl but but' -> kept but o o' -> kept but' o o'.
Proof.
  intros Hi H k. destruct (H k) as [H1 H2]. split; [exact H1|].
  intro N. apply H2. intro Hin. apply N, Hi, Hin.
Qed.

(** Spreading a record and defining properties over it keeps every field
    of the record, with its value unless a property of that name is
    defined. *)
Lemma kept_extend (props : list (string * JSValue)) (base : JSObject) :
  kept (map fst props) base (extend base props).
Proof.
  intro k. split.
  - apply has_extend.
  - intro N. rewrite get_extend. apply get_last_other. exact N.
Qed.

Lemma accepted_reads {I : Type} (reads : Host -> JSObject -> option I)
    (fills : JSObject -> JSObject) (h : Host) (record : JSObject) (i : I) :
  reads h record = Some i -> accepted reads fills h record = Some (i, fills record).
Proof. unfold accepted. intros ->. reflexivity. Qed.

End AcceptedRecords.

Section OnboardAccepted.

Lemma get_project_defaults (k : string) (o : JSObject) :
  get k (project_defaults o)
  = if String.eqb k "platforms" then platforms_defaults (get "platforms" o)
    else if String.eqb k "priority"
         then match get "priority" o with VUndefined => VStr "medium" | v => v end
    else if String.eqb k "techStack"
         then match get "techStack" o with VUndefined => VArr [] | v => v end
    else get k o.
Proof.
  unfold project_defaults. rewrite get_set, !get_fill.
  cbn [String.eqb Ascii.eqb Bool.eqb]. reflexivity.
Qed.

(** Filling the defaults in keeps every field of the record; the value of
    a field changes only where a default applies. *)
Lemma kept_project_defaults (o : JSObject) :
  kept ["techStack"; "priority"; "platforms"] o (project_defaults o).
Proof.
  intro k. split.
  - intro H. unfold project_defaults. rewrite has_set.
    rewrite (has_fill k "priority"); [apply orb_true_r|].
    apply has_fill. exact H.
  - intro N. rewrite get_project_defaults.
    destruct (String.eqb_spec k "platforms") as [->|_]; [exfalso; apply N; simpl; tauto|].
    destruct (String.eqb_spec k "priority") as [->|_]; [exfalso; apply N; simpl; tauto|].
    destruct (String.eqb_spec k "techStack") as [->|_]; [exfalso; apply N; simpl; tauto|].
    reflexivity.
Qed.

Lemma platforms_defaults_reads (v : JSValue) :
  z_default platformsShape (VObj []) (platforms_defaults v)
  = z_default platformsShape (VObj []) v.
Proof.
  destruct v as [ | | | | | |fields]; try reflexivity.
  unfold platforms_defaults, z_default, platformsShape, z_object.
  rewrite !get_fill. cbn [String.eqb Ascii.eqb Bool.eqb].
  destruct (get "github" fields), (get "slack" fields), (get "googleDrive" fields);
    reflexivity.
Qed.

(** The contract reads the accepted record as it read the record given. *)
Lemma project_defaults_reads (h : Host) (o : JSObject) :
  projectInputSchema h (project_defaults o) = projectInputSchema h o.
Proof.
  unfold projectInputSchema. rewrite !get_project_defaults.
  cbn [String.eqb Ascii.eqb Bool.eqb].
  rewrite platforms_defaults_reads.
  destruct (get "techStack" o), (get "priority" o); reflexivity.
Qed.

Lemma step1_defaults_reads (h : Host) (o : JSObject) :
  step1OutputSchema h (project_defaults o) = step1OutputSchema h o.
Proof.
  unfold step1OutputSchema. rewrite project_defaults_reads, !get_project_defaults.
  reflexivity.
Qed.

Lemma step2_defaults_reads (h : Host) (o : JSObject) :
  step2OutputSchema h (project_defaults o) = step2OutputSchema h o.
Proof.
  unfold step2OutputSchema. rewrite step1_defaults_reads, !get_project_defaults.
  reflexivity.
Qed.

Lemma step3_defaults_reads (h : Host) (o : JSObject) :
  step3OutputSchema h (project_defaults o) = step3OutputSchema h o.
Proof.
  unfold step3OutputSchema. rewrite step2_defaults_reads, !get_project_defaults.
  reflexivity.
Qed.

(** A contract reads its declared fields and nothing else. *)
Lemma project_schema_agrees (h : Host) (o o' : JSObject) :
  (forall k, In k ["projectName"; "description"; "teamMembers"; "techStack"; "deadline";
                   "priority"; "platforms"] -> get k o' = get k o) ->
  projectInputSchema h o' = projectInputSchema h o.
Proof.
  intro H. unfold projectInputSchema. rewrite !H by (simpl; tauto). reflexivity.
Qed.

Lemma step1_schema_agrees (h : Host) (o o' : JSObject) :
  (forall k, In k ["projectName"; "description"; "teamMembers"; "techStack"; "deadline";
                   "priority"; "platforms"; "projectId"; "createdAt"; "slug"] ->
             get k o' = get k o) ->
  step1OutputSchema h o' = step1OutputSchema h o.
Proof.
  intro H. unfold step1OutputSchema.
  rewrite (project_schema_agrees h o o') by (intros k Hk; apply H; simpl in *; tauto).
  rewrite !H by (simpl; tauto). reflexivity.
Qed.

Lemma step2_schema_agrees (h : Host) (o o' : JSObject) :
  (forall k, In k ["projectName"; "description"; "teamMembers"; "techStack"; "deadline";
                   "priority"; "platforms"; "projectId"; "createdAt"; "slug";
                   "repositoryUrl"; "repositoryName"; "githubSuccess"] ->
             get k o' = get k o) ->
  step2OutputSchema h o' = step2OutputSchema h o.
Proof.
  intro H. unfold step2OutputSchema.
  rewrite (step1_schema_agrees h o o') by (intros k Hk; apply H; simpl in *; tauto).
  rewrite !H by (simpl; tauto). reflexivity.
Qed.

Lemma step3_schema_agrees (h : Host) (o o' : JSObject) :
  (forall k, In k ["projectName"; "description"; "teamMembers"; "techStack"; "deadline";
                   "priority"; "platforms"; "projectId"; "createdAt"; "slug";
                   "repositoryUrl"; "repositoryName"; "githubSuccess";
                   "driveFolderUrl"; "driveFolderId"; "driveSuccess"] ->
             get k o' = get k o) ->
  step3OutputSchema h o' = step3OutputSchema h o.
Proof.
  intro H. unfold step3OutputSchema.
  rewrite (step2_schema_agrees h o o') by (intros k Hk; apply H; simpl in *; tauto).
  rewrite !H by (simpl; tauto). reflexivity.
Qed.

End OnboardAccepted.

Ltac other_key :=
  let k := fresh "k" in
  let Hk := fresh "Hk" in
  intros k Hk; rewrite get_extend; simpl in Hk;
  repeat (destruct Hk as [Hk|Hk]; [subst k; reflexivity|]); contradiction.

Section OnboardSteps.

Lemma extend_project p a b c :
  extend (project_fields p) [("projectId", a); ("slug", b); ("createdAt", c)]
  = (project_fields p ++ [("projectId", a); ("slug", b); ("createdAt", c)])%list.
Proof. fresh_extension. Qed.

Lemma extend_step1 i a b c :
  extend (step1_fields i)
    [("repositoryUrl", a); ("repositoryName", b); ("githubSuccess", c)]
  = (step1_fields i
     ++ [("repositoryUrl", a); ("repositoryName", b); ("githubSuccess", c)])%list.
Proof. fresh_extension. Qed.

Lemma extend_step2 i a b c :
  extend (step2_fields i)
    [("driveFolderUrl", a); ("driveFolderId", b); ("driveSuccess", c)]
  = (step2_fields i
     ++ [("driveFolderUrl", a); ("driveFolderId", b); ("driveSuccess", c)])%list.
Proof. fresh_extension. Qed.

Lemma extend_step3 i a b c :
  extend (step3_fields i)
    [("channelName", a); ("channelId", b); ("slackSuccess", c)]
  = (step3_fields i
     ++ [("channelName", a); ("channelId", b); ("slackSuccess", c)])%list.
Proof. fresh_extension. Qed.

(** The record the GitHub step hands on, case by case, whatever record it
    was given. *)
Lemma github_body_cases h agent record i :
  getAgent h "projectAssistantAgent" = Some agent ->
  let degraded :=
    extend record
      [("repositoryUrl", VStr ""); ("repositoryName", VStr "");
       ("githubSuccess", VBool false)] in
  let call :=
    EvCall "agent.generate"
      [VStr (github_prompt i); VStr ("system-" ++ projectId i);
       VStr ("github-setup-" ++ projectId i)] in
  createGitHubRepository_body h record i
  = if negb (github (platforms (s1_project i))) then ([], Ok degraded)
    else match generate agent (github_prompt i) ("system-" ++ projectId i)
                 ("github-setup-" ++ projectId i) with
         | Ok _ =>
             ([call],
              Ok (extend record
                    [("repositoryUrl", VStr ("https://github.com/user/" ++ slug i));
                     ("repositoryName", VStr (slug i));
                     ("githubSuccess", VBool true)]))
         | Throw _ =>
             ([call; EvError "Failed to create GitHub repository:"], Ok degraded)
         end.
Proof.
  intros Hag degraded call. unfold createGitHubRepository_body. rewrite Hag.
  destruct (negb (github (platforms (s1_project i)))); [reflexivity|].
  unfold agent_generate, log_error, lift, emit. cbn [bind].
  destruct (generate agent _ _ _); reflexivity.
Qed.

Lemma drive_body_cases h agent record i :
  getAgent h "projectAssistantAgent" = Some agent ->
  let step1 := s2_step1 i in
  let degraded :=
    extend record
      [("driveFolderUrl", VStr ""); ("driveFolderId", VStr "");
       ("driveSuccess", VBool false)] in
  let call :=
    EvCall "agent.generate"
      [VStr (drive_prompt i); VStr ("system-" ++ projectId step1);
       VStr ("drive-setup-" ++ projectId step1)] in
  createGoogleDriveFolder_body h record i
  = if negb (googleDrive (platforms (s1_project step1))) then ([], Ok degraded)
    else match generate agent (drive_prompt i) ("system-" ++ projectId step1)
                 ("drive-setup-" ++ projectId step1) with
         | Ok _ =>
             ([call],
              Ok (extend record
                    [("driveFolderUrl",
                      VStr "https://drive.google.com/drive/folders/example_folder_id");
                     ("driveFolderId", VStr "example_folder_id");
                     ("driveSuccess", VBool true)]))
         | Throw _ =>
             ([call; EvError "Failed to create Google Drive folder:"], Ok degraded)
         end.
Proof.
  intros Hag step1 degraded call. unfold createGoogleDriveFolder_body. rewrite Hag.
  fold step1.
  destruct (negb (googleDrive (platforms (s1_project step1)))); [reflexivity|].
  unfold agent_generate, log_error, lift, emit. cbn [bind].
  destruct (generate agent _ _ _); reflexivity.
Qed.

Lemma slack_body_cases h agent record i :
  getAgent h "projectAssistantAgent" = Some agent ->
  let step1 := s2_step1 (s3_step2 i) in
  let name := "proj-" ++ slug step1 in
  let degraded :=
    extend record
      [("channelName", VStr ""); ("channelId", VStr "");
       ("slackSuccess", VBool false)] in
  let call :=
    EvCall "agent.generate"
      [VStr (slack_prompt i name); VStr ("system-" ++ projectId step1);
       VStr ("slack-setup-" ++ projectId step1)] in
  createSlackChannel_body h record i
  = if negb (slack (platforms (s1_project step1))) then ([], Ok degraded)
    else match generate agent (slack_prompt i name) ("system-" ++ projectId step1)
                 ("slack-setup-" ++ projectId step1) with
         | Ok _ =>
             ([call],
              Ok (extend record
                    [("channelName", VStr name);
                     ("channelId",
                      VStr ("C" ++ toUpperCase
                                     (substring 2 10 (Math_random_toString36 h))));
                     ("slackSuccess", VBool true)]))
         | Throw _ =>
             ([call; EvError "Failed to create Slack channel:"], Ok degraded)
         end.
Proof.
  intros Hag step1 name degraded call. unfold createSlackChannel_body. rewrite Hag.
  fold step1. fold name.
  destruct (negb (slack (platforms (s1_project step1)))); [reflexivity|].
  unfold agent_generate, log_error, lift, emit. cbn [bind].
  destruct (generate agent _ _ _); reflexivity.
Qed.

(** The record the GitHub step hands on, case by case. *)
Lemma github_step_cases h agent i :
  getAgent h "projectAssistantAgent" = Some agent ->
  let degraded :=
    (step1_fields i
     ++ [("repositoryUrl", VStr ""); ("repositoryName", VStr "");
         ("githubSuccess", VBool false)])%list in
  let call :=
    EvCall "agent.generate"
      [VStr (github_prompt i); VStr ("system-" ++ projectId i);
       VStr ("github-setup-" ++ projectId i)] in
  createGitHubRepository_execute h i
  = if negb (github (platforms (s1_project i))) then ([], Ok degraded)
    else match generate agent (github_prompt i) ("system-" ++ projectId i)
                 ("github-setup-" ++ projectId i) with
         | Ok _ =>
             ([call],
              Ok (step1_fields i
                  ++ [("repositoryUrl", VStr ("https://github.com/user/" ++ slug i));
                      ("repositoryName", VStr (slug i));
                      ("githubSuccess", VBool true)])%list)
         | Throw _ =>
             ([call; EvError "Failed to create GitHub repository:"], Ok degraded)
         end.
Proof.
  intros Hag degraded call. unfold createGitHubRepository_execute.
  pose proof (github_body_cases h agent (step1_fields i) i Hag) as E. cbv zeta in E.
  rewrite E, !extend_step1. reflexivity.
Qed.

Lemma drive_step_cases h agent i :
  getAgent h "projectAssistantAgent" = Some agent ->
  let step1 := s2_step1 i in
  let degraded :=
    (step2_fields i
     ++ [("driveFolderUrl", VStr ""); ("driveFolderId", VStr "");
         ("driveSuccess", VBool false)])%list in
  let call :=
    EvCall "agent.generate"
      [VStr (drive_prompt i); VStr ("system-" ++ projectId step1);
       VStr ("drive-setup-" ++ projectId step1)] in
  createGoogleDriveFolder_execute h i
  = if negb (googleDrive (platforms (s1_project step1))) then ([], Ok degraded)
    else match generate agent (drive_prompt i) ("system-" ++ projectId step1)
                 ("drive-setup-" ++ projectId step1) with
         | Ok _ =>
             ([call],
              Ok (step2_fields i
                  ++ [("driveFolderUrl",
                       VStr "https://drive.google.com/drive/folders/example_folder_id");
                      ("driveFolderId", VStr "example_folder_id");
                      ("driveSuccess", VBool true)])%list)
         | Throw _ =>
             ([call; EvError "Failed to create Google Drive folder:"], Ok degraded)
         end.
Proof.
  intros Hag step1 degraded call. unfold createGoogleDriveFolder_execute.
  pose proof (drive_body_cases h agent (step2_fields i) i Hag) as E. cbv zeta in E.
  rewrite E, !extend_step2. reflexivity.
Qed.

Lemma slack_step_cases h agent i :
  getAgent h "projectAssistantAgent" = Some agent ->
  let step1 := s2_step1 (s3_step2 i) in
  let name := "proj-" ++ slug step1 in
  let degraded :=
    (step3_fields i
     ++ [("channelName", VStr ""); ("channelId", VStr "");
         ("slackSuccess", VBool false)])%list in
  let call :=
    EvCall "agent.generate"
      [VStr (slack_prompt i name); VStr ("system-" ++ projectId step1);
       VStr ("slack-setup-" ++ projectId step1)] in
  createSlackChannel_execute h i
  = if negb (slack (platforms (s1_project step1))) then ([], Ok degraded)
    else match generate agent (slack_prompt i name) ("system-" ++ projectId step1)
                 ("slack-setup-" ++ projectId step1) with
         | Ok _ =>
             ([call],
              Ok (step3_fields i
                  ++ [("channelName", VStr name);
                      ("channelId",
                       VStr ("C" ++ toUpperCase
                                      (substring 2 10 (Math_random_toString36 h))));
                      ("slackSuccess", VBool true)])%list)
         | Throw _ =>
             ([call; EvError "Failed to create Slack channel:"], Ok degraded)
         end.
Proof.
  intros Hag step1 name degraded call. unfold createSlackChannel_execute.
  pose proof (slack_body_cases h agent (step3_fields i) i Hag) as E. cbv zeta in E.
  rewrite E, !extend_step3. reflexivity.
Qed.

End OnboardSteps.

(* ===================================================================== *)
(** ** The project-onboarding run *)
(* ===================================================================== *)

Section OnboardRun.

Variable h : Host.
Variable agent : Agent.
Hypothesis registered : getAgent h "projectAssistantAgent" = Some agent.

Lemma validate_node input p rest hist :
  projectInputSchema h input = Some p ->
  exists i1 acc,
    s1_project i1 = p
    /\ slug i1 = slugify (projectName p)
    /\ step1OutputSchema h acc = Some i1
    /\ kept ["techStack"; "priority"; "platforms"; "projectId"; "slug"; "createdAt"]
         input acc
    /\ drive h (NStep validateProjectData :: rest) 0 input hist
       = drive h rest 1 acc (hist ++ [EvEnter 0 "validate-project-data"])%list.
Proof.
  intro S0.
  exists {| s1_project := p;
            projectId := "proj_" ++ Z_to_string (Date_now h) ++ "_"
                         ++ substring 2 9 (Math_random_toString36 h);
            createdAt := Date_toISOString h;
            slug := slugify (projectName p) |}.
  eexists.
  split; [reflexivity|]. split; [reflexivity|].
  split; [|split]; cycle 2.
  - unfold validateProjectData.
    erewrite drive_step_continues;
      [reflexivity | exact (accepted_reads _ _ _ _ _ S0) | reflexivity | constructor].
  - unfold step1OutputSchema.
    rewrite (project_schema_agrees h (project_defaults input)) by other_key.
    rewrite project_defaults_reads, S0, !get_extend. reflexivity.
  - exact (kept_trans _ _ _ _ _ (kept_project_defaults input) (kept_extend _ _)).
Qed.

Lemma github_node acc i1 rest cur hist :
  step1OutputSchema h acc = Some i1 ->
  exists i2 t acc',
    s2_step1 i2 = i1 /\ Forall plain t
    /\ step2OutputSchema h acc' = Some i2
    /\ kept ["techStack"; "priority"; "platforms";
             "repositoryUrl"; "repositoryName"; "githubSuccess"] acc acc'
    /\ drive h (NStep createGitHubRepository :: rest) cur acc hist
       = drive h rest (S cur) acc'
           (hist ++ EvEnter cur "create-github-repo" :: t)%list.
Proof.
  intro S1. unfold createGitHubRepository.
  pose proof (github_body_cases h agent (project_defaults acc) i1 registered) as E.
  cbv zeta in E.
  destruct (negb (github (platforms (s1_project i1))));
    [|destruct (generate agent _ _ _)];
    (eexists {| s2_step1 := i1 |}; eexists; eexists; split; [reflexivity|];
     split; [|split; [|split]]; cycle 3;
     [ erewrite drive_step_continues;
       [reflexivity | exact (accepted_reads _ _ _ _ _ S1) | exact E | ]
     | | | ];
     [ repeat constructor
     | repeat constructor
     | unfold step2OutputSchema;
       rewrite (step1_schema_agrees h (project_defaults acc)) by other_key;
       rewrite step1_defaults_reads, S1, !get_extend; reflexivity
     | exact (kept_trans _ _ _ _ _ (kept_project_defaults acc) (kept_extend _ _)) ]).
Qed.

Lemma drive_node acc i2 rest cur hist :
  step2OutputSchema h acc = Some i2 ->
  exists i3 t acc',
    s3_step2 i3 = i2 /\ Forall plain t
    /\ step3OutputSchema h acc' = Some i3
    /\ kept ["techStack"; "priority"; "platforms";
             "driveFolderUrl"; "driveFolderId"; "driveSuccess"] acc acc'
    /\ drive h (NStep createGoogleDriveFolder :: rest) cur acc hist
       = drive h rest (S cur) acc'
           (hist ++ EvEnter cur "create-google-drive-folder" :: t)%list.
Proof.
  intro S2. unfold createGoogleDriveFolder.
  pose proof (drive_body_cases h agent (project_defaults acc) i2 registered) as E.
  cbv zeta in E.
  destruct (negb (googleDrive (platforms (s1_project (s2_step1 i2)))));
    [|destruct (generate agent _ _ _)];
    (eexists {| s3_step2 := i2 |}; eexists; eexists; split; [reflexivity|];
     split; [|split; [|split]]; cycle 3;
     [ erewrite drive_step_continues;
       [reflexivity | exact (accepted_reads _ _ _ _ _ S2) | exact E | ]
     | | | ];
     [ repeat constructor
     | repeat constructor
     | unfold step3OutputSchema;
       rewrite (step2_schema_agrees h (project_defaults acc)) by other_key;
       rewrite step2_defaults_reads, S2, !get_extend; reflexivity
     | exact (kept_trans _ _ _ _ _ (kept_project_defaults acc) (kept_extend _ _)) ]).
Qed.

Lemma slack_node acc i3 rest cur hist :
  step3OutputSchema h acc = Some i3 ->
  exists i4 t acc',
    s4_step3 i4 = i3 /\ Forall plain t
    /\ step4OutputSchema h acc' = Some i4
    /\ kept ["techStack"; "priority"; "platforms";
             "channelName"; "channelId"; "slackSuccess"] acc acc'
    /\ drive h (NStep createSlackChannel :: rest) cur acc hist
       = drive h rest (S cur) acc'
           (hist ++ EvEnter cur "create-slack-channel" :: t)%list.
Proof.
  intro S3. unfold createSlackChannel.
  pose proof (slack_body_cases h agent (project_defaults acc) i3 registered) as E.
  cbv zeta in E.
  destruct (negb (slack (platforms (s1_project (s2_step1 (s3_step2 i3))))));
    [|destruct (generate agent _ _ _)];
    (eexists {| s4_step3 := i3 |}; eexists; eexists; split; [reflexivity|];
     split; [|split; [|split]]; cycle 3;
     [ erewrite drive_step_continues;
       [reflexivity | exact (accepted_reads _ _ _ _ _ S3) | exact E | ]
     | | | ];
     [ repeat constructor
     | repeat constructor
     | unfold step4OutputSchema;
       rewrite (step3_schema_agrees h (project_defaults acc)) by other_key;
       rewrite step3_defaults_reads, S3, !get_extend; reflexivity
     | exact (kept_trans _ _ _ _ _ (kept_project_defaults acc) (kept_extend _ _)) ]).
Qed.

End OnboardRun.
Section OnboardSummary.

Variable h : Host.
Variable agent : Agent.
Hypothesis registered : getAgent h "projectAssistantAgent" = Some agent.

Lemma onboarding_split :
  projectOnboardingWorkflow
  = (firstn 4 projectOnboardingWorkflow ++ [NStep generateProjectSummary])%list.
Proof. reflexivity. Qed.

(** With the agent registered, a valid project always reaches the summary
    step: none of the three platform steps fails the run, and the record
    that reaches the summary step still holds every field of the input. *)
Lemma onboarding_reaches_summary input p :
  projectInputSchema h input = Some p ->
  exists i4 acc hist,
    s1_project (s2_step1 (s3_step2 (s4_step3 i4))) = p
    /\ slug (s2_step1 (s3_step2 (s4_step3 i4))) = slugify (projectName p)
    /\ step4OutputSchema h acc = Some i4
    /\ kept written_names input acc
    /\ Forall (upto 3) hist
    /\ drive h (firstn 4 projectOnboardingWorkflow) 0 input []
       = drive h [] 4 acc hist.
Proof.
  intro S0. cbn [firstn projectOnboardingWorkflow].
  destruct (validate_node h input p
              [NStep createGitHubRepository; NStep createGoogleDriveFolder;
               NStep createSlackChannel] [] S0) as (i1 & acc1 & P1 & L1 & S1 & K1 & E1).
  rewrite E1.
  destruct (github_node h agent registered acc1 i1
              [NStep createGoogleDriveFolder; NStep createSlackChannel] 1
              ([] ++ [EvEnter 0 "validate-project-data"])%list S1)
    as (i2 & t2 & acc2 & P2 & T2 & S2 & K2 & E2).
  rewrite E2.
  match goal with |- context [drive h _ 2 _ ?hist] =>
    destruct (drive_node h agent registered acc2 i2 [NStep createSlackChannel] 2 hist S2)
      as (i3 & t3 & acc3 & P3 & T3 & S3 & K3 & E3)
  end.
  rewrite E3.
  match goal with |- context [drive h _ 3 _ ?hist] =>
    destruct (slack_node h agent registered acc3 i3 [] 3 hist S3) as (i4 & t4 & acc4 & P4 & T4 & S4 & K4 & E4)
  end.
  rewrite E4.
  exists i4, acc4. eexists.
  split; [rewrite P4, P3, P2; exact P1|].
  split; [rewrite P4, P3, P2; exact L1|].
  split; [exact S4|].
  split.
  { eapply kept_weaken;
      [|exact (kept_trans _ _ _ _ _ K1
                 (kept_trans _ _ _ _ _ K2 (kept_trans _ _ _ _ _ K3 K4)))].
    intros k Hk. unfold written_names. simpl in Hk |- *. tauto. }
  split; [|reflexivity].
  repeat (apply Forall_app; split);
    try (constructor; [split; [reflexivity | simpl; lia]|]);
    try (apply plain_upto; assumption); constructor.
Qed.

Lemma summary_node acc i4 hist :
  step4OutputSchema h acc = Some i4 ->
  let step1 := s2_step1 (s3_step2 (s4_step3 i4)) in
  let call :=
    EvCall "agent.generate"
      [VStr (summary_prompt i4); VStr ("system-" ++ projectId step1);
       VStr ("summary-" ++ projectId step1)] in
  drive h [NStep generateProjectSummary] 4 acc hist
  = match generate agent (summary_prompt i4) ("system-" ++ projectId step1)
            ("summary-" ++ projectId step1) with
    | Ok text =>
        finished Succeeded 5 (summary_record i4 text) (Some (summary_record i4 text)) None
          (hist ++ [EvEnter 4 "generate-project-summary"; call])%list
    | Throw e =>
        finished Failed 4 acc None
          (Some (ExecutionError "generate-project-summary" e))
          (hist ++ [EvEnter 4 "generate-project-summary"; call])%list
    end.
Proof.
  intros S4 step1 call.
  unfold generateProjectSummary.
  destruct (generate agent (summary_prompt i4) ("system-" ++ projectId step1)
              ("summary-" ++ projectId step1)) as [text|e] eqn:G.
  - erewrite drive_step_continues; [reflexivity | exact S4 | | ].
    + unfold generateProjectSummary_execute. rewrite registered.
      unfold agent_generate, lift, emit. cbn [bind]. fold step1. rewrite G.
      reflexivity.
    + repeat constructor.
  - erewrite drive_step_throws; [reflexivity | exact S4 | ].
    unfold generateProjectSummary_execute. rewrite registered.
    unfold agent_generate, lift, emit. cbn [bind]. fold step1. rewrite G.
    reflexivity.
Qed.

End OnboardSummary.
Section OnboardFrame.

Lemma Ok_inj {A : Type} (a b : A) : Ok a = Ok b -> a = b.
Proof. intro H. injection H as H. exact H. Qed.

(** What the Slack step's contract accepts holds the fields of the steps
    before it. *)
Lemma step3_reads h acc i3 :
  step3OutputSchema h acc = Some i3 ->
  get "slug" acc = VStr (slug (s2_step1 (s3_step2 i3)))
  /\ get "projectId" acc = VStr (projectId (s2_step1 (s3_step2 i3)))
  /\ get "repositoryUrl" acc = VStr (repositoryUrl (s3_step2 i3))
  /\ get "driveFolderUrl" acc = VStr (driveFolderUrl i3).
Proof.
  unfold step3OutputSchema, step2OutputSchema, step1OutputSchema, obind.
  destruct (projectInputSchema h acc) as [p|]; [|discriminate].
  destruct (get "projectId" acc) as [ | | | |a1| | ]; try discriminate.
  destruct (get "createdAt" acc) as [ | | | |a2| | ]; try discriminate.
  destruct (get "slug" acc) as [ | | | |a3| | ]; try discriminate.
  destruct (get "repositoryUrl" acc) as [ | | | |a4| | ]; try discriminate.
  destruct (get "repositoryName" acc) as [ | | | |a5| | ]; try discriminate.
  destruct (get "githubSuccess" acc) as [ | |a6| | | | ]; try discriminate.
  destruct (get "driveFolderUrl" acc) as [ | | | |a7| | ]; try discriminate.
  destruct (get "driveFolderId" acc) as [ | | | |a8| | ]; try discriminate.
  destruct (get "driveSuccess" acc) as [ | |a9| | | | ]; try discriminate.
  cbn. intro H. injection H as <-. repeat split.
Qed.

Lemma platforms_defaults_keep (fields : JSObject) :
  exists fields',
    platforms_defaults (VObj fields) = VObj fields'
    /\ forall k,
         (has k fields = true -> has k fields' = true)
         /\ (get k fields <> VUndefined -> get k fields' = get k fields).
Proof.
  eexists. split; [reflexivity|]. intro k. split.
  - intro H. now repeat apply has_fill.
  - intro N. rewrite !get_fill.
    destruct (String.eqb_spec k "googleDrive") as [->|_];
      [cbn [String.eqb Ascii.eqb Bool.eqb];
       destruct (get "googleDrive" fields); congruence|].
    destruct (String.eqb_spec k "slack") as [->|_];
      [cbn [String.eqb Ascii.eqb Bool.eqb];
       destruct (get "slack" fields); congruence|].
    destruct (String.eqb_spec k "github") as [->|_];
      [destruct (get "github" fields); congruence|].
    reflexivity.
Qed.

Ltac extended_by :=
  let H := fresh "H" in
  intro H; apply Ok_inj in H; subst;
  do 3 eexists; split; [reflexivity|]; split;
  [ exact (kept_extend _ _)
  | let F := fresh "F" in
    intros F; apply extend_fresh;
    [ repeat constructor; simpl; intuition discriminate
    | let k := fresh "k" in
      let Hk := fresh "Hk" in
      intros k Hk; simpl in Hk;
      repeat (destruct Hk as [Hk|Hk]; [subst k; tauto|]); contradiction ] ].

(** C7, as the code has it.  Cumulative record threading in the
    project-onboarding workflow.  Contract acceptance drops no field: the
    record a contract accepts holds every field of the record it was
    given, declared or not, each with the value it had; only a field the
    schema declares a default for may change, and it does not when the
    record gives it a value ([platforms] keeps every flag and field it
    holds).  Every step before the final summary step returns the record
    it was given, each field with its value unchanged unless it bears the
    name of one of the step's three new fields, and extends it only with
    those three, which come last when the record does not hold them yet.
    So the record that reaches the summary step holds every field of the
    run's input and the fields of all four steps: the slug and project id
    of the first, the repository address of the second, and so on. *)
Theorem steps_extend_their_input :
  forall h : Host,
    (forall (I : Type) (reads : Host -> JSObject -> option I)
            (record record' : JSObject) (inputData : I),
        accepted reads project_defaults h record = Some (inputData, record') ->
        reads h record = Some inputData
        /\ (forall k,
              (has k record = true -> has k record' = true)
              /\ (~ In k ["techStack"; "priority"; "platforms"] ->
                  get k record' = get k record)
              /\ (get k record <> VUndefined -> k <> "platforms" ->
                  get k record' = get k record))
        /\ (forall fields,
              get "platforms" record = VObj fields ->
              exists fields',
                get "platforms" record' = VObj fields'
                /\ forall k,
                     (has k fields = true -> has k fields' = true)
                     /\ (get k fields <> VUndefined -> get k fields' = get k fields)))
    /\ (forall (record : JSObject) (inputData : ProjectInput) out,
          snd (validateProjectData_body h record inputData) = Ok out ->
          exists projectId slug createdAt,
            out = extend record [("projectId", projectId); ("slug", slug);
                                 ("createdAt", createdAt)]
            /\ kept ["projectId"; "slug"; "createdAt"] record out
            /\ (has "projectId" record = false /\ has "slug" record = false
                /\ has "createdAt" record = false ->
                out = (record ++ [("projectId", projectId); ("slug", slug);
                                  ("createdAt", createdAt)])%list))
    /\ (forall (record : JSObject) (inputData : Step1Output) out,
          snd (createGitHubRepository_body h record inputData) = Ok out ->
          exists repositoryUrl repositoryName githubSuccess,
            out = extend record [("repositoryUrl", repositoryUrl);
                                 ("repositoryName", repositoryName);
                                 ("githubSuccess", githubSuccess)]
            /\ kept ["repositoryUrl"; "repositoryName"; "githubSuccess"] record out
            /\ (has "repositoryUrl" record = false /\ has "repositoryName" record = false
                /\ has "githubSuccess" record = false ->
                out = (record ++ [("repositoryUrl", repositoryUrl);
                                  ("repositoryName", repositoryName);
                                  ("githubSuccess", githubSuccess)])%list))
    /\ (forall (record : JSObject) (inputData : Step2Output) out,
          snd (createGoogleDriveFolder_body h record inputData) = Ok out ->
          exists driveFolderUrl driveFolderId driveSuccess,
            out = extend record [("driveFolderUrl", driveFolderUrl);
                                 ("driveFolderId", driveFolderId);
                                 ("driveSuccess", driveSuccess)]
            /\ kept ["driveFolderUrl"; "driveFolderId"; "driveSuccess"] record out
            /\ (has "driveFolderUrl" record = false /\ has "driveFolderId" record = false
                /\ has "driveSuccess" record = false ->
                out = (record ++ [("driveFolderUrl", driveFolderUrl);
                                  ("driveFolderId", driveFolderId);
                                  ("driveSuccess", driveSuccess)])%list))
    /\ (forall (record : JSObject) (inputData : Step3Output) out,
          snd (createSlackChannel_body h record inputData) = Ok out ->
          exists channelName channelId slackSuccess,
            out = extend record [("channelName", channelName);
                                 ("channelId", channelId);
                                 ("slackSuccess", slackSuccess)]
            /\ kept ["channelName"; "channelId"; "slackSuccess"] record out
            /\ (has "channelName" record = false /\ has "channelId" record = false
                /\ has "slackSuccess" record = false ->
                out = (record ++ [("channelName", channelName);
                                  ("channelId", channelId);
                                  ("slackSuccess", slackSuccess)])%list))
    /\ (forall (agent : Agent) (input : JSObject) (project : ProjectInput),
          getAgent h "projectAssistantAgent" = Some agent ->
          projectInputSchema h input = Some project ->
          let r := start h (firstn 4 projectOnboardingWorkflow) input in
          exists step4 : Step4Output,
            status r = Succeeded /\ cursor r = 4
            /\ step4OutputSchema h (accumulatedData r) = Some step4
            /\ s1_project (s2_step1 (s3_step2 (s4_step3 step4))) = project
            /\ kept written_names input (accumulatedData r)
            /\ get "slug" (accumulatedData r)
               = VStr (slug (s2_step1 (s3_step2 (s4_step3 step4))))
            /\ get "projectId" (accumulatedData r)
               = VStr (projectId (s2_step1 (s3_step2 (s4_step3 step4))))
            /\ get "repositoryUrl" (accumulatedData r)
               = VStr (repositoryUrl (s3_step2 (s4_step3 step4)))
            /\ get "driveFolderUrl" (accumulatedData r)
               = VStr (driveFolderUrl (s4_step3 step4))).
Proof.
  intro h. split; [|split; [|split; [|split; [|split]]]].
  - intros I reads record record' inputData. unfold accepted.
    destruct (reads h record) as [i|]; [|discriminate].
    intro H. injection H as <- <-. split; [reflexivity|]. split.
    + intro k. destruct (kept_project_defaults record k) as [K1 K2].
      split; [exact K1|]. split; [exact K2|].
      intros N Np. rewrite get_project_defaults.
      destruct (String.eqb_spec k "platforms") as [->|_]; [congruence|].
      destruct (String.eqb_spec k "priority") as [->|_];
        [destruct (get "priority" record); congruence|].
      destruct (String.eqb_spec k "techStack") as [->|_];
        [destruct (get "techStack" record); congruence|].
      reflexivity.
    + intros fields Hf. rewrite get_project_defaults. cbn [String.eqb Ascii.eqb Bool.eqb].
      rewrite Hf. apply platforms_defaults_keep.
  - intros record inputData out. unfold validateProjectData_body. cbn [ret snd].
    extended_by.
  - intros record inputData out.
    destruct (getAgent h "projectAssistantAgent") as [agent|] eqn:Hag.
    + rewrite (github_body_cases h agent record inputData Hag).
      destruct (negb _); [|destruct (generate agent _ _ _)]; cbn [snd]; extended_by.
    + unfold createGitHubRepository_body. rewrite Hag. discriminate.
  - intros record inputData out.
    destruct (getAgent h "projectAssistantAgent") as [agent|] eqn:Hag.
    + rewrite (drive_body_cases h agent record inputData Hag).
      destruct (negb _); [|destruct (generate agent _ _ _)]; cbn [snd]; extended_by.
    + unfold createGoogleDriveFolder_body. rewrite Hag. discriminate.
  - intros record inputData out.
    destruct (getAgent h "projectAssistantAgent") as [agent|] eqn:Hag.
    + rewrite (slack_body_cases h agent record inputData Hag).
      destruct (negb _); [|destruct (generate agent _ _ _)]; cbn [snd]; extended_by.
    + unfold createSlackChannel_body. rewrite Hag. discriminate.
  - intros agent input project Hag S0 r. subst r. unfold start.
    destruct (onboarding_reaches_summary h agent Hag input project S0)
      as (i4 & acc & hist & P & L & S4 & K & _ & E).
    rewrite E. cbn [drive status cursor accumulatedData finished].
    exists i4. split; [reflexivity|]. split; [reflexivity|].
    split; [exact S4|]. split; [exact P|]. split; [exact K|].
    assert (S3 : step3OutputSchema h acc = Some (s4_step3 i4)).
    { revert S4. unfold step4OutputSchema, obind.
      destruct (step3OutputSchema h acc) as [i3|]; [|discriminate].
      destruct (z_string (get "channelName" acc)); [|discriminate].
      destruct (z_string (get "channelId" acc)); [|discriminate].
      destruct (z_boolean (get "slackSuccess" acc)); [|discriminate].
      intro H. injection H as <-. reflexivity. }
    destruct (step3_reads h acc _ S3) as (G1 & G2 & G3 & G4).
    rewrite G1, G2, G3, G4. repeat split.
Qed.

(** C7, as stated, fails for a field of the input record that bears the
    name of a field the step writes.  The sample input holds a [slug],
    which the validation step's contract does not declare; acceptance
    keeps it, and the step, which spreads its input first and defines its
    own [slug] after, returns the record with the slug of the project name
    in its place. *)
Lemma step_replaces_a_field_it_writes :
  accepted projectInputSchema project_defaults Samples.working_host Cases.slugged_input
  = Some (Cases.project_record, project_defaults Cases.slugged_input)
  /\ get "slug" (project_defaults Cases.slugged_input) = VStr "custom"
  /\ exists out,
       validateProjectData_body Samples.working_host
         (project_defaults Cases.slugged_input) Cases.project_record
       = ([], Ok out)
       /\ has "slug" out = true
       /\ get "slug" out = VStr "apollo-launch"
       /\ get "slug" out <> get "slug" (project_defaults Cases.slugged_input).
Proof.
  split; [reflexivity|]. split; [reflexivity|].
  eexists. split; [reflexivity|]. split; [reflexivity|]. split; [reflexivity|].
  discriminate.
Qed.

End OnboardFrame.

Section OnboardDegrade.

(** C6, as the code has it.  In the project-onboarding workflow, provided
    the project-assistant agent is registered, a platform step whose
    platform is disabled or whose platform call throws returns its input
    record extended with empty resource handles and its success flag false,
    and continues; a valid project therefore always reaches the summary
    step, and the run then ends as that step's own generation call decides:
    Succeeded with the final summary when it answers, Failed when it
    throws. *)
Theorem platform_failures_degrade :
  forall (h : Host) (agent : Agent),
    getAgent h "projectAssistantAgent" = Some agent ->
    (forall i : Step1Output,
        github (platforms (s1_project i)) = false
        \/ (exists e, generate agent (github_prompt i) ("system-" ++ projectId i)
                        ("github-setup-" ++ projectId i) = Throw e) ->
        exists t,
          createGitHubRepository_execute h i
          = (t, Ok (step1_fields i
                    ++ [("repositoryUrl", VStr ""); ("repositoryName", VStr "");
                        ("githubSuccess", VBool false)])%list)
          /\ Forall plain t)
    /\ (forall i : Step2Output,
          googleDrive (platforms (s1_project (s2_step1 i))) = false
          \/ (exists e, generate agent (drive_prompt i)
                          ("system-" ++ projectId (s2_step1 i))
                          ("drive-setup-" ++ projectId (s2_step1 i)) = Throw e) ->
          exists t,
            createGoogleDriveFolder_execute h i
            = (t, Ok (step2_fields i
                      ++ [("driveFolderUrl", VStr ""); ("driveFolderId", VStr "");
                          ("driveSuccess", VBool false)])%list)
            /\ Forall plain t)
    /\ (forall i : Step3Output,
          slack (platforms (s1_project (s2_step1 (s3_step2 i)))) = false
          \/ (exists e, generate agent
                          (slack_prompt i ("proj-" ++ slug (s2_step1 (s3_step2 i))))
                          ("system-" ++ projectId (s2_step1 (s3_step2 i)))
                          ("slack-setup-" ++ projectId (s2_step1 (s3_step2 i))) = Throw e) ->
          exists t,
            createSlackChannel_execute h i
            = (t, Ok (step3_fields i
                      ++ [("channelName", VStr ""); ("channelId", VStr "");
                          ("slackSuccess", VBool false)])%list)
            /\ Forall plain t)
    /\ (forall input p,
          projectInputSchema h input = Some p ->
          let r := start h projectOnboardingWorkflow input in
          exists i4,
            s1_project (s2_step1 (s3_step2 (s4_step3 i4))) = p
            /\ In (EvEnter 4 "generate-project-summary") (history r)
            /\ match generate agent (summary_prompt i4)
                       ("system-" ++ projectId (s2_step1 (s3_step2 (s4_step3 i4))))
                       ("summary-" ++ projectId (s2_step1 (s3_step2 (s4_step3 i4)))) with
               | Ok text =>
                   status r = Succeeded /\ output r = Some (summary_record i4 text)
               | Throw e =>
                   status r = Failed
                   /\ error r = Some (ExecutionError "generate-project-summary" e)
               end).
Proof.
  intros h agent Hag. split; [|split; [|split]].
  - intros i Hdeg. pose proof (github_step_cases h agent i Hag) as E. cbv zeta in E.
    rewrite E. destruct Hdeg as [Hoff|[e He]].
    + rewrite Hoff. cbn [negb]. eexists. split; [reflexivity | constructor].
    + rewrite He. destruct (negb _); eexists; (split; [reflexivity | repeat constructor]).
  - intros i Hdeg. pose proof (drive_step_cases h agent i Hag) as E. cbv zeta in E.
    rewrite E. destruct Hdeg as [Hoff|[e He]].
    + rewrite Hoff. cbn [negb]. eexists. split; [reflexivity | constructor].
    + rewrite He. destruct (negb _); eexists; (split; [reflexivity | repeat constructor]).
  - intros i Hdeg. pose proof (slack_step_cases h agent i Hag) as E. cbv zeta in E.
    rewrite E. destruct Hdeg as [Hoff|[e He]].
    + rewrite Hoff. cbn [negb]. eexists. split; [reflexivity | constructor].
    + rewrite He. destruct (negb _); eexists; (split; [reflexivity | repeat constructor]).
  - intros input p S0 r. subst r. unfold start.
    rewrite onboarding_split, drive_app.
    destruct (onboarding_reaches_summary h agent Hag input p S0)
      as (i4 & acc & hist & P & _ & S4 & _ & Hh & E).
    rewrite E. unfold continue_with.
    change (drive h [] 4 acc hist)
      with (finished Succeeded 4 acc (Some acc) None hist).
    cbn [status finished cursor accumulatedData history].
    pose proof (summary_node h agent Hag acc i4 hist S4) as Es. cbv zeta in Es.
    rewrite Es. exists i4. split; [exact P|].
    destruct (generate agent _ _ _); cbn [history status output error finished];
      (split; [apply in_or_app; right; left; reflexivity | split; reflexivity]).
Qed.

End OnboardDegrade.

(* ===================================================================== *)
(** ** The end-to-end scenario *)
(* ===================================================================== *)

Section Scenario.
Import Research Samples.

(** C8, as the code has it.  For the input
    [{ query: "X", platforms: ["github"], requireApproval: false }],
    assuming the completion call returns a text that either does not parse
    as JSON or parses to an analysis with the declared fields, and assuming
    the document creation of the publish step succeeds, the run takes the
    auto-approve branch, publishes, and ends Succeeded with
    [success: true] and [publishedChannels] holding the one channel
    requested of the publish step: its default, [google-drive], the input
    naming no publish channel. *)
Theorem scenario_auto_approves_and_publishes :
  forall (h : Host) (text : string),
    (forall prompt, generateText h prompt = Ok text) ->
    usable_text h text ->
    console_log h "Creating Google Doc: Research Report: X" = Ok tt ->
    let r := start h documentResearchWorkflow scenario_input in
    status r = Succeeded
    /\ output r
       = Some [("success", VBool true);
               ("reportTitle", VStr "Research Report: X");
               ("publishedChannels", VArr [VStr "google-drive"]);
               ("message", VStr "Report published to google-drive")]
    /\ In (EvEnter 3 "auto-approve") (history r)
    /\ exists content,
         In (EvCall "createGoogleDoc" [VStr "Research Report: X"; VStr content])
           (history r).
Proof.
  intros h text Htext Huse Hlog r. subst r.
  destruct (scenario_run h text Htext Huse Hlog) as (content & hist & hist' & E & Hin).
  rewrite E. cbn [drive status output history finished].
  split; [reflexivity|]. split; [reflexivity|]. split.
  - apply in_or_app. right. left. reflexivity.
  - exists content. apply in_or_app. right. right. exact Hin.
Qed.

(** The scenario on a host whose completion answers prose: the fallback
    analysis applies and the run publishes. *)
Lemma scenario_auto_approves_and_publishes_witness :
  status (start working_host documentResearchWorkflow scenario_input) = Succeeded.
Proof.
  refine (proj1 (scenario_auto_approves_and_publishes working_host
                   "Mostly release notes; relevance is high." _ _ _)).
  - intro prompt. reflexivity.
  - exact I.
  - reflexivity.
Defined.

(** C8, as stated, fails on hosts where every console call, and with it
    the publish operation, succeeds.  When the completion call throws, the
    analysis step, which awaits it outside its [try], throws with it and
    the run ends Failed, without an output.  And on a host where the run
    does publish, the channel published to is none the input names: the
    input has no [publishChannels], [github] is the search platform it
    selects, and the report goes to the publish step's default channel,
    [google-drive]. *)
Lemma scenario_fails_when_completion_throws :
  ((forall message, console_log completion_down_host message = Ok tt)
   /\ status (start completion_down_host documentResearchWorkflow scenario_input) = Failed
   /\ output (start completion_down_host documentResearchWorkflow scenario_input) = None
   /\ error (start completion_down_host documentResearchWorkflow scenario_input)
      = Some (ExecutionError "analyze-results" (Error "completion service unavailable")))
  /\ ((forall message, console_log working_host message = Ok tt)
      /\ get "publishChannels" scenario_input = VUndefined
      /\ get "platforms" scenario_input = VArr [VStr "github"]
      /\ status (start working_host documentResearchWorkflow scenario_input) = Succeeded
      /\ exists out,
           output (start working_host documentResearchWorkflow scenario_input) = Some out
           /\ get "success" out = VBool true
           /\ get "publishedChannels" out = VArr [VStr "google-drive"]).
Proof.
  split; (split; [intro message; reflexivity|]).
  - vm_compute. repeat split.
  - split; [reflexivity|]. split; [reflexivity|]. split; [vm_compute; reflexivity|].
    eexists. split; [vm_compute; reflexivity|]. split; reflexivity.
Qed.

End Scenario.

(* ===================================================================== *)
(** ** The theorems at sample runs *)
(* ===================================================================== *)

Section Witnesses.
Import Research Samples.

(** A run that asks for approval, on a host where every outside call
    works, parks at the human-approval step. *)
Lemma approval_suspends_with_report_witness :
  status (start working_host documentResearchWorkflow approval_input) = Suspended
  /\ output (start working_host documentResearchWorkflow approval_input) = None.
Proof.
  pose proof (approval_suspends_with_report working_host approval_input eq_refl) as H.
  cbv zeta in H.
  assert (Hin : In (EvEnter 3 "human-approval")
                  (history (start working_host documentResearchWorkflow approval_input))).
  { vm_compute. auto 20. }
  destruct (H Hin) as (Hs & Ho & _). split; [exact Hs | exact Ho].
Defined.

(** That run, resumed with [{ approved: false }], bails. *)
Lemma rejected_resume_bails_witness :
  exists r',
    resume working_host documentResearchWorkflow
      (start working_host documentResearchWorkflow approval_input) (VObj rejection)
    = Resumed_run r'
    /\ status r' = Bailed.
Proof.
  destruct (rejected_resume_bails working_host working_host approval_input rejection
              {| rd_approved := false; rd_feedback := None; rd_modifiedContent := None |}
              eq_refl eq_refl eq_refl)
    as (r' & title & E & Hs & _).
  exists r'. split; [exact E | exact Hs].
Defined.

(** A completion that answers prose gives the fallback analysis. *)
Lemma analyze_falls_back_witness :
  exists out,
    snd (analyzeResultsStep_execute working_host analyze_input) = Ok out
    /\ get "relevanceScore" out = VNum 75
    /\ get "query" out = VStr "X".
Proof.
  destruct (analyze_falls_back_on_malformed_output working_host analyze_input
              "Mostly release notes; relevance is high." eq_refl) as [Hfb _].
  eexists. split; [apply (Hfb (Error "Unexpected token")); reflexivity|].
  split; reflexivity.
Defined.

(** A run whose input holds a field that no contract declares: the field
    is still there, with its value, when the summary step is reached. *)
Lemma steps_extend_their_input_witness :
  get "ticket"
    (accumulatedData (start working_host (firstn 4 projectOnboardingWorkflow)
                        Cases.ticketed_input))
  = VStr "OPS-7".
Proof.
  destruct (steps_extend_their_input working_host) as (_ & _ & _ & _ & _ & Hrun).
  destruct (Hrun assistant Cases.ticketed_input Cases.project_record eq_refl eq_refl)
    as (step4 & _ & _ & _ & _ & K & _).
  rewrite (proj2 (K "ticket")); [reflexivity|].
  unfold written_names. simpl. intuition discriminate.
Defined.

(** With the three platform calls throwing and the summary call
    answering, the onboarding run ends Succeeded. *)
Lemma platform_failures_degrade_witness :
  status (start platforms_down_host projectOnboardingWorkflow project_input) = Succeeded.
Proof.
  destruct (platform_failures_degrade platforms_down_host summary_only_assistant eq_refl)
    as (_ & _ & _ & Hrun).
  assert (S0 : exists p, projectInputSchema platforms_down_host project_input = Some p)
    by (eexists; reflexivity).
  destruct S0 as [p S0].
  destruct (Hrun project_input p S0) as (i4 & _ & _ & Hend).
  assert (G : forall prompt resourceId x,
             generate summary_only_assistant prompt resourceId ("summary-" ++ x)
             = Ok "Kick-off summary.") by (intros; reflexivity).
  rewrite G in Hend. exact (proj1 Hend).
Defined.

End Witnesses.

Section OnboardCounterexample.
Import Samples.

(** C6, as stated, fails on two counts.  With the agent registered and
    never answering, the three platform steps degrade (their calls throw
    and are caught) and the run still ends Failed at the summary step,
    without a final summary.  With no agent at hand, a step whose platform
    is disabled throws before it looks at the flag, and the run is Failed
    at that step. *)
Lemma onboarding_fails_at_summary_or_without_agent :
  (In (EvError "Failed to create GitHub repository:")
     (history (start unreachable_host projectOnboardingWorkflow project_input))
   /\ get "githubSuccess"
        (accumulatedData (start unreachable_host projectOnboardingWorkflow project_input))
      = VBool false
   /\ status (start unreachable_host projectOnboardingWorkflow project_input) = Failed
   /\ output (start unreachable_host projectOnboardingWorkflow project_input) = None
   /\ error (start unreachable_host projectOnboardingWorkflow project_input)
      = Some (ExecutionError "generate-project-summary" (Error "service unavailable")))
  /\ (github (platforms (s1_project step1_record)) = false
      /\ snd (createGitHubRepository_execute no_agent_host step1_record)
         = Throw agent_not_found
      /\ status (start no_agent_host projectOnboardingWorkflow project_input_no_platforms)
         = Failed
      /\ error (start no_agent_host projectOnboardingWorkflow project_input_no_platforms)
         = Some (ExecutionError "create-github-repo" agent_not_found)).
Proof.
  split.
  - vm_compute. repeat split. auto 20.
  - vm_compute. repeat split.
Qed.

End OnboardCounterexample.

(* ===================================================================== *)
(** ** The slug of a project name *)
(* ===================================================================== *)

Section Slug.
Import Onboard.

Lemma slug_char_not_dash (c : ascii) : is_slug_char c = true -> c <> dash.
Proof. intros H E. subst c. discriminate H. Qed.

Lemma no_double_dash_cons (c : ascii) (l : list ascii) :
  (forall front rest, l <> (front ++ dash :: dash :: rest)%list) ->
  (c = dash -> forall rest, l <> dash :: rest) ->
  forall front rest, c :: l <> (front ++ dash :: dash :: rest)%list.
Proof.
  intros Hl Hc [|f front] rest E; simpl in E; injection E as E1 E2.
  - exact (Hc E1 _ E2).
  - exact (Hl _ _ E2).
Qed.

Lemma no_double_dash_tail (c : ascii) (l : list ascii) :
  (forall front rest, c :: l <> (front ++ dash :: dash :: rest)%list) ->
  forall front rest, l <> (front ++ dash :: dash :: rest)%list.
Proof. intros H front rest E. apply (H (c :: front) rest). simpl. now rewrite E. Qed.

(** What the first replacement leaves: letters, digits and dashes, no two
    dashes in a row, and no dash first when the text before ended in
    one. *)
Lemma dash_runs_shape (cs : list ascii) : forall in_run : bool,
  Forall (fun c => is_slug_char c = true \/ c = dash) (dash_runs in_run cs)
  /\ (in_run = true -> forall rest, dash_runs in_run cs <> dash :: rest)
  /\ (forall front rest, dash_runs in_run cs <> (front ++ dash :: dash :: rest)%list).
Proof.
  induction cs as [|c cs IH]; intro in_run; cbn [dash_runs].
  - repeat split; [constructor | discriminate | intros [|? ?] ?; discriminate].
  - destruct (is_slug_char c) eqn:Ec.
    + destruct (IH false) as (F & _ & D). repeat split.
      * constructor; [now left | exact F].
      * intros _ rest E. injection E as E _. exact (slug_char_not_dash c Ec E).
      * apply no_double_dash_cons; [exact D|].
        intro E. destruct (slug_char_not_dash c Ec E).
    + destruct in_run.
      * exact (IH true).
      * destruct (IH true) as (F & S & D). repeat split.
        -- constructor; [now right | exact F].
        -- discriminate.
        -- apply no_double_dash_cons; [exact D | intros _; exact (S eq_refl)].
Qed.

Lemma drop_leading_dash_cases (l : list ascii) :
  drop_leading_dash l = l \/ l = dash :: drop_leading_dash l.
Proof.
  destruct l as [|c l]; [now left|]. cbn [drop_leading_dash].
  destruct (Ascii.eqb_spec c dash) as [->|_]; [now right | now left].
Qed.

Lemma drop_leading_dash_start (l : list ascii) :
  (forall front rest, l <> (front ++ dash :: dash :: rest)%list) ->
  forall rest, drop_leading_dash l <> dash :: rest.
Proof.
  intros D rest E. destruct l as [|c l]; [discriminate E|].
  cbn [drop_leading_dash] in E. destruct (Ascii.eqb_spec c dash) as [->|N].
  - apply (D [] rest). simpl. now rewrite E.
  - injection E as E _. exact (N E).
Qed.

Lemma rev_starts (l : list ascii) (c : ascii) (rest : list ascii) :
  rev l = c :: rest <-> l = (rev rest ++ [c])%list.
Proof.
  split; intro E.
  - rewrite <- (rev_involutive l), E. reflexivity.
  - rewrite E, rev_app_distr, rev_involutive. reflexivity.
Qed.

Lemma rev_ends (l front : list ascii) (c : ascii) :
  rev l = (front ++ [c])%list <-> l = c :: rev front.
Proof.
  split; intro E.
  - rewrite <- (rev_involutive l), E, rev_app_distr. reflexivity.
  - rewrite E. cbn [rev]. rewrite rev_involutive. reflexivity.
Qed.

Lemma rev_no_double_dash (l : list ascii) :
  (forall front rest, l <> (front ++ dash :: dash :: rest)%list) ->
  forall front rest, rev l <> (front ++ dash :: dash :: rest)%list.
Proof.
  intros D front rest E. apply (D (rev rest) (rev front)).
  rewrite <- (rev_involutive l), E, rev_app_distr. cbn [rev].
  rewrite <- !app_assoc. reflexivity.
Qed.

Lemma strip_dashes_shape (l : list ascii) :
  Forall (fun c => is_slug_char c = true \/ c = dash) l ->
  (forall front rest, l <> (front ++ dash :: dash :: rest)%list) ->
  slug_shaped (strip_dashes l).
Proof.
  intros F D. unfold strip_dashes.
  set (l1 := drop_leading_dash l).
  assert (F1 : Forall (fun c => is_slug_char c = true \/ c = dash) l1).
  { destruct (drop_leading_dash_cases l) as [E|E]; fold l1 in E.
    - now rewrite E.
    - rewrite E in F. now inversion F. }
  assert (D1 : forall front rest, l1 <> (front ++ dash :: dash :: rest)%list).
  { destruct (drop_leading_dash_cases l) as [E|E]; fold l1 in E.
    - now rewrite E.
    - rewrite E in D. exact (no_double_dash_tail _ _ D). }
  assert (S1 : forall rest, l1 <> dash :: rest) by exact (drop_leading_dash_start l D).
  set (l2 := rev l1).
  assert (F2 : Forall (fun c => is_slug_char c = true \/ c = dash) l2)
    by (apply Forall_rev; exact F1).
  assert (D2 : forall front rest, l2 <> (front ++ dash :: dash :: rest)%list)
    by exact (rev_no_double_dash l1 D1).
  assert (T2 : forall front, l2 <> (front ++ [dash])%list).
  { intros front E. apply rev_ends in E. exact (S1 _ E). }
  set (l3 := drop_leading_dash l2).
  assert (F3 : Forall (fun c => is_slug_char c = true \/ c = dash) l3).
  { destruct (drop_leading_dash_cases l2) as [E|E]; fold l3 in E.
    - now rewrite E.
    - rewrite E in F2. now inversion F2. }
  assert (D3 : forall front rest, l3 <> (front ++ dash :: dash :: rest)%list).
  { destruct (drop_leading_dash_cases l2) as [E|E]; fold l3 in E.
    - now rewrite E.
    - rewrite E in D2. exact (no_double_dash_tail _ _ D2). }
  assert (S3 : forall rest, l3 <> dash :: rest) by exact (drop_leading_dash_start l2 D2).
  assert (T3 : forall front, l3 <> (front ++ [dash])%list).
  { intros front E. destruct (drop_leading_dash_cases l2) as [E'|E']; fold l3 in E'.
    - apply (T2 front). now rewrite <- E'.
    - apply (T2 (dash :: front)). rewrite E', E. reflexivity. }
  repeat split.
  - apply Forall_rev. exact F3.
  - intros rest E. apply rev_starts in E. exact (T3 _ E).
  - intros front E. apply rev_ends in E. exact (S3 _ E).
  - exact (rev_no_double_dash l3 D3).
Qed.

(** The slug of any name has the shape of a slug. *)
Lemma slugify_shaped (name : string) : slug_shaped (list_ascii_of_string (slugify name)).
Proof.
  unfold slugify. rewrite list_ascii_of_string_of_list_ascii.
  destruct (dash_runs_shape (list_ascii_of_string (toLowerCase name)) false)
    as (F & _ & D).
  exact (strip_dashes_shape _ F D).
Qed.

Lemma filter_dash_runs (cs : list ascii) : forall in_run : bool,
  filter is_slug_char (dash_runs in_run cs) = filter is_slug_char cs.
Proof.
  induction cs as [|c cs IH]; intro in_run; cbn [dash_runs filter]; [reflexivity|].
  destruct (is_slug_char c) eqn:Ec.
  - cbn [filter]. rewrite Ec, IH. reflexivity.
  - destruct in_run; [apply IH|].
    cbn [filter]. change (is_slug_char dash) with false. cbv iota. apply IH.
Qed.

Lemma filter_drop_leading_dash (l : list ascii) :
  filter is_slug_char (drop_leading_dash l) = filter is_slug_char l.
Proof.
  destruct (drop_leading_dash_cases l) as [E|E]; [now rewrite E|].
  rewrite E at 2. reflexivity.
Qed.

Lemma filter_strip_dashes (l : list ascii) :
  filter is_slug_char (strip_dashes l) = filter is_slug_char l.
Proof.
  unfold strip_dashes.
  rewrite filter_rev, filter_drop_leading_dash, filter_rev, rev_involutive.
  apply filter_drop_leading_dash.
Qed.

Lemma lower_fixed (c : ascii) : is_slug_char c = true \/ c = dash -> lower c = c.
Proof.
  intros [H| ->]; [|reflexivity].
  unfold is_slug_char in H. unfold lower.
  destruct (Nat.leb_spec 65 (nat_of_ascii c)), (Nat.leb_spec (nat_of_ascii c) 90);
    cbn [andb]; try reflexivity.
  exfalso.
  destruct (Nat.leb_spec 97 (nat_of_ascii c)), (Nat.leb_spec (nat_of_ascii c) 122),
    (Nat.leb_spec 48 (nat_of_ascii c)), (Nat.leb_spec (nat_of_ascii c) 57);
    cbn in H; try discriminate H; lia.
Qed.

Lemma dash_runs_fixed (l : list ascii) :
  Forall (fun c => is_slug_char c = true \/ c = dash) l ->
  (forall front rest, l <> (front ++ dash :: dash :: rest)%list) ->
  forall in_run : bool,
    (in_run = true -> forall rest, l <> dash :: rest) ->
    dash_runs in_run l = l.
Proof.
  induction l as [|c l IH]; intros F D in_run S; [reflexivity|].
  inversion F as [|? ? Hc Fl]; subst. cbn [dash_runs].
  pose proof (no_double_dash_tail _ _ D) as Dl.
  destruct (is_slug_char c) eqn:Ec.
  - rewrite (IH Fl Dl false); [reflexivity | discriminate].
  - destruct Hc as [Hc| ->]; [congruence|].
    destruct in_run; [destruct (S eq_refl l eq_refl)|].
    rewrite (IH Fl Dl true); [reflexivity|].
    intros _ rest E. apply (D [] rest). simpl. now rewrite E.
Qed.

Lemma strip_dashes_fixed (l : list ascii) :
  (forall rest, l <> dash :: rest) ->
  (forall front, l <> (front ++ [dash])%list) ->
  strip_dashes l = l.
Proof.
  intros S T. unfold strip_dashes.
  destruct (drop_leading_dash_cases l) as [E|E]; [|destruct (S _ E)].
  rewrite E.
  destruct (drop_leading_dash_cases (rev l)) as [E'|E'].
  - rewrite E'. apply rev_involutive.
  - apply rev_starts in E'. destruct (T _ E').
Qed.

End Slug.

Section SlugProperties.
Import Onboard.

Lemma filter_none (l : list ascii) :
  filter is_slug_char l = [] <-> Forall (fun c => is_slug_char c = false) l.
Proof.
  induction l as [|c l IH]; cbn [filter].
  - split; [constructor | reflexivity].
  - destruct (is_slug_char c) eqn:Ec; split; intro H.
    + discriminate H.
    + inversion H; congruence.
    + constructor; [exact Ec | now apply IH].
    + inversion H. now apply IH.
Qed.

(** X1.  The slug both workflows derive from the project name
    ([name.toLowerCase().replace(/[^a-z0-9]+/g, '-').replace(/^-|-$/g, '')])
    is made of lower-case letters, digits and dashes only, neither starts
    nor ends with a dash and has no two dashes in a row, whatever the
    name; and it is what the validation step hands on as [slug]. *)
Theorem slug_is_well_formed :
  forall name : string,
    let cs := list_ascii_of_string (slugify name) in
    Forall (fun c => is_slug_char c = true \/ c = dash) cs
    /\ (forall rest, cs <> dash :: rest)
    /\ (forall front, cs <> (front ++ [dash])%list)
    /\ (forall front rest, cs <> (front ++ dash :: dash :: rest)%list)
    /\ (forall (h : Host) (inputData : ProjectInput),
          exists t out,
            validateProjectData_execute h inputData = (t, Ok out)
            /\ get "slug" out = VStr (slugify (projectName inputData))).
Proof.
  intros name cs. destruct (slugify_shaped name) as (F & S & T & D).
  repeat split; try assumption.
  intros h inputData. unfold validateProjectData_execute, ret.
  eexists. eexists. split; [reflexivity|].
  rewrite get_extend. reflexivity.
Qed.

(** X2.  For a name of ASCII characters, the slug keeps the letters and
    digits of the name, the letters in lower case, in their order and as
    often as they occur, and adds nothing but dashes; it is empty exactly
    when the name has no letter and no digit.  The letters and digits are
    those of the class [[a-z0-9]] after lower-casing. *)
Theorem slug_keeps_letters_and_digits :
  forall name : string,
    is_ascii name ->
    filter is_slug_char (list_ascii_of_string (slugify name))
    = map lower (filter (fun c => is_slug_char (lower c)) (list_ascii_of_string name))
    /\ filter is_slug_char (list_ascii_of_string (slugify name))
       = filter is_slug_char (list_ascii_of_string (toLowerCase name))
    /\ (slugify name = ""
        <-> Forall (fun c => is_slug_char (lower c) = false) (list_ascii_of_string name)).
Proof.
  intros name _.
  assert (K : filter is_slug_char (list_ascii_of_string (slugify name))
              = filter is_slug_char (list_ascii_of_string (toLowerCase name))).
  { unfold slugify. rewrite list_ascii_of_string_of_list_ascii.
    rewrite filter_strip_dashes. apply filter_dash_runs. }
  assert (L : filter is_slug_char (list_ascii_of_string (toLowerCase name))
              = map lower (filter (fun c => is_slug_char (lower c))
                             (list_ascii_of_string name))).
  { unfold toLowerCase. rewrite list_ascii_of_string_of_list_ascii.
    induction (list_ascii_of_string name) as [|c cs IH]; [reflexivity|].
    cbn [map filter]. destruct (is_slug_char (lower c)); cbn [map]; now rewrite IH. }
  split; [rewrite K; exact L|]. split; [exact K|].
  assert (N : Forall (fun c => is_slug_char (lower c) = false) (list_ascii_of_string name)
              <-> filter is_slug_char (list_ascii_of_string (slugify name)) = []).
  { rewrite K, L. clear K L. induction (list_ascii_of_string name) as [|c cs IH].
    - split; [reflexivity | constructor].
    - cbn [filter]. destruct (is_slug_char (lower c)) eqn:Ec; cbn [map]; split; intro H.
      + inversion H; congruence.
      + discriminate H.
      + inversion H; subst. apply (proj1 IH). assumption.
      + constructor; [exact Ec | exact (proj2 IH H)]. }
  rewrite N. split.
  - intros ->. reflexivity.
  - intro E. destruct (slugify_shaped name) as (F & S & _ & _).
    rewrite <- (string_of_list_ascii_of_string (slugify name)).
    destruct (list_ascii_of_string (slugify name)) as [|c cs]; [reflexivity|].
    exfalso. inversion F as [|? ? [Hc| ->] _]; subst.
    + cbn [filter] in E. rewrite Hc in E. discriminate E.
    + exact (S cs eq_refl).
Qed.

(** X3.  Making the slug of a slug changes nothing: lower-casing leaves its
    characters as they are, every dash in it is a run of its own, and
    there is no dash to take off either end. *)
Theorem slug_is_idempotent :
  forall name : string, slugify (slugify name) = slugify name.
Proof.
  intro name. destruct (slugify_shaped name) as (F & S & T & D).
  set (s := slugify name) in *. unfold slugify at 1, toLowerCase.
  rewrite list_ascii_of_string_of_list_ascii.
  assert (L : map lower (list_ascii_of_string s) = list_ascii_of_string s).
  { clear S T D. induction F as [|c l Hc F IH]; [reflexivity|].
    cbn [map]. rewrite IH, (lower_fixed c Hc). reflexivity. }
  rewrite L, (dash_runs_fixed _ F D false) by discriminate.
  rewrite (strip_dashes_fixed _ S T).
  apply string_of_list_ascii_of_string.
Qed.

End SlugProperties.

(* ===================================================================== *)
(** ** The search step and its helpers *)
(* ===================================================================== *)

Section SearchCalls.
Import Research.

(** X4.  Each search helper catches its own failure: it returns one hit that
    names the query when its log line is written, and no hit, after
    reporting the failure on the error console, when writing the line
    throws.  It never throws itself. *)
Theorem search_helpers_never_throw :
  forall (h : Host) (query : string),
    (exists t res,
        searchGoogleDrive h query = (t, Ok res)
        /\ List.length res <= 1
        /\ (forall u, console_log h ("Searching Google Drive for: " ++ query) = Ok u ->
              res = [VObj [("id", VStr "1"); ("name", VStr ("Document about " ++ query));
                           ("type", VStr "document")]])
        /\ (forall e, console_log h ("Searching Google Drive for: " ++ query) = Throw e ->
              res = [] /\ In (EvError "Google Drive search failed:") t))
    /\ (exists t res,
          searchGitHub h query = (t, Ok res)
          /\ List.length res <= 1
          /\ (forall u, console_log h ("Searching GitHub for: " ++ query) = Ok u ->
                res = [VObj [("id", VStr "1");
                             ("name", VStr ("Repository related to " ++ query));
                             ("type", VStr "repository")]])
          /\ (forall e, console_log h ("Searching GitHub for: " ++ query) = Throw e ->
                res = [] /\ In (EvError "GitHub search failed:") t))
    /\ (exists t res,
          searchSlack h query = (t, Ok res)
          /\ List.length res <= 1
          /\ (forall u, console_log h ("Searching Slack for: " ++ query) = Ok u ->
                res = [VObj [("id", VStr "1"); ("text", VStr ("Message about " ++ query));
                             ("channel", VStr "general")]])
          /\ (forall e, console_log h ("Searching Slack for: " ++ query) = Throw e ->
                res = [] /\ In (EvError "Slack search failed:") t)).
Proof.
  intros h query.
  unfold searchGoogleDrive, searchGitHub, searchSlack, log, log_error, lift, emit.
  split; [|split];
    (destruct (console_log h _) as [[]|e] eqn:E; cbn -[String.append];
     eexists; eexists; (split; [reflexivity|]);
     (split; [cbn; lia|]); split; intros; try discriminate;
     try reflexivity; (split; [reflexivity | cbn; auto])).
Qed.

(** X5.  The step calls a search helper once when its platform is among the
    requested ones, however often it is named there, and not at all
    otherwise: an empty platform list searches nothing, a missing one
    searches all three. *)
Theorem search_calls_each_helper_at_most_once :
  forall (h : Host) (inputData : SearchInput),
    let t := fst (searchDocumentsStep_execute h inputData) in
    calls "searchGoogleDrive" t
    = (if includes (platforms_of inputData) "google-drive" then 1 else 0)
    /\ calls "searchGitHub" t
       = (if includes (platforms_of inputData) "github" then 1 else 0)
    /\ calls "searchSlack" t
       = (if includes (platforms_of inputData) "slack" then 1 else 0)
    /\ (si_platforms inputData = None ->
        calls "searchGoogleDrive" t = 1 /\ calls "searchGitHub" t = 1
        /\ calls "searchSlack" t = 1)
    /\ (si_platforms inputData = Some [] ->
        calls "searchGoogleDrive" t = 0 /\ calls "searchGitHub" t = 0
        /\ calls "searchSlack" t = 0).
Proof.
  intros h inputData t.
  assert (K : calls "searchGoogleDrive" t
              = (if includes (platforms_of inputData) "google-drive" then 1 else 0)
              /\ calls "searchGitHub" t
                 = (if includes (platforms_of inputData) "github" then 1 else 0)
              /\ calls "searchSlack" t
                 = (if includes (platforms_of inputData) "slack" then 1 else 0)).
  { subst t.
    unfold searchDocumentsStep_execute, search_with, launch_all, launch,
      searchGoogleDrive, searchGitHub, searchSlack, log, log_error, lift, write, emit.
    generalize (initial_results inputData) as results.
    generalize (si_query inputData) as query.
    generalize (platforms_of inputData) as platforms.
    intros platforms query results.
    destruct (includes platforms "google-drive"), (includes platforms "github"),
      (includes platforms "slack");
      cbn -[String.append count_total handler];
      repeat match goal with
             | |- context [console_log h ?m] =>
                 destruct (console_log h m) as [[]|?]; cbn -[String.append count_total handler]
             end;
      unfold handler, write, emit; cbn -[String.append count_total assign];
      repeat split. }
  destruct K as (K1 & K2 & K3). repeat split; try assumption;
    unfold platforms_of in K1, K2, K3; rewrite H in *; assumption.
Qed.

(** X6.  What the step hands on depends on which of the three platforms are
    requested, not on the order or the number of times they are named. *)
Theorem search_depends_on_platform_set :
  forall (h : Host) (inputData inputData' : SearchInput),
    si_query inputData = si_query inputData' ->
    si_requireApproval inputData = si_requireApproval inputData' ->
    si_publishChannels inputData = si_publishChannels inputData' ->
    (forall name, In name platformNames ->
       includes (platforms_of inputData) name = includes (platforms_of inputData') name) ->
    snd (searchDocumentsStep_execute h inputData)
    = snd (searchDocumentsStep_execute h inputData').
Proof.
  intros h i i' Hq Hr Hc Hp.
  destruct (search_with_returns (fun searchPromises => searchPromises) h i) as (t & E & _).
  destruct (search_with_returns (fun searchPromises => searchPromises) h i') as (t' & E' & _).
  unfold searchDocumentsStep_execute. rewrite E, E'. cbn [snd].
  unfold launched, initial_results.
  rewrite (Hp "google-drive"), (Hp "github"), (Hp "slack"), Hq, Hr, Hc
    by (cbn; auto).
  reflexivity.
Qed.

(** X7.  Whatever input the search step's contract accepts, the step returns,
    and the analysis step's contract accepts what it returns, with the
    query, the approval flag and the channels unchanged.  An input that
    says nothing about approval asks for it. *)
Theorem search_output_feeds_analysis :
  forall (h : Host) (raw : JSObject) (inputData : SearchInput),
    searchInputSchema h raw = Some inputData ->
    exists t out analyzeInput,
      searchDocumentsStep_execute h inputData = (t, Ok out)
      /\ analyzeInputSchema h out = Some analyzeInput
      /\ get "query" raw = VStr (ai_query analyzeInput)
      /\ ai_query analyzeInput = si_query inputData
      /\ ai_requireApproval analyzeInput = si_requireApproval inputData
      /\ ai_publishChannels analyzeInput = si_publishChannels inputData
      /\ get "totalResults" out = VNum (ai_totalResults analyzeInput)
      /\ (get "requireApproval" raw = VUndefined ->
          ai_requireApproval analyzeInput = true).
Proof.
  intros h raw i H.
  destruct (searchInputSchema_reads h raw i H) as (Hv & _).
  destruct (search_with_returns (fun searchPromises => searchPromises) h i) as (t & E & _).
  destruct (analyze_contract_after_search h i Hv) as (i2 & E2 & Hq & Hr & Hc).
  exists t. eexists. exists i2. split; [exact E|]. split; [exact E2|].
  assert (Hraw : get "query" raw = VStr (si_query i)
                 /\ (get "requireApproval" raw = VUndefined -> si_requireApproval i = true)).
  { revert H. unfold searchInputSchema, obind.
    destruct (get "query" raw) as [ | | | |q| | ]; try discriminate. cbn [z_string].
    destruct (z_optional _ (get "platforms" raw)); [|discriminate].
    destruct (z_default z_boolean (VBool true) (get "requireApproval" raw)) as [ra|] eqn:Era;
      [|discriminate].
    destruct (publishChannelsSchema (get "publishChannels" raw)); [|discriminate].
    intro H. injection H as <-. cbn. split; [reflexivity|].
    intro Hu. rewrite Hu in Era. cbn in Era. congruence. }
  destruct Hraw as (Hq' & Hd).
  repeat split; try assumption.
  - now rewrite Hq.
  - revert E2. unfold analyzeInputSchema, obind.
    destruct (z_optional (z_array z_any) _); [|discriminate].
    destruct (z_optional (z_array z_any) _); [|discriminate].
    destruct (z_optional (z_array z_any) _); [|discriminate].
    destruct (get "totalResults" _) as [ | | |n| | | ]; try discriminate. cbn [z_number].
    destruct (z_string _); [|discriminate].
    destruct (z_boolean _); [|discriminate].
    destruct (publishChannelsSchema _); [|discriminate].
    intro E2. injection E2 as <-. reflexivity.
  - intro Hu. rewrite Hr. exact (Hd Hu).
Qed.

End SearchCalls.

(* ===================================================================== *)
(** ** The analysis step *)
(* ===================================================================== *)

Section AnalysisProperties.
Import Research.

(** X8.  The analysis step asks the completion service once, with the prompt
    it built, and throws exactly when that call throws, with the call's
    error: nothing else in its body can fail. *)
Theorem analysis_fails_only_with_the_completion :
  forall (h : Host) (inputData : AnalyzeInput),
    calls "generateText" (fst (analyzeResultsStep_execute h inputData)) = 1
    /\ In (EvCall "generateText" [VStr (prompt_of h inputData)])
          (fst (analyzeResultsStep_execute h inputData))
    /\ (forall e,
          snd (analyzeResultsStep_execute h inputData) = Throw e
          <-> generateText h (prompt_of h inputData) = Throw e).
Proof.
  intros h i. rewrite analyze_unfold.
  unfold generate_text, write, lift, emit, bind at 1 2 3.
  cbn -[extend own_props prompt_of].
  destruct (generateText h (prompt_of h i)) as [text|e0]; cbn -[extend own_props prompt_of].
  - destruct (JSON_parse h text) as [analysis|e1]; cbn -[extend own_props prompt_of];
      (split; [reflexivity|]); (split; [auto|]); intro e; split; discriminate.
  - split; [reflexivity|]. split; [auto|]. intro e. split; intro H; congruence.
Qed.

(** X9.  When the answer parses, every key of the parsed value other than
    [query], [requireApproval] and [publishChannels] is handed on as the
    model gave it, unchecked; those three are the step's own input. *)
Theorem analysis_passes_on_the_parsed_answer :
  forall (h : Host) (inputData : AnalyzeInput) (text : string) (analysis : JSValue),
    generateText h (prompt_of h inputData) = Ok text ->
    JSON_parse h text = Ok analysis ->
    exists t out,
      analyzeResultsStep_execute h inputData = (t, Ok out)
      /\ get "query" out = VStr (ai_query inputData)
      /\ get "requireApproval" out = VBool (ai_requireApproval inputData)
      /\ get "publishChannels" out = of_opt strings (ai_publishChannels inputData)
      /\ (forall k, k <> "query" -> k <> "requireApproval" -> k <> "publishChannels" ->
            get k out = get k (own_props analysis))
      /\ In (EvWrite [("type", VStr "analysis-status"); ("status", VStr "complete")]) t.
Proof.
  intros h i text analysis Hg Hp. rewrite analyze_unfold.
  unfold generate_text, write, lift, emit, bind at 1 2 3.
  cbn -[extend own_props prompt_of]. rewrite Hg. cbn -[extend own_props prompt_of].
  rewrite Hp. cbn -[extend own_props prompt_of].
  eexists. eexists. split; [reflexivity|].
  rewrite !get_extend. repeat split; [|cbn; auto].
  intros k H1 H2 H3. rewrite get_extend. cbn [get_last].
  apply String.eqb_neq in H1, H2, H3. rewrite H1, H2, H3. reflexivity.
Qed.

(** X10.  The step reads of its input the query, the approval flag, the
    channels and the first five results of each platform: a results list
    that is missing is read as empty, results after the fifth and the
    [totalResults] count change nothing of what the step does. *)
Theorem analysis_reads_first_five_results :
  forall (h : Host) (inputData inputData' : AnalyzeInput),
    ai_query inputData = ai_query inputData' ->
    ai_requireApproval inputData = ai_requireApproval inputData' ->
    ai_publishChannels inputData = ai_publishChannels inputData' ->
    firstn 5 (or_empty (ai_googleDriveResults inputData))
    = firstn 5 (or_empty (ai_googleDriveResults inputData')) ->
    firstn 5 (or_empty (ai_githubResults inputData))
    = firstn 5 (or_empty (ai_githubResults inputData')) ->
    firstn 5 (or_empty (ai_slackResults inputData))
    = firstn 5 (or_empty (ai_slackResults inputData')) ->
    analyzeResultsStep_execute h inputData = analyzeResultsStep_execute h inputData'.
Proof.
  intros h i i' Hq Hr Hc Hd Hg Hs.
  assert (Hp : prompt_of h i = prompt_of h i').
  { unfold prompt_of, analysis_prompt. rewrite Hq, Hd, Hg, Hs. reflexivity. }
  rewrite !analyze_unfold, Hp. unfold fallback_analysis. rewrite Hq, Hr, Hc.
  reflexivity.
Qed.

(** X11.  What the analysis step returns for a usable answer passes the
    report step's contract, and the report passes the approval
    contract: title and format are the report step's own, the approval
    flag and the channels are those the analysis step was given, and the
    guard of the approval branch reads that same flag off the report. *)
Theorem analysis_output_feeds_the_report :
  forall (h : Host) (raw : JSObject) (inputData : AnalyzeInput) (text : string),
    analyzeInputSchema h raw = Some inputData ->
    generateText h (prompt_of h inputData) = Ok text ->
    usable_text h text ->
    exists t out reportInput report approvalInput,
      analyzeResultsStep_execute h inputData = (t, Ok out)
      /\ reportInputSchema h out = Some reportInput
      /\ createReportStep_execute h reportInput = ([], Ok report)
      /\ approvalInputSchema h report = Some approvalInput
      /\ ap_reportTitle approvalInput = "Research Report: " ++ ai_query inputData
      /\ ap_reportFormat approvalInput = "markdown"
      /\ ap_requireApproval approvalInput = ai_requireApproval inputData
      /\ ap_publishChannels approvalInput = ai_publishChannels inputData
      /\ approval_required report = ai_requireApproval inputData
      /\ approval_not_required report = negb (ai_requireApproval inputData).
Proof.
  intros h raw i2 text H Hg Hu.
  assert (Hv : valid_channels (ai_publishChannels i2)).
  { revert H. unfold analyzeInputSchema, obind.
    destruct (z_optional (z_array z_any) _); [|discriminate].
    destruct (z_optional (z_array z_any) _); [|discriminate].
    destruct (z_optional (z_array z_any) _); [|discriminate].
    destruct (z_number _); [|discriminate].
    destruct (z_string _); [|discriminate].
    destruct (z_boolean _); [|discriminate].
    destruct (publishChannelsSchema (get "publishChannels" raw)) as [pc|] eqn:Epc;
      [|discriminate].
    intro H. injection H as <-. exact (publishChannels_back _ _ Epc). }
  destruct (analyze_returns_usable h i2 text Hg Hu Hv)
    as (t & out & i3 & E & _ & E3 & Hq & Hr & Hc).
  rewrite <- Hc in Hv.
  exists t, out, i3. eexists. eexists.
  split; [exact E|]. split; [exact E3|].
  split; [apply createReport_returns|].
  split; [exact (approval_contract h _ _ _ _ Hv)|].
  cbn [ap_reportTitle ap_reportFormat ap_requireApproval ap_publishChannels].
  unfold report_title, approval_required, approval_not_required.
  cbn [get String.eqb Ascii.eqb Bool.eqb is_true].
  rewrite Hq, Hr, Hc. repeat split; destruct (ai_requireApproval i2); reflexivity.
Qed.

End AnalysisProperties.

(* ===================================================================== *)
(** ** Template literals and [trim] *)
(* ===================================================================== *)

Section Templates.

Lemma chars_app (a b : string) :
  list_ascii_of_string (a ++ b)
  = (list_ascii_of_string a ++ list_ascii_of_string b)%list.
Proof. induction a as [|c a IH]; cbn; [reflexivity | now rewrite IH]. Qed.

Lemma append_associative (a b c : string) : (a ++ b) ++ c = a ++ b ++ c.
Proof. induction a as [|x a IH]; cbn; [reflexivity | now rewrite IH]. Qed.

Lemma lines_cons (x y : string) (rest : list string) :
  lines (x :: y :: rest) = x ++ nl ++ lines (y :: rest).
Proof. reflexivity. Qed.

Lemma lines_snoc (ls : list string) (last : string) :
  ls <> [] -> lines (ls ++ [last]) = lines ls ++ nl ++ last.
Proof.
  induction ls as [|x ls IH]; intro N; [congruence|].
  destruct ls as [|y ls]; [reflexivity|].
  change ((x :: y :: ls) ++ [last])%list with (x :: y :: (ls ++ [last])%list).
  rewrite !lines_cons.
  change (y :: (ls ++ [last])%list) with ((y :: ls) ++ [last])%list.
  rewrite IH by discriminate.
  rewrite <- !append_associative. reflexivity.
Qed.

Lemma ltrim_spaces (spaces rest : list ascii) :
  Forall (fun c => is_space c = true) spaces ->
  ltrim (spaces ++ rest) = ltrim rest.
Proof.
  induction 1 as [|c spaces Hc _ IH]; [reflexivity|].
  cbn [app ltrim]. now rewrite Hc.
Qed.

Lemma ltrim_stops (c : ascii) (rest : list ascii) :
  is_space c = false -> ltrim (c :: rest) = c :: rest.
Proof. intro H. cbn [ltrim]. now rewrite H. Qed.

(** [trim] takes the white space off both ends of a text whose first and
    last characters in between are not white space. *)
Lemma trim_between (before after : list ascii) (first last : ascii) (inner : list ascii) :
  Forall (fun c => is_space c = true) before ->
  Forall (fun c => is_space c = true) after ->
  is_space first = false -> is_space last = false ->
  trim (string_of_list_ascii (before ++ (first :: inner ++ [last]) ++ after)%list)
  = string_of_list_ascii (first :: inner ++ [last]).
Proof.
  intros Hb Ha Hf Hl. unfold trim. rewrite list_ascii_of_string_of_list_ascii.
  rewrite (ltrim_spaces before _ Hb).
  cbn [app]. rewrite (ltrim_stops first _ Hf).
  change (first :: ((inner ++ [last]) ++ after)%list)
    with ((first :: inner ++ [last]) ++ after)%list.
  rewrite rev_app_distr.
  rewrite (ltrim_spaces (rev after)) by (apply Forall_rev; exact Ha).
  change (first :: inner ++ [last])%list with ((first :: inner) ++ [last])%list.
  rewrite rev_app_distr. cbn [rev app]. rewrite (ltrim_stops last _ Hl).
  change (last :: (rev inner ++ [first])%list) with ([last] ++ rev (first :: inner))%list.
  rewrite rev_app_distr, rev_involutive. reflexivity.
Qed.

(** The characters of a template that ends in a line ending in [last]. *)
Lemma lines_end (ls : list string) (front : string) (last : ascii) :
  exists inner,
    list_ascii_of_string (lines (ls ++ [front ++ String last EmptyString]))
    = (inner ++ [last])%list.
Proof.
  destruct ls as [|x ls].
  - exists (list_ascii_of_string front). cbn [app]. unfold lines, JS.join. cbn [concat].
    now rewrite chars_app.
  - rewrite lines_snoc by discriminate.
    exists (list_ascii_of_string (lines (x :: ls) ++ nl ++ front)).
    rewrite <- !append_associative, (chars_app _ (String last EmptyString)).
    rewrite !append_associative. reflexivity.
Qed.

(** A template literal that opens with a line break, closes with a line
    of blanks and whose first and last lines in between start and end
    with something else, is its lines in between once trimmed. *)
Lemma trim_template (first : ascii) (first_rest : string) (middle : list string)
    (last_front : string) (last : ascii) (blanks : string) :
  is_space first = false -> is_space last = false ->
  Forall (fun c => is_space c = true) (list_ascii_of_string blanks) ->
  let body :=
    (String first first_rest
       :: middle ++ [(last_front ++ String last EmptyString)%string])%list in
  trim (lines ("" :: body ++ [blanks])) = lines body.
Proof.
  intros Hf Hl Hb body.
  assert (E : exists inner,
             list_ascii_of_string (lines body) = (first :: inner ++ [last])%list).
  { subst body. destruct (lines_end middle last_front last) as (inner & Ei).
    destruct (middle ++ [(last_front ++ String last EmptyString)%string])%list
      as [|y ys] eqn:Em.
    - destruct middle; discriminate Em.
    - rewrite lines_cons. cbn [append list_ascii_of_string].
      rewrite !chars_app, Ei.
      exists (list_ascii_of_string first_rest ++ list_ascii_of_string nl ++ inner)%list.
      rewrite <- !app_assoc. reflexivity. }
  destruct E as (inner & E).
  assert (F : lines ("" :: body ++ [blanks])
              = string_of_list_ascii
                  ([ascii_of_nat 10] ++ (first :: inner ++ [last])
                   ++ ascii_of_nat 10 :: list_ascii_of_string blanks)%list).
  { rewrite <- E.
    change ("" :: body ++ [blanks])%list with ("" :: (body ++ [blanks]))%list.
    assert (N : (body ++ [blanks])%list <> []) by (subst body; discriminate).
    destruct (body ++ [blanks])%list as [|y ys] eqn:Eb; [congruence|].
    rewrite lines_cons, <- Eb, lines_snoc by (subst body; discriminate).
    rewrite <- (string_of_list_ascii_of_string (_ ++ _)).
    rewrite !chars_app. reflexivity. }
  rewrite F, trim_between.
  - rewrite <- E. apply string_of_list_ascii_of_string.
  - repeat constructor.
  - constructor; [reflexivity | exact Hb].
  - exact Hf.
  - exact Hl.
Qed.

End Templates.

Section ReportProperties.
Import Research.

(** X12.  The report step never fails and leaves no trace; its title is the
    query under a fixed heading, its format is always markdown, and, for a
    score that is a whole number a JavaScript number holds exactly, its
    content is the template without the line break it opens with and the
    indentation it closes with: it starts with the title line and ends
    with the closing note, whatever the summary, the findings and the
    recommendations hold. *)
Theorem report_is_the_trimmed_template :
  forall (h : Host) (inputData : ReportInput),
    safe_integer (ri_relevanceScore inputData) ->
    exists out,
      createReportStep_execute h inputData = ([], Ok out)
      /\ get "reportTitle" out = VStr ("Research Report: " ++ ri_query inputData)
      /\ get "reportFormat" out = VStr "markdown"
      /\ get "requireApproval" out = VBool (ri_requireApproval inputData)
      /\ get "publishChannels" out = of_opt strings (ri_publishChannels inputData)
      /\ get "reportContent" out
         = VStr (lines [
             "# Research Report: " ++ ri_query inputData;
             "";
             "**Generated on:** " ++ Date_toLocaleString h;
             "**Relevance Score:** " ++ Z_to_string (ri_relevanceScore inputData) ++ "/100";
             "";
             "## Executive Summary";
             ri_summary inputData;
             "";
             "## Key Findings";
             JS.join nl (map (fun finding => "- " ++ finding) (ri_keyFindings inputData));
             "";
             "## Recommendations";
             JS.join nl (mapi_from (fun rec i => nat_to_string (i + 1) ++ ". " ++ rec) 0
                           (ri_recommendations inputData));
             "";
             "---";
             "*This report was automatically generated by the Smart Document Research Workflow*"
           ]).
Proof.
  intros h i _. rewrite createReport_returns. eexists. split; [reflexivity|].
  repeat split. cbn [get String.eqb Ascii.eqb Bool.eqb]. f_equal.
  unfold report_content, report_title.
  exact (trim_template "#" (" Research Report: " ++ ri_query i)
           [""; "**Generated on:** " ++ Date_toLocaleString h;
            "**Relevance Score:** " ++ Z_to_string (ri_relevanceScore i) ++ "/100";
            ""; "## Executive Summary"; ri_summary i; ""; "## Key Findings";
            JS.join nl (map (fun finding => "- " ++ finding) (ri_keyFindings i));
            ""; "## Recommendations";
            JS.join nl (mapi_from (fun rec i => nat_to_string (i + 1) ++ ". " ++ rec) 0
                          (ri_recommendations i));
            ""; "---"]
           "*This report was automatically generated by the Smart Document Research Workflow"
           "*" "    " eq_refl eq_refl ltac:(repeat constructor)).
Qed.

End ReportProperties.

(* ===================================================================== *)
(** ** From the approval branch to the publish step *)
(* ===================================================================== *)

Section BranchProperties.
Import Research.

(** X13.  A record with neither branch key passes the normalize step's
    contract, and the body then throws "No branch result found"; with a
    result under [human-approval] the step hands that one on, whatever
    sits under [auto-approve], and it hands on no feedback. *)
Theorem normalize_needs_a_branch_result :
  forall (h : Host),
    (forall raw : JSObject,
        get "human-approval" raw = VUndefined ->
        get "auto-approve" raw = VUndefined ->
        exists inputData,
          normalizeInputSchema h raw = Some inputData
          /\ normalizeBranchOutputStep_execute h inputData
             = ([], Throw (Error "No branch result found")))
    /\ (forall (inputData : NormalizeInput) (e : JSError),
          snd (normalizeBranchOutputStep_execute h inputData) = Throw e ->
          ni_human_approval inputData = None /\ ni_auto_approve inputData = None)
    /\ (forall (inputData : NormalizeInput) (human : BranchResult),
          ni_human_approval inputData = Some human ->
          normalizeBranchOutputStep_execute h inputData
          = ([], Ok [("approved", VBool (br_approved human));
                     ("reportTitle", VStr (br_reportTitle human));
                     ("reportContent", VStr (br_reportContent human));
                     ("publishChannels", of_opt strings (br_publishChannels human))])).
Proof.
  intro h. split; [|split].
  - intros raw Hh Ha. unfold normalizeInputSchema. rewrite Hh, Ha.
    eexists. split; reflexivity.
  - intros [[human|] [auto|]] e; cbn; intro H; try discriminate H. split; reflexivity.
  - intros [human' auto] human. cbn [ni_human_approval]. intros ->. reflexivity.
Qed.

(** X14.  Whatever the approval contract accepts, the result of either branch,
    filed under the branch step's id, passes the normalize step's
    contract, and what the normalize step returns passes the publish
    step's: an auto-approved report arrives approved, a resumed one as
    the reviewer decided and with the reviewer's text when one was given;
    title and channels arrive unchanged. *)
Theorem branch_results_reach_publish :
  forall (h : Host) (raw : JSObject) (inputData : ApprovalInput),
    approvalInputSchema h raw = Some inputData ->
    (exists out normalizeInput out',
        autoApproveStep_execute h inputData = ([], Ok out)
        /\ normalizeInputSchema h [("auto-approve", VObj out)] = Some normalizeInput
        /\ normalizeBranchOutputStep_execute h normalizeInput = ([], Ok out')
        /\ publishInputSchema h out'
           = Some {| pi_approved := true;
                     pi_reportTitle := ap_reportTitle inputData;
                     pi_reportContent := ap_reportContent inputData;
                     pi_publishChannels := ap_publishChannels inputData |})
    /\ (forall resumeData : ResumeData,
          exists t out normalizeInput out',
            approvalStep_execute h inputData (Some resumeData) = (t, Ok out)
            /\ normalizeInputSchema h [("human-approval", VObj out)] = Some normalizeInput
            /\ normalizeBranchOutputStep_execute h normalizeInput = ([], Ok out')
            /\ has "feedback" out' = false
            /\ publishInputSchema h out'
               = Some {| pi_approved := rd_approved resumeData;
                         pi_reportTitle := ap_reportTitle inputData;
                         pi_reportContent :=
                           opt_str_or (rd_modifiedContent resumeData)
                             (ap_reportContent inputData);
                         pi_publishChannels := ap_publishChannels inputData |}).
Proof.
  intros h raw i H.
  assert (Hv : valid_channels (ap_publishChannels i)).
  { revert H. unfold approvalInputSchema, obind.
    destruct (z_string (get "reportTitle" raw)); [|discriminate].
    destruct (z_string (get "reportContent" raw)); [|discriminate].
    destruct (z_enum reportFormats (get "reportFormat" raw)); [|discriminate].
    destruct (z_boolean (get "requireApproval" raw)); [|discriminate].
    destruct (publishChannelsSchema (get "publishChannels" raw)) as [pc|] eqn:Epc;
      [|discriminate].
    intro H. injection H as <-. exact (publishChannels_back _ _ Epc). }
  split.
  - eexists. eexists. eexists. split; [reflexivity|].
    split; [exact (normalize_contract_auto h true _ _ _ Hv)|].
    split; [reflexivity|]. exact (publish_contract h true _ _ _ Hv).
  - intro rd. eexists. eexists. eexists. eexists. split; [reflexivity|].
    split; [exact (normalize_contract_human h _ _ _ _ _ Hv)|].
    split; [reflexivity|]. split; [reflexivity|].
    exact (publish_contract h _ _ _ _ Hv).
Qed.

End BranchProperties.

(* ===================================================================== *)
(** ** The publish step *)
(* ===================================================================== *)

Section PublishProperties.
Import Research.

Variable h : Host.
Variables reportTitle reportContent : string.

(** One turn of the loop: the channel is pushed when its helper ran to
    its end, the address too when the channel is Google Drive; a helper
    that throws is caught and leaves both lists as they were. *)
Lemma publish_channel_turn (publishedChannels urls : list string) (channel : string) :
  let address :=
    "https://docs.google.com/document/d/example-" ++ Z_to_string (Date_now h) in
  exists t,
    publish_channel h reportTitle reportContent (publishedChannels, urls) channel
    = (t, Ok (if delivered h reportTitle channel
              then ((publishedChannels ++ [channel])%list,
                    if String.eqb channel "google-drive" then (urls ++ [address])%list
                    else urls)
              else (publishedChannels, urls)))
    /\ calls "createGoogleDoc" t = (if String.eqb channel "google-drive" then 1 else 0).
Proof.
  intro address. subst address.
  unfold publish_channel, delivered, announcement, createGoogleDoc, postToSlack,
    sendEmail, log, lift, write, emit.
  destruct (String.eqb_spec channel "google-drive") as [->|N1].
  { cbn -[String.append].
    destruct (console_log h _) as [[]|e]; cbn -[String.append];
      eexists; split; reflexivity. }
  destruct (String.eqb_spec channel "slack") as [->|N2].
  { cbn -[String.append].
    destruct (console_log h _) as [[]|e]; cbn -[String.append];
      eexists; split; reflexivity. }
  destruct (String.eqb_spec channel "email") as [->|N3].
  { cbn -[String.append].
    destruct (console_log h _) as [[]|e]; cbn -[String.append];
      eexists; split; reflexivity. }
  cbn -[String.append]. eexists; split; reflexivity.
Qed.

Lemma calls_app (fn : string) (t1 t2 : Trace) :
  calls fn (t1 ++ t2)%list = calls fn t1 + calls fn t2.
Proof. unfold calls. now rewrite filter_app, length_app. Qed.

Lemma publish_loop (channels : list string) :
  let address :=
    "https://docs.google.com/document/d/example-" ++ Z_to_string (Date_now h) in
  forall publishedChannels urls : list string,
  exists t,
    for_of channels (publish_channel h reportTitle reportContent) (publishedChannels, urls)
    = (t, Ok ((publishedChannels ++ filter (delivered h reportTitle) channels)%list,
              (urls
               ++ map (fun _ => address)
                    (filter (fun channel => String.eqb channel "google-drive")
                       (filter (delivered h reportTitle) channels)))%list))
    /\ calls "createGoogleDoc" t
       = List.length (filter (fun channel => String.eqb channel "google-drive") channels).
Proof.
  intro address.
  induction channels as [|channel channels IH]; intros publishedChannels urls.
  - exists []. cbn. rewrite !app_nil_r. split; reflexivity.
  - cbn [for_of filter].
    destruct (publish_channel_turn publishedChannels urls channel) as (t1 & E1 & C1).
    fold address in E1. rewrite E1.
    destruct (delivered h reportTitle channel).
    + destruct (IH (publishedChannels ++ [channel])%list
                  (if String.eqb channel "google-drive" then (urls ++ [address])%list else urls))
        as (t2 & E2 & C2).
      cbn [bind]. rewrite E2. eexists. cbn [filter map]. split.
      * destruct (String.eqb channel "google-drive"); cbn [map];
          rewrite <- ?app_assoc; reflexivity.
      * rewrite calls_app, C1, C2.
        destruct (String.eqb channel "google-drive"); reflexivity.
    + destruct (IH publishedChannels urls) as (t2 & E2 & C2).
      cbn [bind]. rewrite E2. eexists. split; [reflexivity|].
      rewrite calls_app, C1, C2.
      destruct (String.eqb channel "google-drive"); reflexivity.
Qed.

End PublishProperties.

Section PublishTheorem.
Import Research.

(** X15.  The publish step never throws.  A report that is not approved is
    bailed out with nothing published and no publish helper entered.  For
    an approved one the step reports the requested channels whose helper
    ran to its end, in the order and as often as they were requested, and
    one document address for each Google Drive among them; [published] is
    true exactly when there is such a channel: a channel whose helper
    throws is left out and the others are still served, a missing channel
    list means Google Drive, an empty one publishes nothing. *)
Theorem publish_reports_what_was_delivered :
  forall (h : Host) (inputData : PublishInput),
    exists t out,
      publishReportStep_execute h inputData = (t, Ok out)
      /\ (pi_approved inputData = false ->
          t = [EvBail out]
          /\ out = [("published", VBool false);
                    ("publishedChannels", VArr []);
                    ("urls", VArr []);
                    ("reportTitle", VStr (pi_reportTitle inputData));
                    ("message", VStr "Report was not approved for publication")])
      /\ (pi_approved inputData = true ->
          let channels :=
            match pi_publishChannels inputData with
            | Some channels => channels
            | None => ["google-drive"]
            end in
          let publishedChannels :=
            filter (delivered h (pi_reportTitle inputData)) channels in
          exists urls : list string,
            out = [("published", VBool (Nat.ltb 0 (List.length publishedChannels)));
                   ("publishedChannels", strings publishedChannels);
                   ("urls", strings urls);
                   ("reportTitle", VStr (pi_reportTitle inputData));
                   ("message",
                    VStr (if Nat.ltb 0 (List.length publishedChannels)
                          then "Report published to " ++ JS.join ", " publishedChannels
                          else "Report was not published to any channels"))]
            /\ List.length urls
               = List.length (filter (fun channel => String.eqb channel "google-drive")
                                publishedChannels)
            /\ Forall (fun url =>
                         exists stamp,
                           url = "https://docs.google.com/document/d/example-" ++ stamp)
                 urls
            /\ calls "createGoogleDoc" t
               = List.length (filter (fun channel => String.eqb channel "google-drive")
                                channels)).
Proof.
  intros h i. unfold publishReportStep_execute.
  destruct (pi_approved i).
  - cbn [negb].
    destruct (publish_loop h (pi_reportTitle i) (pi_reportContent i)
                match pi_publishChannels i with
                | Some channels => channels
                | None => ["google-drive"]
                end [] []) as (t & E & C).
    rewrite E. cbn [bind ret app fst snd].
    eexists. eexists. split; [reflexivity|]. split; [discriminate|].
    intros _. eexists. split; [reflexivity|]. split; [apply length_map|]. split.
    + apply Forall_forall. intros url Hin. apply in_map_iff in Hin.
      destruct Hin as (channel & <- & _). eexists. reflexivity.
    + rewrite app_nil_r. exact C.
  - cbn [negb]. eexists. eexists. split; [reflexivity|]. split; [|discriminate].
    intros _. split; reflexivity.
Qed.

(** X16.  The last node of the workflow maps what the publish step returns
    to the run's result: for an approved report, [success] is true
    exactly when a channel was served, the title, the served channels and
    the message are passed on, and the addresses are not. *)
Theorem final_record_reports_delivery :
  forall (h : Host) (inputData : PublishInput),
    pi_approved inputData = true ->
    let channels :=
      match pi_publishChannels inputData with
      | Some channels => channels
      | None => ["google-drive"]
      end in
    let publishedChannels := filter (delivered h (pi_reportTitle inputData)) channels in
    exists t out,
      publishReportStep_execute h inputData = (t, Ok out)
      /\ final_output out
         = [("success", VBool (Nat.ltb 0 (List.length publishedChannels)));
            ("reportTitle", VStr (pi_reportTitle inputData));
            ("publishedChannels", strings publishedChannels);
            ("message",
             VStr (if Nat.ltb 0 (List.length publishedChannels)
                   then "Report published to " ++ JS.join ", " publishedChannels
                   else "Report was not published to any channels"))]
      /\ (get "success" (final_output out) = VBool true
          <-> exists channel,
                In channel channels /\ delivered h (pi_reportTitle inputData) channel = true).
Proof.
  intros h i Ha channels publishedChannels. unfold publishReportStep_execute.
  rewrite Ha. cbn [negb].
  destruct (publish_loop h (pi_reportTitle i) (pi_reportContent i) channels [] [])
    as (t & E & _).
  fold channels. rewrite E. cbn [bind ret app fst snd].
  eexists. eexists. split; [reflexivity|]. fold publishedChannels.
  split; [reflexivity|].
  cbn [final_output object extend fold_left get set fst snd String.eqb Ascii.eqb Bool.eqb].
  subst publishedChannels. split.
  - intro H. injection H as H. apply Nat.ltb_lt in H.
    destruct (filter (delivered h (pi_reportTitle i)) channels) as [|c cs] eqn:Ef;
      [cbn in H; lia|].
    exists c. apply filter_In. rewrite Ef. now left.
  - intros (c & Hc). apply filter_In in Hc.
    destruct (filter (delivered h (pi_reportTitle i)) channels); [destruct Hc|].
    reflexivity.
Qed.

End PublishTheorem.

(* ===================================================================== *)
(** ** The onboarding steps, one by one *)
(* ===================================================================== *)

Section OnboardingProperties.
Import Onboard.

Lemma step1_fields_fresh (i : Step1Output) (k : string) :
  includes ["projectName"; "description"; "teamMembers"; "techStack"; "priority";
            "platforms"; "deadline"; "projectId"; "createdAt"; "slug"] k = false ->
  has k (step1_fields i) = false.
Proof.
  intro H. unfold step1_fields. rewrite has_app, has_project_fields.
  cbn in H |- *.
  repeat match type of H with
         | (?a || ?b)%bool = false => apply orb_false_elim in H; destruct H as [? H]
         end.
  repeat match goal with E : String.eqb _ _ = false |- _ => rewrite E; clear E end.
  reflexivity.
Qed.

(** X17.  The validation step never throws and calls nothing.  With no
    [mastra] instance at hand, each of the four steps after it throws
    "Project Assistant agent not found" before it does anything else.  With
    the assistant registered, a step that sets up a platform never throws,
    whatever its call of the assistant does, and the summary step throws
    exactly when its own call of the assistant throws, with the call's
    error. *)
Theorem onboarding_steps_throw_only_without_agent :
  forall h : Host,
    (forall (inputData : ProjectInput),
        exists out, validateProjectData_execute h inputData = ([], Ok out))
    /\ (mastra h = None ->
        (forall inputData : Step1Output,
            createGitHubRepository_execute h inputData = ([], Throw agent_not_found))
        /\ (forall inputData : Step2Output,
              createGoogleDriveFolder_execute h inputData = ([], Throw agent_not_found))
        /\ (forall inputData : Step3Output,
              createSlackChannel_execute h inputData = ([], Throw agent_not_found))
        /\ (forall inputData : Step4Output,
              generateProjectSummary_execute h inputData = ([], Throw agent_not_found)))
    /\ (forall agent : Agent,
          getAgent h "projectAssistantAgent" = Some agent ->
          (forall inputData : Step1Output,
              exists t out, createGitHubRepository_execute h inputData = (t, Ok out))
          /\ (forall inputData : Step2Output,
                exists t out, createGoogleDriveFolder_execute h inputData = (t, Ok out))
          /\ (forall inputData : Step3Output,
                exists t out, createSlackChannel_execute h inputData = (t, Ok out))
          /\ (forall (inputData : Step4Output) (e : JSError),
                snd (generateProjectSummary_execute h inputData) = Throw e
                <-> generate agent (summary_prompt inputData)
                      ("system-"
                       ++ projectId (s2_step1 (s3_step2 (s4_step3 inputData))))
                      ("summary-"
                       ++ projectId (s2_step1 (s3_step2 (s4_step3 inputData))))
                    = Throw e)).
Proof.
  intro h. split; [|split].
  - intro i. eexists. reflexivity.
  - intro Hm.
    assert (Hag : getAgent h "projectAssistantAgent" = None)
      by (unfold getAgent; rewrite Hm; reflexivity).
    repeat split; intro i;
      unfold createGitHubRepository_execute, createGitHubRepository_body,
        createGoogleDriveFolder_execute, createGoogleDriveFolder_body,
        createSlackChannel_execute, createSlackChannel_body,
        generateProjectSummary_execute;
      rewrite Hag; reflexivity.
  - intros agent Hag. split; [|split; [|split]].
    + intro i. rewrite (github_step_cases h agent i Hag).
      destruct (negb _); [|destruct (generate agent _ _ _)];
        eexists; eexists; reflexivity.
    + intro i. rewrite (drive_step_cases h agent i Hag).
      destruct (negb _); [|destruct (generate agent _ _ _)];
        eexists; eexists; reflexivity.
    + intro i. rewrite (slack_step_cases h agent i Hag).
      destruct (negb _); [|destruct (generate agent _ _ _)];
        eexists; eexists; reflexivity.
    + intros i e. unfold generateProjectSummary_execute, agent_generate, lift, emit.
      rewrite Hag. cbn [bind].
      destruct (generate agent _ _ _) as [text|e'] eqn:Eg;
        cbn -[welcome_message object summary_prompt String.append].
      * split; discriminate.
      * split; intro H; injection H as <-; reflexivity.
Qed.

(** X18.  With the assistant registered, a platform step calls it once when
    its platform is switched on and not at all when it is off, and the
    success flag it hands on is true exactly when the platform is on and
    the call came back.  The links go with the flag: the repository
    address and name are built from the slug, the channel is named
    [proj-] and the slug, and all of them are empty when the flag is
    false. *)
Theorem platform_links_follow_success :
  forall (h : Host) (agent : Agent),
    getAgent h "projectAssistantAgent" = Some agent ->
    (forall inputData : Step1Output,
        let enabled := github (platforms (s1_project inputData)) in
        let success :=
          (enabled
           && answered (generate agent (github_prompt inputData)
                          ("system-" ++ projectId inputData)
                          ("github-setup-" ++ projectId inputData)))%bool in
        exists t out,
          createGitHubRepository_execute h inputData = (t, Ok out)
          /\ calls "agent.generate" t = (if enabled then 1 else 0)
          /\ get "githubSuccess" out = VBool success
          /\ get "repositoryUrl" out
             = VStr (if success then "https://github.com/user/" ++ slug inputData else "")
          /\ get "repositoryName" out = VStr (if success then slug inputData else ""))
    /\ (forall inputData : Step2Output,
          let step1 := s2_step1 inputData in
          let enabled := googleDrive (platforms (s1_project step1)) in
          let success :=
            (enabled
             && answered (generate agent (drive_prompt inputData)
                            ("system-" ++ projectId step1)
                            ("drive-setup-" ++ projectId step1)))%bool in
          exists t out,
            createGoogleDriveFolder_execute h inputData = (t, Ok out)
            /\ calls "agent.generate" t = (if enabled then 1 else 0)
            /\ get "driveSuccess" out = VBool success
            /\ get "driveFolderUrl" out
               = VStr (if success
                       then "https://drive.google.com/drive/folders/example_folder_id"
                       else "")
            /\ get "driveFolderId" out
               = VStr (if success then "example_folder_id" else ""))
    /\ (forall inputData : Step3Output,
          let step1 := s2_step1 (s3_step2 inputData) in
          let enabled := slack (platforms (s1_project step1)) in
          let success :=
            (enabled
             && answered (generate agent
                            (slack_prompt inputData ("proj-" ++ slug step1))
                            ("system-" ++ projectId step1)
                            ("slack-setup-" ++ projectId step1)))%bool in
          exists t out,
            createSlackChannel_execute h inputData = (t, Ok out)
            /\ calls "agent.generate" t = (if enabled then 1 else 0)
            /\ get "slackSuccess" out = VBool success
            /\ get "channelName" out
               = VStr (if success then "proj-" ++ slug step1 else "")
            /\ get "channelId" out
               = VStr (if success
                       then "C" ++ toUpperCase (substring 2 10 (Math_random_toString36 h))
                       else "")).
Proof.
  intros h agent Hag. split; [|split]; intro i; cbv zeta.
  - rewrite (github_step_cases h agent i Hag).
    destruct (github (platforms (s1_project i)));
      [destruct (generate agent _ _ _)|]; cbn [negb andb answered];
      eexists; eexists; (split; [reflexivity|]); (split; [reflexivity|]);
      rewrite !get_app, !step1_fields_fresh by reflexivity; repeat split.
  - rewrite (drive_step_cases h agent i Hag).
    destruct (googleDrive (platforms (s1_project (s2_step1 i))));
      [destruct (generate agent _ _ _)|]; cbn [negb andb answered];
      eexists; eexists; (split; [reflexivity|]); (split; [reflexivity|]);
      unfold step2_fields; rewrite <- !app_assoc;
      rewrite !get_app, !step1_fields_fresh by reflexivity; repeat split.
  - rewrite (slack_step_cases h agent i Hag).
    destruct (slack (platforms (s1_project (s2_step1 (s3_step2 i)))));
      [destruct (generate agent _ _ _)|]; cbn [negb andb answered];
      eexists; eexists; (split; [reflexivity|]); (split; [reflexivity|]);
      unfold step3_fields, step2_fields; rewrite <- !app_assoc;
      rewrite !get_app, !step1_fields_fresh by reflexivity; repeat split.
Qed.

End OnboardingProperties.

(* ===================================================================== *)
(** ** What a contract lets through *)
(* ===================================================================== *)

Section ContractFacts.

Lemma z_string_min_reads (n : nat) (v : JSValue) (s : string) :
  z_string_min n v = Some s -> v = VStr s /\ n <= str_length s.
Proof.
  unfold z_string_min. destruct v; try discriminate.
  destruct (Nat.leb_spec n (str_length s0)) as [Hn|_]; [|discriminate].
  intro E. injection E as <-. auto.
Qed.

(** On ASCII text [length] counts the bytes. *)
Lemma str_length_ascii (s : string) : is_ascii s -> str_length s = String.length s.
Proof.
  unfold is_ascii. induction s as [|c s IH]; cbn [list_ascii_of_string]; intro H.
  - reflexivity.
  - inversion H as [|? ? Hc Hs]; subst. cbn [str_length String.length].
    rewrite (IH Hs). unfold code_units.
    destruct (Nat.leb_spec 128 (nat_of_ascii c)); [lia|]. cbn [andb].
    destruct (Nat.leb_spec 240 (nat_of_ascii c)); [lia|]. reflexivity.
Qed.

(** Nine accented letters are eighteen bytes and nine characters: a
    description the contract rejects. *)
Lemma accented_text_is_counted_by_character :
  String.length "ééééééééé" = 18
  /\ str_length "ééééééééé" = 9
  /\ z_string_min 10 (VStr "ééééééééé") = None.
Proof. repeat split. Qed.

Lemma includes_In (allowed : list string) (s : string) :
  includes allowed s = true <-> In s allowed.
Proof.
  unfold includes. rewrite existsb_exists. split.
  - intros (x & Hx & E). apply String.eqb_eq in E. now subst.
  - intro H. exists s. split; [exact H | apply String.eqb_refl].
Qed.

Lemma z_enum_reads (allowed : list string) (v : JSValue) (s : string) :
  z_enum allowed v = Some s -> v = VStr s /\ In s allowed.
Proof.
  unfold z_enum. destruct v; try discriminate.
  destruct (includes allowed s0) eqn:E; [|discriminate].
  intro H. injection H as <-. split; [reflexivity | now apply includes_In].
Qed.

Lemma all_items_strings_read (items : list JSValue) (l : list string) :
  all_items z_string items = Some l -> items = map VStr l.
Proof.
  revert l. induction items as [|v items IH]; cbn [all_items]; intros l H.
  - injection H as <-. reflexivity.
  - destruct v; try discriminate. cbn [z_string] in H.
    destruct (all_items z_string items) as [r|]; [|discriminate].
    injection H as <-. cbn [map]. now rewrite (IH r eq_refl).
Qed.

Lemma all_items_emails_read (h : Host) (items : list JSValue) (l : list string) :
  all_items (z_email h) items = Some l ->
  items = map VStr l /\ Forall (fun member => is_email h member = true) l.
Proof.
  revert l. induction items as [|v items IH]; cbn [all_items]; intros l H.
  - injection H as <-. split; [reflexivity | constructor].
  - destruct v; try discriminate. cbn [z_email] in H.
    destruct (is_email h s) eqn:E; [|discriminate].
    destruct (all_items (z_email h) items) as [r|]; [|discriminate].
    injection H as <-. destruct (IH r eq_refl) as (-> & F).
    split; [reflexivity | constructor; assumption].
Qed.

End ContractFacts.

Section OnboardingContract.
Import Onboard.

(** X19.  What the onboarding steps can rely on: an input the project contract
    accepts has a name of at least one character, a description of at
    least ten (characters as [length] counts them, in UTF-16 code units),
    at least one team member and only e-mail addresses among them, and one
    of the three priorities; what the input leaves out is filled in:
    priority medium, an empty tech stack, every platform switched on. *)
Theorem project_contract_guarantees :
  forall (h : Host) (raw : JSObject) (project : ProjectInput),
    projectInputSchema h raw = Some project ->
    (get "projectName" raw = VStr (projectName project)
     /\ 1 <= str_length (projectName project))
    /\ (get "description" raw = VStr (description project)
        /\ 10 <= str_length (description project))
    /\ (get "teamMembers" raw = strings (teamMembers project)
        /\ 1 <= List.length (teamMembers project)
        /\ Forall (fun member => is_email h member = true) (teamMembers project))
    /\ (In (priority project) ["low"; "medium"; "high"]
        /\ (get "priority" raw = VUndefined -> priority project = "medium"))
    /\ (get "techStack" raw = VUndefined -> techStack project = [])
    /\ (get "deadline" raw = VUndefined <-> deadline project = None)
    /\ (get "platforms" raw = VUndefined ->
        platforms project = {| github := true; slack := true; googleDrive := true |})
    /\ (forall fields,
          get "platforms" raw = VObj fields ->
          (get "github" fields = VUndefined -> github (platforms project) = true)
          /\ (get "slack" fields = VUndefined -> slack (platforms project) = true)
          /\ (get "googleDrive" fields = VUndefined ->
              googleDrive (platforms project) = true)
          /\ (forall b, get "github" fields = VBool b -> github (platforms project) = b)
          /\ (forall b, get "slack" fields = VBool b -> slack (platforms project) = b)
          /\ (forall b, get "googleDrive" fields = VBool b ->
                googleDrive (platforms project) = b)).
Proof.
  intros h raw p. unfold projectInputSchema, obind.
  destruct (z_string_min 1 (get "projectName" raw)) as [name|] eqn:En; [|discriminate].
  destruct (z_string_min 10 (get "description" raw)) as [desc|] eqn:Ed; [|discriminate].
  destruct (z_array_min (z_email h) 1 (get "teamMembers" raw)) as [members|] eqn:Em;
    [|discriminate].
  destruct (z_default (z_array z_string) (VArr []) (get "techStack" raw)) as [stack|] eqn:Es;
    [|discriminate].
  destruct (z_optional z_string (get "deadline" raw)) as [dl|] eqn:El; [|discriminate].
  destruct (z_default (z_enum ["low"; "medium"; "high"]) (VStr "medium")
              (get "priority" raw)) as [prio|] eqn:Ep; [|discriminate].
  destruct (z_default platformsShape (VObj []) (get "platforms" raw)) as [pl|] eqn:Epl;
    [|discriminate].
  intro H. injection H as <-. cbn [projectName description teamMembers techStack
                                   deadline priority platforms].
  split; [exact (z_string_min_reads _ _ _ En)|].
  split; [exact (z_string_min_reads _ _ _ Ed)|].
  split.
  { revert Em. unfold z_array_min, z_array.
    destruct (get "teamMembers" raw) as [ | | | | |items| ]; try discriminate.
    destruct (all_items (z_email h) items) as [l|] eqn:Ei; [|discriminate].
    destruct (Nat.leb_spec 1 (List.length l)) as [Hn|_]; [|discriminate].
    intro E. injection E as <-.
    destruct (all_items_emails_read h items l Ei) as (-> & F). auto. }
  split.
  { revert Ep. unfold z_default.
    destruct (get "priority" raw) eqn:Eg; intro Ep;
      try (destruct (z_enum_reads _ _ _ Ep) as (? & ?); split; [assumption|discriminate]).
    cbn in Ep. injection Ep as <-. split; [cbn; auto | reflexivity]. }
  split.
  { intro Hu. rewrite Hu in Es. cbn in Es. now injection Es as <-. }
  split.
  { revert El. unfold z_optional.
    destruct (get "deadline" raw); intro El;
      try (destruct (z_string _) as [s'|]; [|discriminate]; cbn in El;
           injection El as <-; split; discriminate).
    injection El as <-. split; reflexivity. }
  split.
  { intro Hu. rewrite Hu in Epl. cbn in Epl. now injection Epl as <-. }
  intros fields Hf. rewrite Hf in Epl. revert Epl.
  unfold z_default, platformsShape, z_object, obind.
  destruct (get "github" fields) as [ | |g| | | | ]; try discriminate;
    destruct (get "slack" fields) as [ | |s| | | | ]; try discriminate;
    destruct (get "googleDrive" fields) as [ | |d| | | | ]; try discriminate;
    cbn; intro H; injection H as <-; cbn;
    repeat split; try reflexivity; try discriminate; intros b Hb; now injection Hb.
Qed.

(** X20.  With the assistant registered and answering, the five onboarding
    steps run one into the next for every input the project contract
    accepts: each contract reads back what the steps before wrote, and the
    summary links to what was set up: the repository named after the slug
    of the project name, the shared folder, and the channel, by the id the
    Slack step gave it; a platform that is switched off has no link.  The
    summary carries the project id of the validation step.  The assistant
    is called once for the summary and once for each platform that is
    switched on. *)
Theorem onboarding_links_on_success :
  forall (h : Host) (agent : Agent) (raw : JSObject) (project : ProjectInput),
    getAgent h "projectAssistantAgent" = Some agent ->
    (forall prompt resourceId threadId,
        answered (generate agent prompt resourceId threadId) = true) ->
    projectInputSchema h raw = Some project ->
    let on := platforms project in
    exists t1 out1 step1 t2 out2 step2 t3 out3 step3 t4 out4 step4 t5 out5 links text,
      validateProjectData_execute h project = (t1, Ok out1)
      /\ step1OutputSchema h out1 = Some step1
      /\ createGitHubRepository_execute h step1 = (t2, Ok out2)
      /\ step2OutputSchema h out2 = Some step2
      /\ createGoogleDriveFolder_execute h step2 = (t3, Ok out3)
      /\ step3OutputSchema h out3 = Some step3
      /\ createSlackChannel_execute h step3 = (t4, Ok out4)
      /\ step4OutputSchema h out4 = Some step4
      /\ generateProjectSummary_execute h step4 = (t5, Ok out5)
      /\ s1_project step1 = project
      /\ s2_step1 step2 = step1 /\ s3_step2 step3 = step2 /\ s4_step3 step4 = step3
      /\ slug step1 = slugify (projectName project)
      /\ githubSuccess step2 = github on
      /\ driveSuccess step3 = googleDrive on
      /\ slackSuccess step4 = slack on
      /\ generate agent (summary_prompt step4) ("system-" ++ projectId step1)
           ("summary-" ++ projectId step1)
         = Ok text
      /\ get "projectSummary" out5 = VStr text
      /\ get "projectId" out5 = VStr (projectId step1)
      /\ get "onboardingComplete" out5 = VBool true
      /\ get "setupLinks" out5 = VObj links
      /\ get "github" links
         = (if github on
            then VStr ("https://github.com/user/" ++ slugify (projectName project))
            else VUndefined)
      /\ get "googleDrive" links
         = (if googleDrive on
            then VStr "https://drive.google.com/drive/folders/example_folder_id"
            else VUndefined)
      /\ get "slack" links
         = (if slack on
            then VStr ("slack://channel?team=YOUR_TEAM&id=" ++ channelId step4)
            else VUndefined)
      /\ calls "agent.generate" (t2 ++ t3 ++ t4 ++ t5)%list
         = 1 + (if github on then 1 else 0) + (if googleDrive on then 1 else 0)
           + (if slack on then 1 else 0).
Proof.
  intros h agent raw project Hag Hans H on.
  set (id := "proj_" ++ Z_to_string (Date_now h) ++ "_"
             ++ substring 2 9 (Math_random_toString36 h)).
  pose proof (project_accepted_valid h raw project H) as Hv.
  assert (Hok : forall prompt resourceId threadId,
             exists text, generate agent prompt resourceId threadId = Ok text).
  { intros p r t. specialize (Hans p r t).
    destruct (generate agent p r t) as [text|e]; [now exists text | discriminate]. }
  (* validation *)
  set (step1 := {| s1_project := project; projectId := id;
                   createdAt := Date_toISOString h;
                   slug := slugify (projectName project) |}).
  assert (S1 : step1OutputSchema h
                 (project_fields project
                  ++ [("projectId", VStr id);
                      ("slug", VStr (slugify (projectName project)));
                      ("createdAt", VStr (Date_toISOString h))])%list = Some step1).
  { unfold step1OutputSchema.
    rewrite (project_read_back h project _ Hv) by reflexivity.
    rewrite !get_app, !has_project_fields. reflexivity. }
  (* repository *)
  set (step2 := {| s2_step1 := step1;
                   repositoryUrl :=
                     if github on
                     then "https://github.com/user/" ++ slugify (projectName project)
                     else "";
                   repositoryName :=
                     if github on then slugify (projectName project) else "";
                   githubSuccess := github on |}).
  assert (E2 : exists t2,
             createGitHubRepository_execute h step1 = (t2, Ok (step2_fields step2))
             /\ calls "agent.generate" t2 = (if github on then 1 else 0)).
  { rewrite (github_step_cases h agent step1 Hag). subst step2 on.
    cbn [s1_project step1 projectId slug].
    destruct (github (platforms project)); cbn [negb];
      [|eexists; split; reflexivity].
    destruct (Hok (github_prompt step1) ("system-" ++ id) ("github-setup-" ++ id))
      as (answer & Eg).
    cbn [s1_project step1 projectId slug] in Eg. rewrite Eg.
    eexists; split; reflexivity. }
  destruct E2 as (t2 & E2 & C2).
  assert (S2 : step2OutputSchema h (step2_fields step2) = Some step2).
  { rewrite <- (app_nil_r (step2_fields step2)).
    exact (step2_read_back h step2 [] Hv eq_refl). }
  (* folder *)
  set (step3 := {| s3_step2 := step2;
                   driveFolderUrl :=
                     if googleDrive on
                     then "https://drive.google.com/drive/folders/example_folder_id"
                     else "";
                   driveFolderId := if googleDrive on then "example_folder_id" else "";
                   driveSuccess := googleDrive on |}).
  assert (E3 : exists t3,
             createGoogleDriveFolder_execute h step2 = (t3, Ok (step3_fields step3))
             /\ calls "agent.generate" t3 = (if googleDrive on then 1 else 0)).
  { rewrite (drive_step_cases h agent step2 Hag). subst step3 on.
    cbn [s2_step1 step2 s1_project step1 projectId].
    destruct (googleDrive (platforms project)); cbn [negb];
      [|eexists; split; reflexivity].
    destruct (Hok (drive_prompt step2) ("system-" ++ id) ("drive-setup-" ++ id))
      as (answer & Eg).
    rewrite Eg. eexists; split; reflexivity. }
  destruct E3 as (t3 & E3 & C3).
  assert (S3 : step3OutputSchema h (step3_fields step3) = Some step3).
  { rewrite <- (app_nil_r (step3_fields step3)).
    exact (step3_read_back h step3 [] Hv eq_refl). }
  (* channel *)
  set (step4 := {| s4_step3 := step3;
                   channelName :=
                     if slack on then "proj-" ++ slugify (projectName project) else "";
                   channelId :=
                     if slack on
                     then "C" ++ toUpperCase (substring 2 10 (Math_random_toString36 h))
                     else "";
                   slackSuccess := slack on |}).
  assert (E4 : exists t4,
             createSlackChannel_execute h step3 = (t4, Ok (step4_fields step4))
             /\ calls "agent.generate" t4 = (if slack on then 1 else 0)).
  { rewrite (slack_step_cases h agent step3 Hag). subst step4 on.
    cbn [s3_step2 step3 s2_step1 step2 s1_project step1 projectId slug].
    destruct (slack (platforms project)); cbn [negb];
      [|eexists; split; reflexivity].
    destruct (Hok (slack_prompt step3 ("proj-" ++ slugify (projectName project)))
                ("system-" ++ id) ("slack-setup-" ++ id)) as (answer & Eg).
    rewrite Eg. eexists; split; reflexivity. }
  destruct E4 as (t4 & E4 & C4).
  assert (S4 : step4OutputSchema h (step4_fields step4) = Some step4).
  { rewrite <- (app_nil_r (step4_fields step4)).
    exact (step4_read_back h step4 [] Hv eq_refl). }
  (* summary *)
  destruct (Hok (summary_prompt step4) ("system-" ++ id) ("summary-" ++ id))
    as (text & Eg).
  assert (E5 : generateProjectSummary_execute h step4
               = ([EvCall "agent.generate"
                     [VStr (summary_prompt step4); VStr ("system-" ++ id);
                      VStr ("summary-" ++ id)]],
                  Ok (summary_record step4 text))).
  { unfold generateProjectSummary_execute, agent_generate, lift, emit.
    rewrite Hag. cbn [bind s4_step3 step4 s3_step2 step3 s2_step1 step2 projectId step1].
    rewrite Eg. reflexivity. }
  exists [], (project_fields project
              ++ [("projectId", VStr id);
                  ("slug", VStr (slugify (projectName project)));
                  ("createdAt", VStr (Date_toISOString h))])%list, step1.
  exists t2, (step2_fields step2), step2, t3, (step3_fields step3), step3.
  exists t4, (step4_fields step4), step4.
  eexists. eexists. eexists. exists text.
  split; [unfold validateProjectData_execute, validateProjectData_body;
          rewrite extend_project; reflexivity|].
  split; [exact S1|]. split; [exact E2|]. split; [exact S2|].
  split; [exact E3|]. split; [exact S3|]. split; [exact E4|]. split; [exact S4|].
  split; [exact E5|].
  do 8 (split; [reflexivity|]).
  split; [exact Eg|].
  split; [reflexivity|]. split; [reflexivity|]. split; [reflexivity|].
  split; [reflexivity|].
  cbn [get String.eqb Ascii.eqb Bool.eqb
       githubSuccess driveSuccess slackSuccess repositoryUrl driveFolderUrl channelId
       s4_step3 s3_step2 step4 step3 step2].
  split; [destruct (github on); reflexivity|].
  split; [destruct (googleDrive on); reflexivity|].
  split; [destruct (slack on); reflexivity|].
  unfold calls in *. rewrite !filter_app, !length_app, C2, C3, C4. cbn. lia.
Qed.

End OnboardingContract.

(* ===================================================================== *)
(** ** The demo workflow *)
(* ===================================================================== *)

Section DemoEstimate.
Import Demo.

(** The two literals are the floats a JavaScript engine reads them as,
    [0x1.999999999999ap-1] and [0x1.3333333333333p+0]. *)
Lemma literals_are_nearest_floats :
  lit_0_8 = SpecFloat.S754_finite false 7205759403792794 (-53)
  /\ lit_1_2 = SpecFloat.S754_finite false 5404319552844595 (-52).
Proof. split; vm_compute; reflexivity. Qed.

(** X21.  The estimate is 50, 40 or 25 days for a team of at most two, at most
    five or more members, cut to four fifths for high and raised to six
    fifths for low priority.  The products with [0.8] and [1.2] are
    rounded floats, and the floor of each is the same as in exact
    arithmetic: no estimate is a day short. *)
Theorem estimate_matches_exact_arithmetic :
  forall (teamSize : Z) (priority : string),
    let baseDays :=
      (if teamSize <=? 2 then 50 else if teamSize <=? 5 then 40 else 25)%Z in
    estimated_days teamSize priority
    = (if String.eqb priority "high" then baseDays * 4 / 5
       else if String.eqb priority "low" then baseDays * 6 / 5
       else baseDays)%Z
    /\ is_finite (times (Number_of_Z baseDays) lit_0_8) = true
    /\ is_finite (times (Number_of_Z baseDays) lit_1_2) = true
    /\ In (estimated_days teamSize priority) [20; 25; 30; 32; 40; 48; 50; 60]%Z.
Proof.
  intros teamSize priority. unfold estimated_days.
  destruct (teamSize <=? 2)%Z; [|destruct (teamSize <=? 5)%Z];
    destruct (String.eqb priority "high"); try destruct (String.eqb priority "low");
    vm_compute; intuition congruence.
Qed.

(** X22.  A larger team is never given a longer estimate, and a project is
    never given a longer one at high priority than at medium, nor at
    medium than at low. *)
Theorem estimate_shrinks_with_team_and_priority :
  forall (teamSize teamSize' : Z) (priority : string),
    (teamSize <= teamSize')%Z ->
    (estimated_days teamSize' priority <= estimated_days teamSize priority)%Z
    /\ (estimated_days teamSize "high" <= estimated_days teamSize "medium")%Z
    /\ (estimated_days teamSize "medium" <= estimated_days teamSize "low")%Z.
Proof.
  intros teamSize teamSize' priority Hle. unfold estimated_days.
  destruct (Z.leb_spec teamSize 2), (Z.leb_spec teamSize 5),
    (Z.leb_spec teamSize' 2), (Z.leb_spec teamSize' 5); try lia;
    destruct (String.eqb priority "high"); try destruct (String.eqb priority "low");
    vm_compute; intuition congruence.
Qed.

End DemoEstimate.

Section DemoContract.
Import Demo.

Lemma demo_contract_reads (h : Host) (raw : JSObject) (project : ProjectInput) :
  projectInputSchema h raw = Some project ->
  (get "projectName" raw = VStr (projectName project)
   /\ 1 <= str_length (projectName project))
  /\ (get "description" raw = VStr (description project)
      /\ 10 <= str_length (description project))
  /\ (get "teamSize" raw = VNum (teamSize project)
      /\ (1 <= teamSize project <= 100)%Z)
  /\ ((get "priority" raw = VUndefined /\ priority project = "medium")
      \/ (get "priority" raw = VStr (priority project)
          /\ In (priority project) ["low"; "medium"; "high"])).
Proof.
  unfold projectInputSchema, obind.
  destruct (z_string_min 1 (get "projectName" raw)) as [name|] eqn:En; [|discriminate].
  destruct (z_string_min 10 (get "description" raw)) as [desc|] eqn:Ed; [|discriminate].
  destruct (z_number_min_max 1 100 (get "teamSize" raw)) as [size|] eqn:Es; [|discriminate].
  destruct (z_default (z_enum ["low"; "medium"; "high"]) (VStr "medium")
              (get "priority" raw)) as [prio|] eqn:Ep; [|discriminate].
  intro E. injection E as <-. cbn [projectName description teamSize priority].
  split; [exact (z_string_min_reads _ _ _ En)|].
  split; [exact (z_string_min_reads _ _ _ Ed)|].
  split.
  { revert Es. unfold z_number_min_max.
    destruct (get "teamSize" raw) as [ | | |n| | | ]; try discriminate.
    destruct (Z.leb_spec 1 n), (Z.leb_spec n 100); try discriminate.
    intro E. injection E as <-. split; [reflexivity | lia]. }
  revert Ep. unfold z_default.
  destruct (get "priority" raw) eqn:Eg; intro Ep;
    try (right; exact (z_enum_reads _ _ _ Ep)).
  cbn in Ep. injection Ep as <-. left. split; reflexivity.
Qed.

Lemma demo_contract_accepts (h : Host) (raw : JSObject) (project : ProjectInput) :
  get "projectName" raw = VStr (projectName project) ->
  1 <= str_length (projectName project) ->
  get "description" raw = VStr (description project) ->
  10 <= str_length (description project) ->
  get "teamSize" raw = VNum (teamSize project) ->
  (1 <= teamSize project <= 100)%Z ->
  (get "priority" raw = VUndefined /\ priority project = "medium")
  \/ (get "priority" raw = VStr (priority project)
      /\ In (priority project) ["low"; "medium"; "high"]) ->
  projectInputSchema h raw = Some project.
Proof.
  intros En Ln Ed Ld Es Ls Ep. unfold projectInputSchema, obind.
  rewrite En, Ed, Es. cbn [z_string_min z_number_min_max].
  apply Nat.leb_le in Ln, Ld. rewrite Ln, Ld.
  destruct (Z.leb_spec 1 (teamSize project)), (Z.leb_spec (teamSize project) 100);
    try lia. cbn [andb].
  destruct project as [name desc size prio]. cbn [priority] in Ep.
  destruct Ep as [(Eu & ->)|(Ev & Hin)]; cbn [Demo.projectName Demo.description Demo.teamSize].
  - rewrite Eu. reflexivity.
  - rewrite Ev. cbn [z_default z_enum]. apply includes_In in Hin. rewrite Hin. reflexivity.
Qed.

End DemoContract.

Section DemoSteps.
Import Demo.

Variable toLocaleDateString : string -> string.
Variable h : Host.
Hypothesis console_works : forall message, console_log h message = Ok tt.

Lemma log_works (message : string) : log h message = ([EvLog message], Ok tt).
Proof. unfold log, lift, emit. rewrite console_works. reflexivity. Qed.

Lemma process_returns (project : ProjectInput) :
  exists t,
    processProjectData_execute h project
    = (t, Ok (processed_fields
                {| pp_project := project;
                   projectId :=
                     "proj_" ++ Z_to_string (Date_now h) ++ "_"
                     ++ substring 2 6 (Math_random_toString36 h);
                   slug := Onboard.slugify (projectName project);
                   estimatedDuration :=
                     Z_to_string (estimated_days (teamSize project) (priority project))
                     ++ " days";
                   createdAt := Date_toISOString h |})).
Proof.
  unfold processProjectData_execute, processProjectData_body. rewrite !log_works.
  eexists. reflexivity.
Qed.

Lemma plan_returns (processed : ProcessedProject) :
  exists t,
    createProjectPlan_execute h processed
    = (t, Ok (plan_fields
                {| plan_project := processed;
                   phases := plan_phases;
                   milestones := plan_milestones;
                   risks := plan_risks (teamSize (pp_project processed))
                              (priority (pp_project processed)) |})).
Proof.
  unfold createProjectPlan_execute, createProjectPlan_body. rewrite !log_works.
  eexists. reflexivity.
Qed.

Lemma processed_read_back (processed : ProcessedProject) (extra : JSObject) (raw : JSObject) :
  projectInputSchema h raw = Some (pp_project processed) ->
  processedSchema h (processed_fields processed ++ extra)%list = Some processed.
Proof.
  intro H. destruct (demo_contract_reads h raw _ H) as ((_ & Ln) & (_ & Ld) & (_ & Ls) & Ep).
  unfold processedSchema, obind.
  rewrite (demo_contract_accepts h _ (pp_project processed)); try assumption;
    try reflexivity.
  - destruct processed as [[name desc size prio] id sl dur created]. reflexivity.
  - right. split; [reflexivity|].
    destruct Ep as [(_ & ->)|(_ & Hin)]; [cbn; auto | exact Hin].
Qed.

Lemma plan_read_back (plan : ProjectPlan) (raw : JSObject) :
  projectInputSchema h raw = Some (pp_project (plan_project plan)) ->
  planSchema h (plan_fields plan) = Some plan.
Proof.
  intro H. unfold planSchema, obind, plan_fields.
  rewrite (processed_read_back _ _ raw H).
  destruct plan as [[[name desc size prio] id sl dur created] ph ms rs].
  cbn [get processed_fields project_fields app String.eqb Ascii.eqb Bool.eqb
       plan_project phases milestones risks pp_project
       Demo.projectName Demo.description Demo.teamSize Demo.priority
       Demo.projectId Demo.slug Demo.estimatedDuration Demo.createdAt].
  unfold strings, z_array. rewrite !all_items_strings. reflexivity.
Qed.

End DemoSteps.

Section DemoPipeline.
Import Demo.

(** X24.  With a console that works, the three steps of the demo run one into
    the next for every input the contract accepts: each step returns,
    the next step's contract accepts what it returns and reads the
    earlier fields back unchanged.  The plan always has the seven phases
    and five milestones, so the report's summary always counts seven and
    five; it lists between two and five risks, and the report makes one
    recommendation more than the plan lists risks. *)
Theorem demo_steps_compose :
  forall (toLocaleDateString : string -> string) (h : Host) (raw : JSObject)
         (project : ProjectInput),
    (forall message, console_log h message = Ok tt) ->
    projectInputSchema h raw = Some project ->
    exists t1 out1 processed t2 out2 plan t3 out3,
      processProjectData_execute h project = (t1, Ok out1)
      /\ processedSchema h out1 = Some processed
      /\ pp_project processed = project
      /\ slug processed = Onboard.slugify (projectName project)
      /\ estimatedDuration processed
         = Z_to_string (estimated_days (teamSize project) (priority project)) ++ " days"
      /\ createProjectPlan_execute h processed = (t2, Ok out2)
      /\ planSchema h out2 = Some plan
      /\ plan_project plan = processed
      /\ phases plan = plan_phases
      /\ milestones plan = plan_milestones
      /\ risks plan = plan_risks (teamSize project) (priority project)
      /\ 2 <= List.length (risks plan) <= 5
      /\ generateProjectReport_execute toLocaleDateString h plan = (t3, Ok out3)
      /\ get "projectId" out3 = VStr (projectId processed)
      /\ get "projectName" out3 = VStr (projectName project)
      /\ get "summary" out3
         = VStr ("Project " ++ dquote ++ projectName project ++ dquote ++ " is a "
                 ++ priority project ++ " priority initiative requiring "
                 ++ Z_to_string (teamSize project) ++ " team members and an estimated "
                 ++ estimatedDuration processed
                 ++ " to complete. The project includes 7 phases and 5 key milestones.")
      /\ get "recommendations" out3
         = strings (report_recommendations (teamSize project) (priority project))
      /\ List.length (report_recommendations (teamSize project) (priority project))
         = S (List.length (risks plan)).
Proof.
  intros toLocaleDateString h raw project Hc H.
  destruct (process_returns h Hc project) as (t1 & E1).
  set (processed := {| pp_project := project;
                       projectId := "proj_" ++ Z_to_string (Date_now h) ++ "_"
                                    ++ substring 2 6 (Math_random_toString36 h);
                       slug := Onboard.slugify (projectName project);
                       estimatedDuration :=
                         Z_to_string (estimated_days (teamSize project) (priority project))
                         ++ " days";
                       createdAt := Date_toISOString h |}) in *.
  destruct (plan_returns h Hc processed) as (t2 & E2).
  set (plan := {| plan_project := processed;
                  phases := plan_phases;
                  milestones := plan_milestones;
                  risks := plan_risks (teamSize (pp_project processed))
                             (priority (pp_project processed)) |}) in *.
  exists t1, (processed_fields processed), processed, t2, (plan_fields plan), plan.
  eexists. eexists.
  split; [exact E1|].
  split; [rewrite <- (app_nil_r (processed_fields processed));
          exact (processed_read_back h processed [] raw H)|].
  split; [reflexivity|]. split; [reflexivity|]. split; [reflexivity|].
  split; [exact E2|].
  split; [exact (plan_read_back h plan raw H)|].
  split; [reflexivity|]. split; [reflexivity|]. split; [reflexivity|].
  split; [reflexivity|].
  split.
  { cbn [risks plan pp_project processed]. unfold plan_risks, push.
    destruct (teamSize project <=? 2)%Z, (String.eqb (priority project) "high");
      cbn; lia. }
  split.
  { unfold generateProjectReport_execute. rewrite !(log_works h Hc). reflexivity. }
  split; [reflexivity|]. split; [reflexivity|]. split; [reflexivity|].
  split; [reflexivity|].
  cbn [risks plan pp_project processed]. unfold report_recommendations, plan_risks, push.
  destruct (teamSize project <=? 2)%Z, (String.eqb (priority project) "high");
    reflexivity.
Qed.

(** X25.  The demo's report is its template without the line break it opens
    with and the indentation it closes with, as long as the runtime's
    date text does not end in white space: it starts with the heading
    and ends with the date. *)
Theorem demo_report_is_the_trimmed_template :
  forall (toLocaleDateString : string -> string) (h : Host) (plan : ProjectPlan)
         (front : string) (last : ascii),
    Date_toLocaleString h = front ++ String last EmptyString ->
    is_space last = false ->
    let processed := plan_project plan in
    let project := pp_project processed in
    report_text toLocaleDateString h plan
    = lines [
        "# PROJECT ANALYSIS REPORT";
        "";
        "## Project Overview";
        "- **Name**: " ++ projectName project;
        "- **ID**: " ++ projectId processed;
        "- **Description**: " ++ description project;
        "- **Team Size**: " ++ Z_to_string (teamSize project) ++ " members";
        "- **Priority**: " ++ Onboard.toUpperCase (priority project);
        "- **Estimated Duration**: " ++ estimatedDuration processed;
        "- **Created**: " ++ toLocaleDateString (createdAt processed);
        "";
        "## Project Phases";
        numbered (phases plan);
        "";
        "## Key Milestones";
        numbered (milestones plan);
        "";
        "## Risk Assessment";
        numbered (risks plan);
        "";
        "## Resource Requirements";
        "- Team Size: " ++ Z_to_string (teamSize project) ++ " members";
        "- Timeline: " ++ estimatedDuration processed;
        "- Priority Level: " ++ priority project;
        "";
        "Generated on: " ++ Date_toLocaleString h
      ].
Proof.
  intros toLocaleDateString h plan front last Hdate Hlast processed project.
  unfold report_text. fold processed. fold project. rewrite Hdate.
  rewrite <- (append_associative "Generated on: " front (String last EmptyString)).
  exact (trim_template "#" " PROJECT ANALYSIS REPORT"
           [""; "## Project Overview";
            "- **Name**: " ++ projectName project;
            "- **ID**: " ++ projectId processed;
            "- **Description**: " ++ description project;
            "- **Team Size**: " ++ Z_to_string (teamSize project) ++ " members";
            "- **Priority**: " ++ Onboard.toUpperCase (priority project);
            "- **Estimated Duration**: " ++ estimatedDuration processed;
            "- **Created**: " ++ toLocaleDateString (createdAt processed);
            ""; "## Project Phases"; numbered (phases plan);
            ""; "## Key Milestones"; numbered (milestones plan);
            ""; "## Risk Assessment"; numbered (risks plan);
            ""; "## Resource Requirements";
            "- Team Size: " ++ Z_to_string (teamSize project) ++ " members";
            "- Timeline: " ++ estimatedDuration processed;
            "- Priority Level: " ++ priority project;
            ""]
           ("Generated on: " ++ front) last "    " eq_refl Hlast
           ltac:(repeat constructor)).
Qed.

(** X26.  The demo steps have no failure of their own: a step throws exactly
    when one of its two lines on the console cannot be written, with the
    console's error, and a step whose first line fails does nothing
    else. *)
Theorem demo_steps_fail_only_on_console :
  forall (toLocaleDateString : string -> string) (h : Host),
    (forall (project : ProjectInput) (e : JSError),
        let first := "🔍 Processing project: " ++ projectName project in
        let second :=
          "✅ Generated project ID: " ++ "proj_" ++ Z_to_string (Date_now h) ++ "_"
          ++ substring 2 6 (Math_random_toString36 h) in
        (snd (processProjectData_execute h project) = Throw e
         <-> console_log h first = Throw e
             \/ (answered (console_log h first) = true
                 /\ console_log h second = Throw e))
        /\ (console_log h first = Throw e ->
            processProjectData_execute h project = ([], Throw e)))
    /\ (forall (processed : ProcessedProject) (e : JSError),
          let first :=
            "📋 Creating project plan for: " ++ projectName (pp_project processed) in
          let second := "✅ Created plan with 7 phases and 5 milestones" in
          (snd (createProjectPlan_execute h processed) = Throw e
           <-> console_log h first = Throw e
               \/ (answered (console_log h first) = true
                   /\ console_log h second = Throw e))
          /\ (console_log h first = Throw e ->
              createProjectPlan_execute h processed = ([], Throw e)))
    /\ (forall (plan : ProjectPlan) (e : JSError),
          let project := pp_project (plan_project plan) in
          let first := "📝 Generating report for: " ++ projectName project in
          let second :=
            "✅ Generated comprehensive report with "
            ++ nat_to_string
                 (List.length (report_recommendations (teamSize project) (priority project)))
            ++ " recommendations" in
          (snd (generateProjectReport_execute toLocaleDateString h plan) = Throw e
           <-> console_log h first = Throw e
               \/ (answered (console_log h first) = true
                   /\ console_log h second = Throw e))
          /\ (console_log h first = Throw e ->
              generateProjectReport_execute toLocaleDateString h plan = ([], Throw e))).
Proof.
  intros toLocaleDateString h. split; [|split].
  - intros project e first second.
    unfold processProjectData_execute, processProjectData_body, log, lift, emit.
    fold first.
    destruct (console_log h first) as [[]|e1] eqn:E1; cbn -[String.append extend].
    + fold second. destruct (console_log h second) as [[]|e2] eqn:E2;
        cbn -[String.append extend].
      * split; [|discriminate]. split; [discriminate|].
        intros [?|[_ ?]]; discriminate.
      * split; [|discriminate]. split.
        -- intro H. injection H as <-. right. auto.
        -- intros [?|[_ H]]; [discriminate | now injection H as <-].
    + split.
      * split.
        -- intro H. injection H as <-. left. reflexivity.
        -- intros [H|[? _]]; [now injection H as <- | discriminate].
      * intro H. injection H as <-. reflexivity.
  - intros processed e first second.
    unfold createProjectPlan_execute, createProjectPlan_body, log, lift, emit.
    fold first.
    destruct (console_log h first) as [[]|e1] eqn:E1; cbn -[String.append extend].
    + change (console_log h _) with (console_log h second).
      destruct (console_log h second) as [[]|e2] eqn:E2;
        cbn -[String.append extend].
      * split; [|discriminate]. split; [discriminate|].
        intros [?|[_ ?]]; discriminate.
      * split; [|discriminate]. split.
        -- intro H. injection H as <-. right. auto.
        -- intros [?|[_ H]]; [discriminate | now injection H as <-].
    + split.
      * split.
        -- intro H. injection H as <-. left. reflexivity.
        -- intros [H|[? _]]; [now injection H as <- | discriminate].
      * intro H. injection H as <-. reflexivity.
  - intros plan e project first second.
    unfold generateProjectReport_execute, log, lift, emit. fold project. fold first.
    destruct (console_log h first) as [[]|e1] eqn:E1;
      cbn -[String.append object report_text report_summary report_recommendations
            nat_to_string].
    + fold second. destruct (console_log h second) as [[]|e2] eqn:E2;
        cbn -[String.append object report_text report_summary report_recommendations
              nat_to_string].
      * split; [|discriminate]. split; [discriminate|].
        intros [?|[_ ?]]; discriminate.
      * split; [|discriminate]. split.
        -- intro H. injection H as <-. right. auto.
        -- intros [?|[_ H]]; [discriminate | now injection H as <-].
    + split.
      * split.
        -- intro H. injection H as <-. left. reflexivity.
        -- intros [H|[? _]]; [now injection H as <- | discriminate].
      * intro H. injection H as <-. reflexivity.
Qed.

End DemoPipeline.

(* ===================================================================== *)
(** ** The properties above, on sample inputs *)
(* ===================================================================== *)

Section Instances.
Import Research Samples Cases.

Lemma search_helpers_never_throw_witness :
  exists t, searchGitHub closed_console_host "X" = (t, Ok [])
            /\ In (EvError "GitHub search failed:") t.
Proof.
  destruct (search_helpers_never_throw closed_console_host "X")
    as (_ & (t & res & E & _ & _ & Hthrow) & _).
  destruct (Hthrow (Error "write EPIPE") eq_refl) as (-> & Hin).
  exists t. split; [exact E | exact Hin].
Defined.

Lemma search_calls_each_helper_at_most_once_witness :
  calls "searchGitHub" (fst (searchDocumentsStep_execute working_host (search_for (Some []))))
  = 0.
Proof.
  destruct (search_calls_each_helper_at_most_once working_host (search_for (Some [])))
    as (_ & _ & _ & _ & Hnone).
  destruct (Hnone eq_refl) as (_ & H & _). exact H.
Defined.

Lemma search_depends_on_platform_set_witness :
  snd (searchDocumentsStep_execute working_host
         (search_for (Some ["slack"; "github"; "slack"])))
  = snd (searchDocumentsStep_execute working_host (search_for (Some ["github"; "slack"]))).
Proof.
  apply search_depends_on_platform_set; try reflexivity.
  intros name [<-|[<-|[<-|[]]]]; reflexivity.
Defined.

Lemma search_output_feeds_analysis_witness :
  exists t out analyzeInput,
    searchDocumentsStep_execute working_host (search_for (Some ["github"])) = (t, Ok out)
    /\ analyzeInputSchema working_host out = Some analyzeInput
    /\ ai_requireApproval analyzeInput = true.
Proof.
  destruct (search_output_feeds_analysis working_host
              [("query", VStr "X"); ("platforms", strings ["github"])]
              (search_for (Some ["github"])) eq_refl)
    as (t & out & i2 & E & E2 & _ & _ & _ & _ & _ & Hd).
  exists t, out, i2. split; [exact E|]. split; [exact E2 | exact (Hd eq_refl)].
Defined.

Lemma analysis_passes_on_the_parsed_answer_witness :
  exists t out,
    analyzeResultsStep_execute empty_json_host analyze_input = (t, Ok out)
    /\ get "summary" out = VUndefined.
Proof.
  destruct (analysis_passes_on_the_parsed_answer empty_json_host analyze_input "{}"
              (VObj []) eq_refl eq_refl)
    as (t & out & E & _ & _ & _ & Hk & _).
  exists t, out. split; [exact E|].
  rewrite (Hk "summary") by discriminate. reflexivity.
Defined.

Lemma analysis_reads_first_five_results_witness :
  analyzeResultsStep_execute working_host
    (analyze_results [hit 1; hit 2; hit 3; hit 4; hit 5; hit 6] 6)
  = analyzeResultsStep_execute working_host
      (analyze_results [hit 1; hit 2; hit 3; hit 4; hit 5] 0).
Proof. apply analysis_reads_first_five_results; reflexivity. Defined.

Lemma analysis_output_feeds_the_report_witness :
  exists t out reportInput report,
    analyzeResultsStep_execute working_host analyze_input = (t, Ok out)
    /\ reportInputSchema working_host out = Some reportInput
    /\ createReportStep_execute working_host reportInput = ([], Ok report)
    /\ approval_required report = true.
Proof.
  destruct (analysis_output_feeds_the_report working_host analyze_record analyze_input
              "Mostly release notes; relevance is high." eq_refl eq_refl I)
    as (t & out & i3 & report & i4 & E & E3 & Er & _ & _ & _ & _ & _ & Hb & _).
  exists t, out, i3, report. repeat split; assumption.
Defined.

Lemma report_is_the_trimmed_template_witness :
  exists out,
    createReportStep_execute working_host scored_report = ([], Ok out)
    /\ get "reportFormat" out = VStr "markdown".
Proof.
  assert (Hs : safe_integer (ri_relevanceScore scored_report))
    by (unfold safe_integer; cbn; lia).
  destruct (report_is_the_trimmed_template working_host scored_report Hs)
    as (out & E & _ & F & _).
  exists out. split; [exact E | exact F].
Defined.

Lemma normalize_needs_a_branch_result_witness :
  exists inputData,
    normalizeInputSchema working_host [("approved", VBool true)] = Some inputData
    /\ normalizeBranchOutputStep_execute working_host inputData
       = ([], Throw (Error "No branch result found")).
Proof.
  destruct (normalize_needs_a_branch_result working_host) as (H & _).
  exact (H [("approved", VBool true)] eq_refl eq_refl).
Defined.

Lemma branch_results_reach_publish_witness :
  exists out normalizeInput out',
    autoApproveStep_execute working_host report_input = ([], Ok out)
    /\ normalizeInputSchema working_host [("auto-approve", VObj out)] = Some normalizeInput
    /\ normalizeBranchOutputStep_execute working_host normalizeInput = ([], Ok out')
    /\ publishInputSchema working_host out'
       = Some {| pi_approved := true;
                 pi_reportTitle := "Research Report: X";
                 pi_reportContent := "# Research Report: X";
                 pi_publishChannels := Some ["slack"; "email"] |}.
Proof.
  destruct (branch_results_reach_publish working_host report_record report_input eq_refl)
    as (H & _).
  exact H.
Defined.

Lemma final_record_reports_delivery_witness :
  exists t out,
    publishReportStep_execute working_host (publish_input true) = (t, Ok out)
    /\ get "success" (final_output out) = VBool true
    /\ has "urls" (final_output out) = false.
Proof.
  destruct (final_record_reports_delivery working_host (publish_input true) eq_refl)
    as (t & out & E & Ef & _).
  exists t, out. split; [exact E|]. rewrite Ef. split; reflexivity.
Defined.

Lemma publish_reports_what_was_delivered_witness :
  exists t out,
    publishReportStep_execute working_host (publish_input true) = (t, Ok out)
    /\ get "publishedChannels" out = strings ["slack"; "google-drive"; "slack"]
    /\ get "published" out = VBool true.
Proof.
  destruct (publish_reports_what_was_delivered working_host (publish_input true))
    as (t & out & E & _ & H).
  exists t, out. split; [exact E|].
  destruct (H eq_refl) as (urls & -> & _). split; reflexivity.
Defined.

End Instances.

Section OnboardingInstances.
Import Onboard Samples Cases.

Lemma slug_keeps_letters_and_digits_witness :
  filter is_slug_char (list_ascii_of_string (slugify "Apollo Launch 2"))
  = list_ascii_of_string "apollolaunch2".
Proof.
  destruct (slug_keeps_letters_and_digits "Apollo Launch 2") as (H & _).
  - unfold is_ascii. cbn [list_ascii_of_string].
    repeat (apply Forall_cons; [apply Nat.ltb_lt; reflexivity|]). apply Forall_nil.
  - rewrite H. reflexivity.
Defined.

Lemma platform_links_follow_success_witness :
  exists t out,
    createGitHubRepository_execute working_host step1_record = (t, Ok out)
    /\ get "githubSuccess" out = VBool false
    /\ get "repositoryUrl" out = VStr "".
Proof.
  destruct (platform_links_follow_success working_host assistant eq_refl) as (H & _).
  destruct (H step1_record) as (t & out & E & _ & Hs & Hu & _).
  exists t, out. split; [exact E|]. split; [exact Hs | exact Hu].
Defined.

Lemma project_contract_guarantees_witness :
  platforms project_record
  = {| github := true; slack := true; googleDrive := true |}.
Proof.
  destruct (project_contract_guarantees working_host project_input project_record eq_refl)
    as (_ & _ & _ & _ & _ & _ & H & _).
  exact (H eq_refl).
Defined.

Lemma onboarding_links_on_success_witness :
  exists step4 t out links,
    generateProjectSummary_execute working_host step4 = (t, Ok out)
    /\ get "setupLinks" out = VObj links
    /\ get "github" links = VStr "https://github.com/user/apollo-launch".
Proof.
  destruct (onboarding_links_on_success working_host assistant project_input
              project_record eq_refl (fun _ _ _ => eq_refl) eq_refl)
    as (t1 & out1 & step1 & t2 & out2 & step2 & t3 & out3 & step3 & t4 & out4 & step4
        & t5 & out5 & links & text & E1 & S1 & E2 & S2 & E3 & S3 & E4 & S4 & E5
        & P1 & P2 & P3 & P4 & Hslug & F2 & F3 & F4 & Eg & G1 & G2 & G3 & El & Hg & _).
  exists step4, t5, out5, links. split; [exact E5|]. split; [exact El | exact Hg].
Defined.

End OnboardingInstances.

Section DemoInstances.
Import Demo Samples Cases.

Lemma estimate_shrinks_with_team_and_priority_witness :
  (estimated_days 7 "low" <= estimated_days 3 "low")%Z.
Proof.
  destruct (estimate_shrinks_with_team_and_priority 3 7 "low") as (H & _).
  - lia.
  - exact H.
Defined.

Lemma demo_steps_compose_witness :
  exists t out,
    processProjectData_execute working_host demo_project = (t, Ok out)
    /\ get "estimatedDuration" out = VStr "40 days"
    /\ get "slug" out = VStr "apollo-launch".
Proof.
  destruct (demo_steps_compose day_of working_host demo_input demo_project
              (fun _ => eq_refl) eq_refl)
    as (t1 & out1 & processed & _ & _ & _ & _ & _ & E1 & _).
  exists t1, out1. split; [exact E1|].
  injection E1 as _ <-. split; reflexivity.
Defined.

Lemma demo_steps_fail_only_on_console_witness :
  processProjectData_execute closed_console_host demo_project
  = ([], Throw (Error "write EPIPE")).
Proof.
  destruct (demo_steps_fail_only_on_console day_of closed_console_host) as (H & _).
  destruct (H demo_project (Error "write EPIPE")) as (_ & Hfirst).
  exact (Hfirst eq_refl).
Defined.

Lemma demo_report_is_the_trimmed_template_witness :
  exists rest,
    report_text day_of working_host demo_plan
    = "# PROJECT ANALYSIS REPORT" ++ rest.
Proof.
  eexists.
  rewrite (demo_report_is_the_trimmed_template day_of working_host demo_plan
             "6/10/2024, 8:13:20 A" "M" eq_refl eq_refl).
  reflexivity.
Defined.

End DemoInstances.
